(** * FuelMonitorApi: the cumulative-metrics aggregation engine

    A shallow embedding of the metric calculations of
    [internal/database] (fuel deltas, state runtimes, power metrics) and of
    the cumulative handlers of [internal/handlers] (per-site processing,
    summaries, rounding, range queries), with the properties the
    specification states about them.

    Go's [float64] is Rocq's primitive binary64 [float], every operation
    rounded on its own (as on amd64, where products and sums are not
    fused); Go's [time.Time] is a number of nanoseconds on the UTC time line
    and [time.Duration] a 64-bit count of nanoseconds, at which [Sub]
    saturates; a call that returns [(value, error)] returns a [Res]. The
    counters of the summaries are Go [int]s that count the elements of a
    slice, far from 2^63, and are plain integers here. The relational store
    is an external collaborator: its answers to the queries are fields of
    the record [DB], and the upserts sent to it are returned in a list.
    The goroutines of a site and of a batch only read the store and join
    before their results are used; they are run one after the other. The
    batches of a request are merged in the order in which their goroutines
    finish: that order is a parameter of the functions that start them. The
    timestamps taken from the clock ([CalculatedAt]) are left out. *)

From Stdlib Require Import ZArith List String Ascii Bool Lia Floats Uint63.
From Stdlib Require Import Permutation Sorted.
Import ListNotations.

Set Warnings "-inexact-float".
Local Open Scope Z_scope.

(** ** Fallible calls *)

Inductive Res (A : Type) : Type :=
| Ok (a : A)
| Err (msg : string).
Arguments Ok {A} a.
Arguments Err {A} msg.

(** [fmt.Sprintf("%v", err)] for an [error] that may be nil. *)
Definition show_error (e : option string) : string :=
  match e with
  | Some msg => msg
  | None => "<nil>"%string
  end.

Definition error_of {A : Type} (r : Res A) : option string :=
  match r with
  | Ok _ => None
  | Err msg => Some msg
  end.

(** ** float64 and its conversions *)

Module Float64.

Definition int64_min : Z := - 2 ^ 63.
Definition int64_max : Z := 2 ^ 63 - 1.

(** [float64(n)] for an integer [n]: the nearest binary64 value. *)
Definition of_int (n : Z) : float :=
  SF2Prim (binary_normalize prec emax n 0 false).

(** The integer part of a finite float, rounded toward zero. *)
Definition trunc_SF (x : spec_float) : option Z :=
  match x with
  | S754_zero _ => Some 0
  | S754_finite s m e =>
      let t := Z.shiftl (Zpos m) e in
      Some (if s then - t else t)
  | _ => None
  end.

(** [int(f)]: truncation toward zero. Go leaves the result open when the
    value does not fit the integer type; this is the amd64 answer, the
    "integer indefinite" value [-2^63]. *)
Definition to_int (f : float) : Z :=
  match trunc_SF (Prim2SF f) with
  | Some v => if (int64_min <=? v) && (v <=? int64_max) then v else int64_min
  | None => int64_min
  end.

(** [math.Floor]: the largest integral value at or below [f]; zeros,
    infinities and NaN are returned as they are. *)
Definition floor (f : float) : float :=
  match Prim2SF f with
  | S754_finite s m e =>
      let v := Z.shiftl (if s then Zneg m else Zpos m) e in
      if v =? 0 then zero else of_int v
  | _ => f
  end.

(** [max(0, x)] on floats: [x] when it is above zero, zero otherwise. *)
Definition max0 (x : float) : float :=
  if (0 <? x)%float then x else 0%float.

End Float64.

(** ** time.Time and time.Duration *)

Module GoTime.

(** An instant: nanoseconds since the Unix epoch, in UTC. *)
Definition Time : Type := Z.

(** A duration: nanoseconds, a 64-bit signed integer. *)
Definition Duration : Type := Z.

Definition Nanosecond : Duration := 1.
Definition Second : Duration := 1000000000.
Definition Hour : Duration := 3600 * Second.
Definition Day : Duration := 24 * Hour.

Definition minDuration : Duration := Float64.int64_min.
Definition maxDuration : Duration := Float64.int64_max.

(** [t.Sub(u)]: the difference, or the extreme duration when it does not
    fit 64 bits. *)
Definition Sub (t u : Time) : Duration :=
  let d := t - u in
  if d <? minDuration then minDuration
  else if maxDuration <? d then maxDuration
  else d.

Definition Before (t u : Time) : bool := t <? u.
Definition Equal (t u : Time) : bool := t =? u.

(** [d.Hours()]: whole hours and the rest are converted separately. *)
Definition Hours (d : Duration) : float :=
  let hour := Z.quot d Hour in
  let nsec := Z.rem d Hour in
  (Float64.of_int hour + Float64.of_int nsec / 3.6e12)%float.

(** [time.Date(y, m, d, 0, 0, 0, 0, time.UTC)] for the calendar day
    numbered [day] (days since 1970-01-01). *)
Definition midnight (day : Z) : Time := day * Day.

(** Days since 1970-01-01 of a date of the proleptic Gregorian calendar. *)
Definition days_from_civil (y m d : Z) : Z :=
  let y' := if m <=? 2 then y - 1 else y in
  let era := y' / 400 in
  let yoe := y' - era * 400 in
  let doy := (153 * (if 2 <? m then m - 3 else m + 9) + 2) / 5 + d - 1 in
  let doe := yoe * 365 + yoe / 4 - yoe / 100 + doy in
  era * 146097 + doe - 719468.

(** The instant that [time.Parse("2006-01-02", ...)] returns. *)
Definition date (y m d : Z) : Time := midnight (days_from_civil y m d).

End GoTime.

(** ** The store, as the code sees it *)

(** [rows.Scan] of one row either fills the variables or fails. *)
Inductive Scan (A : Type) : Type :=
| Scanned (a : A)
| ScanError.
Arguments Scanned {A} a.
Arguments ScanError {A}.

(** A row of [SELECT value, time FROM sensor_readings]. *)
Record StateRow := mkStateRow {
  sr_value : string;
  sr_time : GoTime.Time
}.

(** A row of [SELECT value, time, sensor_name FROM sensor_readings]. *)
Record FuelRow := mkFuelRow {
  fr_value : string;
  fr_time : GoTime.Time;
  fr_sensor : string
}.

Record FuelMetrics := mkFuelMetrics {
  TotalFuelConsumed : float;
  TotalFuelTopped : float;
  FuelConsumedPercent : float;
  FuelToppedPercent : float
}.

Record PowerMetrics := mkPowerMetrics {
  TotalGeneratorRuntime : float;
  TotalZesaRuntime : float;
  TotalOfflineTime : float
}.

(** The arguments of the [INSERT ... ON CONFLICT (site_id, date) DO UPDATE]
    command (the metrics are sent formatted with ["%.2f"]). *)
Record Upsert := mkUpsert {
  up_site : Z;
  up_device : string;
  up_date : string;
  up_fuel : FuelMetrics;
  up_power : PowerMetrics
}.

(** The row of the aggregate query of the range variant, as the store
    returns it: a count, and sums and dates that are NULL ([None]) when no
    reading matches. *)
Record RangeRow := mkRangeRow {
  reading_days : Z;
  total_fuel_consumed : option float;
  total_fuel_topped : option float;
  total_generator_hours : option float;
  total_zesa_hours : option float;
  total_offline_hours : option float;
  first_date : option string;
  last_date : option string
}.

(** The answers of the store to the queries and commands of this
    package. *)
Record DB := mkDB {
  (* SELECT COUNT( * ) ... sensor_name = 'generator_state' AND
     (value = '1' OR value = '1.0'), by device and window *)
  count_generator_on : string -> GoTime.Time -> GoTime.Time -> Res Z;
  (* the level and volume readings of a device in a window, by time *)
  query_fuel : string -> GoTime.Time -> GoTime.Time -> Res (list (Scan FuelRow));
  (* the readings of one state sensor of a device in a window, by time *)
  query_state : string -> string -> GoTime.Time -> GoTime.Time -> Res (list (Scan StateRow));
  (* the upsert of a cumulative reading *)
  exec_upsert : Upsert -> Res unit;
  (* the aggregate over cumulative_readings of a site between two dates *)
  query_range : Z -> string -> string -> Res RangeRow
}.

(** ** internal/database: the metric calculations *)

Module Database.

Import GoTime.

(** A parsed fuel reading. *)
Record Reading := mkReading {
  Value : float;
  ReadingTime : Time
}.

Definition zeroReading : Reading := mkReading 0%float 0.

(** [a[i]] on a slice (the loops below stay inside the bounds). *)
Definition index (a : list Reading) (i : nat) : Reading := nth i a zeroReading.

(** The window of a calendar day: from midnight UTC to one nanosecond
    before the next. *)
Definition startOfDay (day : Z) : Time := midnight day.
Definition endOfDay (day : Z) : Time := startOfDay day + 24 * Hour + - 1 * Nanosecond.

(** [hasGeneratorActivity]: a positive count of ON samples. *)
Definition hasGeneratorActivity (db : DB) (deviceID : string) (startOfDay endOfDay : Time)
  : Res bool :=
  match count_generator_on db deviceID startOfDay endOfDay with
  | Err e => Err e
  | Ok count => Ok (0 <? count)
  end.

(** One turn of the level loop of [CalculateFuelChanges]: the pair is
    (totalConsumedPercent, totalToppedPercent). *)
Definition levelStep (hasGeneratorRuntime : bool) (levelReadings : list Reading)
    (i : nat) (totals : float * float) : float * float :=
  let '(totalConsumedPercent, totalToppedPercent) := totals in
  let prev := Value (index levelReadings (i - 1)) in
  let curr := Value (index levelReadings i) in
  let change := (curr - prev)%float in
  let changePercent := abs change in
  if negb hasGeneratorRuntime && (changePercent <? 2.0)%float then
    totals
  else if (0 <? change)%float then
    (totalConsumedPercent, (totalToppedPercent + change)%float)
  else if (change <? 0)%float then
    ((totalConsumedPercent + - change)%float, totalToppedPercent)
  else totals.

(** One turn of the volume loop: the pair is
    (totalConsumedVolume, totalToppedVolume). *)
Definition volumeStep (hasGeneratorRuntime : bool) (volumeReadings : list Reading)
    (i : nat) (totals : float * float) : float * float :=
  let '(totalConsumedVolume, totalToppedVolume) := totals in
  let prev := Value (index volumeReadings (i - 1)) in
  let curr := Value (index volumeReadings i) in
  let change := (curr - prev)%float in
  let skip :=
    if (0 <? prev)%float then
      let changePercent := (abs change / prev * 100)%float in
      negb hasGeneratorRuntime && (changePercent <? 2.0)%float
    else false in
  if skip then
    totals
  else if (0 <? change)%float then
    (totalConsumedVolume, (totalToppedVolume + change)%float)
  else if (change <? 0)%float then
    ((totalConsumedVolume + - change)%float, totalToppedVolume)
  else totals.

(** [for i := 1; i < len(readings); i++ { ... }]: [n] turns are left and
    the next index is [i]. *)
Fixpoint loopFrom (step : nat -> float * float -> float * float)
    (n i : nat) (totals : float * float) : float * float :=
  match n with
  | O => totals
  | S n' => loopFrom step n' (S i) (step i totals)
  end.

Definition levelChanges (hasGeneratorRuntime : bool) (levelReadings : list Reading)
  : float * float :=
  loopFrom (levelStep hasGeneratorRuntime levelReadings)
           (List.length levelReadings - 1) 1 (0%float, 0%float).

Definition volumeChanges (hasGeneratorRuntime : bool) (volumeReadings : list Reading)
  : float * float :=
  loopFrom (volumeStep hasGeneratorRuntime volumeReadings)
           (List.length volumeReadings - 1) 1 (0%float, 0%float).

(** The state of the loop of [calculateStateRuntime]. *)
Record RuntimeState := mkRuntimeState {
  runtime : float;
  lastTime : Time;
  lastState : bool;
  hasData : bool
}.

Definition initialRuntimeState : RuntimeState := mkRuntimeState 0%float 0 false false.

(** A state value is ON when its text is "1" or "1.0". *)
Definition isOn (valueStr : string) : bool :=
  String.eqb valueStr "1" || String.eqb valueStr "1.0".

Definition runtimeStep (st : RuntimeState) (row : Scan StateRow) : RuntimeState :=
  match row with
  | ScanError => st
  | Scanned r =>
      let timestamp := sr_time r in
      let currentState := isOn (sr_value r) in
      let runtime' :=
        if hasData st && lastState st then
          (runtime st + Hours (Sub timestamp (lastTime st)))%float
        else runtime st in
      mkRuntimeState runtime' timestamp currentState true
  end.

Definition calculateStateRuntime (db : DB) (deviceID sensorName : string)
    (startOfDay endOfDay : Time) : Res float :=
  match query_state db deviceID sensorName startOfDay endOfDay with
  | Err e => Err ("failed to get state readings: " ++ e)%string
  | Ok rows =>
      let st := fold_left runtimeStep rows initialRuntimeState in
      if hasData st && lastState st && Before (lastTime st) endOfDay then
        Ok (runtime st + Hours (Sub endOfDay (lastTime st)))%float
      else Ok (runtime st)
  end.

(** The offline time of a day from the two runtimes. *)
Definition offlineHours (generatorHours zesaHours : float) : float :=
  let totalActiveHours := (generatorHours + zesaHours)%float in
  if (totalActiveHours <? 24)%float then (24 - totalActiveHours)%float else 0%float.

Definition CalculatePowerRuntimes (db : DB) (deviceID : string) (day : Z)
  : Res PowerMetrics :=
  let startOfDay := startOfDay day in
  let endOfDay := endOfDay day in
  match calculateStateRuntime db deviceID "generator_state" startOfDay endOfDay with
  | Err e => Err ("failed to calculate generator runtime: " ++ e)%string
  | Ok generatorHours =>
      match calculateStateRuntime db deviceID "zesa_state" startOfDay endOfDay with
      | Err e => Err ("failed to calculate zesa runtime: " ++ e)%string
      | Ok zesaHours =>
          Ok {| TotalGeneratorRuntime := generatorHours;
                TotalZesaRuntime := zesaHours;
                TotalOfflineTime := offlineHours generatorHours zesaHours |}
      end
  end.

(** [CreateOrUpdateCumulativeReading]: one upsert command. *)
Definition CreateOrUpdateCumulativeReading (db : DB) (siteID : Z) (deviceID date : string)
    (fuelMetrics : FuelMetrics) (powerMetrics : PowerMetrics) : Res unit * list Upsert :=
  let cmd := mkUpsert siteID deviceID date fuelMetrics powerMetrics in
  match exec_upsert db cmd with
  | Err e => (Err ("failed to create or update cumulative reading: " ++ e)%string, [cmd])
  | Ok r => (Ok r, [cmd])
  end.

Section Parsing.

(** [strconv.ParseFloat(s, 64)], [None] when it returns an error. *)
Variable ParseFloat : string -> option float.

(** The loop over the fuel rows: rows that do not scan or do not parse
    are passed over, the others are appended to the slice of their
    sensor. *)
Definition readingStep (slices : list Reading * list Reading) (row : Scan FuelRow)
  : list Reading * list Reading :=
  let '(levelReadings, volumeReadings) := slices in
  match row with
  | ScanError => slices
  | Scanned r =>
      match ParseFloat (fr_value r) with
      | None => slices
      | Some value =>
          let reading := mkReading value (fr_time r) in
          if String.eqb (fr_sensor r) "fuel_sensor_level" then
            ((levelReadings ++ [reading])%list, volumeReadings)
          else if String.eqb (fr_sensor r) "fuel_sensor_volume" then
            (levelReadings, (volumeReadings ++ [reading])%list)
          else slices
      end
  end.

Definition CalculateFuelChanges (db : DB) (deviceID : string) (day : Z)
  : Res FuelMetrics :=
  let startOfDay := startOfDay day in
  let endOfDay := endOfDay day in
  match hasGeneratorActivity db deviceID startOfDay endOfDay with
  | Err e => Err ("failed to check generator activity: " ++ e)%string
  | Ok hasGeneratorRuntime =>
      match query_fuel db deviceID startOfDay endOfDay with
      | Err e => Err ("failed to get fuel readings: " ++ e)%string
      | Ok rows =>
          let '(levelReadings, volumeReadings) := fold_left readingStep rows ([], []) in
          let '(totalConsumedPercent, totalToppedPercent) :=
            levelChanges hasGeneratorRuntime levelReadings in
          let '(totalConsumedVolume, totalToppedVolume) :=
            volumeChanges hasGeneratorRuntime volumeReadings in
          Ok {| TotalFuelConsumed := totalConsumedVolume;
                TotalFuelTopped := totalToppedVolume;
                FuelConsumedPercent := totalConsumedPercent;
                FuelToppedPercent := totalToppedPercent |}
      end
  end.

End Parsing.

End Database.

(** ** internal/models: the records of the cumulative handlers

    Several structs of the package share field names; where they do, the
    field carries the name of its struct here: [ResultDeviceID] and the
    [Result...Percent] fields belong to [CumulativeSiteResult], the [Sum...]
    fields are the [Total...] fields of [CumulativeSummary], the [Range...]
    fields are the fields of [CumulativeSiteRangeResult] and the
    [RangeTotal...] fields those of [CumulativeRangeSummary]. *)

Record Site := mkSite {
  ID : Z;
  Name : string;
  DeviceID : string
}.

(** A persisted reading, as [GetExistingCumulativeReadings] scans it. *)
Record CumulativeReading := mkCumulativeReading {
  cr_SiteID : Z;
  cr_DeviceID : string;
  cr_Date : string
}.

Record CumulativeSiteResult := mkCumulativeSiteResult {
  SiteID : Z;
  SiteName : string;
  ResultDeviceID : string;
  FuelConsumed : float;
  FuelTopped : float;
  ResultFuelConsumedPercent : float;
  ResultFuelToppedPercent : float;
  GeneratorHours : float;
  ZesaHours : float;
  OfflineHours : float;
  Status : string;
  Error : string
}.

Record CumulativeSummary := mkCumulativeSummary {
  TotalSites : Z;
  ProcessedSites : Z;
  ErrorSites : Z;
  SumFuelConsumed : float;
  SumFuelTopped : float;
  SumGeneratorHours : float;
  SumZesaHours : float;
  SumOfflineHours : float
}.

Record DateRange := mkDateRange {
  Start : string;
  End_ : string;
  IsRange : bool
}.

Record CumulativeSiteRangeResult := mkCumulativeSiteRangeResult {
  RangeSiteID : Z;
  RangeSiteName : string;
  RangeDeviceID : string;
  RangeFuelConsumed : float;
  RangeFuelTopped : float;
  RangeGeneratorHours : float;
  RangeZesaHours : float;
  RangeOfflineHours : float;
  ReadingDays : Z;
  SiteDateRange : DateRange
}.

Record CumulativeRangeSummary := mkCumulativeRangeSummary {
  SummaryDateRange : DateRange;
  RangeTotalSites : Z;
  RangeTotalFuelConsumed : float;
  RangeTotalFuelTopped : float;
  RangeTotalGeneratorHours : float;
  RangeTotalZesaHours : float;
  RangeTotalOfflineHours : float;
  AverageFuelPerSite : float;
  DaysIncluded : Z
}.

(** ** internal/handlers: the cumulative handlers *)

Module Handlers.

Import GoTime.

(** [roundToDecimal]: the multiplier is built by [decimals] products. *)
Definition multiplier (decimals : Z) : float :=
  Nat.iter (Z.to_nat decimals) (fun m => (m * 10)%float) 1.0%float.

Definition roundToDecimal (val : float) (decimals : Z) : float :=
  let multiplier := multiplier decimals in
  (Float64.of_int (Float64.to_int (val * multiplier + 0.5)) / multiplier)%float.

(** The accumulators of the loop of [calculateSummary]. *)
Record SummaryState := mkSummaryState {
  totalFuelConsumed : float;
  totalFuelTopped : float;
  totalGeneratorHours : float;
  totalZesaHours : float;
  totalOfflineHours : float;
  processedSites : Z;
  errorSites : Z
}.

Definition initialSummaryState : SummaryState :=
  mkSummaryState 0%float 0%float 0%float 0%float 0%float 0 0.

Definition summaryStep (st : SummaryState) (result : CumulativeSiteResult) : SummaryState :=
  if String.eqb (Status result) "ERROR" then
    mkSummaryState (totalFuelConsumed st) (totalFuelTopped st) (totalGeneratorHours st)
                   (totalZesaHours st) (totalOfflineHours st)
                   (processedSites st) (errorSites st + 1)
  else
    mkSummaryState (totalFuelConsumed st + FuelConsumed result)%float
                   (totalFuelTopped st + FuelTopped result)%float
                   (totalGeneratorHours st + GeneratorHours result)%float
                   (totalZesaHours st + ZesaHours result)%float
                   (totalOfflineHours st + OfflineHours result)%float
                   (processedSites st + 1) (errorSites st).

Definition calculateSummary (results : list CumulativeSiteResult) (totalSites : Z)
  : CumulativeSummary :=
  let st := fold_left summaryStep results initialSummaryState in
  {| TotalSites := totalSites;
     ProcessedSites := processedSites st;
     ErrorSites := errorSites st;
     SumFuelConsumed := roundToDecimal (totalFuelConsumed st) 1;
     SumFuelTopped := roundToDecimal (totalFuelTopped st) 1;
     SumGeneratorHours := roundToDecimal (totalGeneratorHours st) 2;
     SumZesaHours := roundToDecimal (totalZesaHours st) 2;
     SumOfflineHours := roundToDecimal (totalOfflineHours st) 2 |}.

(** [calculateDaysDifference]. *)
Definition calculateDaysDifference (startDate endDate : Time) : Z :=
  if Equal startDate endDate then 1
  else
    let diff := Sub endDate startDate in
    Float64.to_int (Hours diff / 24)%float + 1.

(** The variables that [Scan] fills from the row of the range query. *)
Record RangeScan := mkRangeScan {
  readingDays : Z;
  scanFuelConsumed : float;
  scanFuelTopped : float;
  scanGeneratorHours : float;
  scanZesaHours : float;
  scanOfflineHours : float;
  firstDate : string;
  lastDate : string
}.

(** [QueryRow(...).Scan(...)]: the query may fail, and a NULL column
    cannot be stored in a [float64] or [string] variable. *)
Definition scanRange (answer : Res RangeRow) : Res RangeScan :=
  match answer with
  | Err e => Err e
  | Ok row =>
      match total_fuel_consumed row, total_fuel_topped row, total_generator_hours row,
            total_zesa_hours row, total_offline_hours row with
      | Some fc, Some ft, Some gh, Some zh, Some oh =>
          match first_date row, last_date row with
          | Some fd, Some ld => Ok (mkRangeScan (reading_days row) fc ft gh zh oh fd ld)
          | _, _ => Err "converting NULL to string is unsupported"
          end
      | _, _, _, _, _ => Err "converting NULL to float64 is unsupported"
      end
  end.

(** [getSiteRangeData]: [None] is the nil pointer. *)
Definition getSiteRangeData (db : DB) (site : Site) (startDate endDate : string)
  : option CumulativeSiteRangeResult :=
  match scanRange (query_range db (ID site) startDate endDate) with
  | Err _ => None
  | Ok s =>
      if readingDays s =? 0 then None
      else
        Some {| RangeSiteID := ID site;
                RangeSiteName := Name site;
                RangeDeviceID := DeviceID site;
                RangeFuelConsumed := roundToDecimal (scanFuelConsumed s) 1;
                RangeFuelTopped := roundToDecimal (scanFuelTopped s) 1;
                RangeGeneratorHours := roundToDecimal (scanGeneratorHours s) 2;
                RangeZesaHours := roundToDecimal (scanZesaHours s) 2;
                RangeOfflineHours := roundToDecimal (scanOfflineHours s) 2;
                ReadingDays := readingDays s;
                SiteDateRange :=
                  {| Start := firstDate s; End_ := lastDate s; IsRange := false |} |}
  end.

Definition rangeBatchStep (db : DB) (startDate endDate : string)
    (results : list CumulativeSiteRangeResult) (site : Site)
  : list CumulativeSiteRangeResult :=
  match getSiteRangeData db site startDate endDate with
  | Some result => (results ++ [result])%list
  | None => results
  end.

Definition processSiteRangeBatch (db : DB) (sites : list Site) (startDate endDate : string)
  : list CumulativeSiteRangeResult :=
  fold_left (rangeBatchStep db startDate endDate) sites [].

(** The accumulators of the loop of [calculateRangeSummary]. *)
Definition rangeSummaryStep (totals : float * float * float * float * float)
    (result : CumulativeSiteRangeResult) : float * float * float * float * float :=
  let '(fc, ft, gh, zh, oh) := totals in
  ((fc + RangeFuelConsumed result)%float,
   (ft + RangeFuelTopped result)%float,
   (gh + RangeGeneratorHours result)%float,
   (zh + RangeZesaHours result)%float,
   (oh + RangeOfflineHours result)%float).

Definition calculateRangeSummary (results : list CumulativeSiteRangeResult)
    (startDate endDate : string) (startDateTime endDateTime : Time)
  : CumulativeRangeSummary :=
  let '(totalFuelConsumed, totalFuelTopped, totalGeneratorHours, totalZesaHours,
        totalOfflineHours) :=
    fold_left rangeSummaryStep results (0%float, 0%float, 0%float, 0%float, 0%float) in
  let averageFuelPerSite :=
    if (0 <? Z.of_nat (List.length results)) then
      (totalFuelConsumed / Float64.of_int (Z.of_nat (List.length results)))%float
    else 0%float in
  {| SummaryDateRange :=
       {| Start := startDate;
          End_ := endDate;
          IsRange := negb (String.eqb startDate endDate) |};
     RangeTotalSites := Z.of_nat (List.length results);
     RangeTotalFuelConsumed := roundToDecimal totalFuelConsumed 1;
     RangeTotalFuelTopped := roundToDecimal totalFuelTopped 1;
     RangeTotalGeneratorHours := roundToDecimal totalGeneratorHours 2;
     RangeTotalZesaHours := roundToDecimal totalZesaHours 2;
     RangeTotalOfflineHours := roundToDecimal totalOfflineHours 2;
     AverageFuelPerSite := roundToDecimal averageFuelPerSite 1;
     DaysIncluded := calculateDaysDifference startDateTime endDateTime |}.

Section SingleDay.

Variable ParseFloat : string -> option float.

(** [processSingleSite]: the result of the site and the upserts sent
    to the store. Both metric calculations run before the errors are
    looked at. *)
Definition processSingleSite (db : DB) (site : Site)
    (existingReading : option CumulativeReading) (day : Z) (dateString : string)
  : CumulativeSiteResult * list Upsert :=
  let fuel := Database.CalculateFuelChanges ParseFloat db (DeviceID site) day in
  let power := Database.CalculatePowerRuntimes db (DeviceID site) day in
  match fuel, power with
  | Ok fuelMetrics, Ok powerMetrics =>
      let '(saved, sent) :=
        Database.CreateOrUpdateCumulativeReading db (ID site) (DeviceID site) dateString
          fuelMetrics powerMetrics in
      match saved with
      | Err e =>
          ({| SiteID := ID site;
              SiteName := Name site;
              ResultDeviceID := DeviceID site;
              FuelConsumed := 0; FuelTopped := 0;
              ResultFuelConsumedPercent := 0; ResultFuelToppedPercent := 0;
              GeneratorHours := 0; ZesaHours := 0; OfflineHours := 0;
              Status := "ERROR";
              Error := e |}, sent)
      | Ok _ =>
          let status :=
            match existingReading with
            | Some _ => "UPDATED"%string
            | None => "CREATED"%string
            end in
          ({| SiteID := ID site;
              SiteName := Name site;
              ResultDeviceID := DeviceID site;
              FuelConsumed := TotalFuelConsumed fuelMetrics;
              FuelTopped := TotalFuelTopped fuelMetrics;
              ResultFuelConsumedPercent := FuelConsumedPercent fuelMetrics;
              ResultFuelToppedPercent := FuelToppedPercent fuelMetrics;
              GeneratorHours := TotalGeneratorRuntime powerMetrics;
              ZesaHours := TotalZesaRuntime powerMetrics;
              OfflineHours := TotalOfflineTime powerMetrics;
              Status := status;
              Error := "" |}, sent)
      end
  | _, _ =>
      ({| SiteID := ID site;
          SiteName := Name site;
          ResultDeviceID := DeviceID site;
          FuelConsumed := 0; FuelTopped := 0;
          ResultFuelConsumedPercent := 0; ResultFuelToppedPercent := 0;
          GeneratorHours := 0; ZesaHours := 0; OfflineHours := 0;
          Status := "ERROR";
          Error := ("Calculation error: fuel=" ++ show_error (error_of fuel)
                    ++ ", power=" ++ show_error (error_of power))%string |}, [])
  end.

(** [processBatch]: the sites of a batch one after the other;
    [existingReadings] is the map from site identifiers to the readings
    that exist for the day. *)
Definition batchStep (db : DB) (existingReadings : Z -> option CumulativeReading)
    (day : Z) (dateString : string)
    (acc : list CumulativeSiteResult * list Upsert) (site : Site)
  : list CumulativeSiteResult * list Upsert :=
  let '(results, sent) := acc in
  let '(result, sent') :=
    processSingleSite db site (existingReadings (ID site)) day dateString in
  ((results ++ [result])%list, (sent ++ sent')%list).

Definition processBatch (db : DB) (sites : list Site)
    (existingReadings : Z -> option CumulativeReading) (day : Z) (dateString : string)
  : list CumulativeSiteResult * list Upsert :=
  fold_left (batchStep db existingReadings day dateString) sites ([], []).

End SingleDay.

End Handlers.

(** ** The specification's reference definitions *)

Module Spec.

Import GoTime.

(** The samples of a query answer: the rows that were scanned. *)
Definition samples {A : Type} (rows : list (Scan A)) : list A :=
  flat_map (fun row => match row with Scanned a => [a] | ScanError => [] end) rows.





(** The consecutive deltas of a sequence of readings, each with the
    reading before it: (previous, current - previous). *)
Fixpoint deltas (values : list float) : list (float * float) :=
  match values with
  | [] => []
  | previous :: rest =>
      match rest with
      | [] => []
      | current :: _ => (previous, (current - previous)%float) :: deltas rest
      end
  end.

(** Classification: a positive delta is topped, a negative one is
    consumed by its absolute value, a zero delta is nothing. The pair is
    (consumed, topped). *)
Definition classify (totals : float * float) (delta : float) : float * float :=
  if (0 <? delta)%float then (fst totals, (snd totals + delta)%float)
  else if (delta <? 0)%float then ((fst totals + - delta)%float, snd totals)
  else totals.

Definition accumulate (kept : list (float * float)) : float * float :=
  fold_left classify (map snd kept) (0%float, 0%float).

(** The noise gate of the level sequence, generator inactive: a delta is
    discarded when its magnitude is below 2.0. *)
Definition levelDiscarded (d : float * float) : bool :=
  (abs (snd d) <? 2.0)%float.

(** The noise gate of the volume sequence, generator inactive: a delta is
    discarded when the previous reading is above zero and the magnitude
    is below 2.0 percent of it. *)
Definition volumeDiscarded (d : float * float) : bool :=
  (0 <? fst d)%float && (abs (snd d) / fst d * 100 <? 2.0)%float.

(** The sequence of one fuel sensor: the values of the rows of that
    sensor that scan and parse, in the order of the answer. *)
Definition sequenceOf (ParseFloat : string -> option float) (sensor : string)
    (rows : list (Scan FuelRow)) : list float :=
  flat_map (fun row =>
              match row with
              | Scanned r =>
                  if String.eqb (fr_sensor r) sensor then
                    match ParseFloat (fr_value r) with
                    | Some value => [value]
                    | None => []
                    end
                  else []
              | ScanError => []
              end) rows.

(** The deltas that pass the noise gate: all of them when the generator
    was active, those that are not discarded when it was not. *)
Definition gated (generatorActive : bool) (discarded : float * float -> bool)
    (ds : list (float * float)) : list (float * float) :=
  filter (fun d => negb (negb generatorActive && discarded d)) ds.

(** The sum of a list of floats, from the left. *)
Definition sum (values : list float) : float :=
  fold_left PrimFloat.add values 0%float.

Definition isError (result : CumulativeSiteResult) : bool :=
  String.eqb (Status result) "ERROR".

(** The results that are not errors. *)
Definition processed (results : list CumulativeSiteResult) : list CumulativeSiteResult :=
  filter (fun result => negb (isError result)) results.

End Spec.

(** ** Auxiliary definitions of the proofs *)


(** A loop over the consecutive pairs of a list. *)
Fixpoint walkPairs {T : Type} (f : float -> float -> T -> T) (values : list float)
    (totals : T) : T :=
  match values with
  | [] => totals
  | previous :: rest =>
      match rest with
      | [] => totals
      | current :: _ => walkPairs f rest (f previous current totals)
      end
  end.

(** The bodies of the two loops of [CalculateFuelChanges], on a pair of
    readings. *)
Definition levelPair (hasGeneratorRuntime : bool) (prev curr : float)
    (totals : float * float) : float * float :=
  let change := (curr - prev)%float in
  if negb hasGeneratorRuntime && (abs change <? 2.0)%float then totals
  else Spec.classify totals change.

Definition volumePair (hasGeneratorRuntime : bool) (prev curr : float)
    (totals : float * float) : float * float :=
  let change := (curr - prev)%float in
  if (if (0 <? prev)%float
      then negb hasGeneratorRuntime && (abs change / prev * 100 <? 2.0)%float
      else false)
  then totals
  else Spec.classify totals change.

(** Readings from their values (the times play no part in the deltas). *)
Definition readings (values : list float) : list Database.Reading :=
  map (fun v => Database.mkReading v 0) values.

(** The storage failures that can stop the metric calculations of a site:
    one of the four queries of the day returns an error. *)
Definition storageFailure (db : DB) (site : Site) (day : Z) : Prop :=
  let s := Database.startOfDay day in
  let e := Database.endOfDay day in
  error_of (count_generator_on db (DeviceID site) s e) <> None
  \/ error_of (query_fuel db (DeviceID site) s e) <> None
  \/ error_of (query_state db (DeviceID site) "generator_state" s e) <> None
  \/ error_of (query_state db (DeviceID site) "zesa_state" s e) <> None.

(** The entry of a site in the list of a range batch: none for a nil
    result. *)
Definition rangeEntry (db : DB) (startDate endDate : string) (site : Site)
  : list CumulativeSiteRangeResult :=
  match Handlers.getSiteRangeData db site startDate endDate with
  | Some result => [result]
  | None => []
  end.

(** The rows that pass the scan and the test on the count of days. *)
Definition rangeScans (db : DB) (startDate endDate : string) (sites : list Site)
  : list Handlers.RangeScan :=
  flat_map (fun site =>
              match Handlers.scanRange (query_range db (ID site) startDate endDate) with
              | Ok s => if Handlers.readingDays s =? 0 then [] else [s]
              | Err _ => []
              end) sites.

(** ** Example stores *)

Module Examples.

Definition siteA : Site := mkSite 1 "Alpha" "dev-a".
Definition siteB : Site := mkSite 2 "Beta" "dev-b".
Definition siteC : Site := mkSite 3 "Gamma" "dev-c".

Definition noParse : string -> option float := fun _ => None.

(** The aggregate row of a site with no reading in the window. *)
Definition noDays : RangeRow := mkRangeRow 0 None None None None None None None.

(** The aggregate row of a site with readings on [days] days that sum to
    [fuel] litres consumed. *)
Definition someDays (days : Z) (fuel : float) : RangeRow :=
  mkRangeRow days (Some fuel) (Some 0%float) (Some 0%float) (Some 0%float)
             (Some 0%float) (Some "2024-01-01"%string) (Some "2024-01-03"%string).

(** A store whose sensor queries answer with no rows, and whose range
    query finds nothing for site 1, 0.04 litres for sites 2 and 3, and
    fails for any other site. *)
Definition rangeStore : DB :=
  mkDB (fun _ _ _ => Ok 0) (fun _ _ _ => Ok []) (fun _ _ _ _ => Ok [])
       (fun _ => Ok tt)
       (fun id _ _ =>
          if id =? 1 then Ok noDays
          else if id =? 2 then Ok (someDays 3 0.04%float)
          else if id =? 3 then Ok (someDays 2 0.04%float)
          else Err "connection refused"%string).

(** The same store with the sensor queries of device dev-a failing. *)
Definition sensorsDown : DB :=
  mkDB (fun _ _ _ => Ok 0)
       (fun device _ _ =>
          if String.eqb device "dev-a" then Err "connection refused"%string else Ok [])
       (fun _ _ _ _ => Ok [])
       (fun _ => Ok tt)
       (query_range rangeStore).

Definition siteD : Site := mkSite 4 "Delta" "dev-d".

(** A parser that knows the texts of the examples. *)
Definition parseKnown (text : string) : option float :=
  if String.eqb text "50" then Some 50%float
  else if String.eqb text "48" then Some 48%float
  else if String.eqb text "53" then Some 53%float
  else if String.eqb text "100" then Some 100%float
  else if String.eqb text "101" then Some 101%float
  else if String.eqb text "104" then Some 104%float
  else None.

(** A day of device dev-a with no ON sample of the generator, the levels
    50, 48, 53 and the volumes 100, 101, 104 among a row that does not scan
    and a row that does not parse. *)
Definition idleDay : DB :=
  mkDB (fun _ _ _ => Ok 0)
       (fun _ _ _ =>
          Ok [Scanned (mkFuelRow "50" 1 "fuel_sensor_level");
              Scanned (mkFuelRow "100" 1 "fuel_sensor_volume");
              ScanError;
              Scanned (mkFuelRow "48" 2 "fuel_sensor_level");
              Scanned (mkFuelRow "n/a" 2 "fuel_sensor_volume");
              Scanned (mkFuelRow "101" 3 "fuel_sensor_volume");
              Scanned (mkFuelRow "53" 3 "fuel_sensor_level");
              Scanned (mkFuelRow "104" 4 "fuel_sensor_volume")])
       (fun _ _ _ _ => Ok [])
       (fun _ => Ok tt)
       (fun _ _ _ => Err "connection refused"%string).

End Examples.

(** ** Checking a property on a range of integers *)

(** [p] holds on the [n] integers from [lo] on. *)
Fixpoint allFrom (p : Z -> bool) (lo : Z) (n : nat) : bool :=
  match n with
  | O => true
  | S n' => p lo && allFrom p (lo + 1) n'
  end.

(** [float64(n)] through the primitive conversion of unsigned integers. *)
Definition of_int_fast (n : Z) : float :=
  match n with
  | Zneg p => (- of_uint63 (Uint63.of_Z (Zpos p)))%float
  | _ => of_uint63 (Uint63.of_Z n)
  end.

(** The days that [calculateDaysDifference] counts before it adds one,
    for two midnights [k] days apart. *)
Definition daysBetween (k : Z) : Z :=
  Float64.to_int ((of_int_fast (24 * k) + of_int_fast 0 / 3.6e12) / 24)%float.

(** The longest span in days that a [Duration] holds. *)
Definition maxDays : Z := 106751.

(** ** Signs of specified floats *)

(** [r] is a zero, a finite number or an infinity of sign [sx]. *)
Definition sf_sign (sx : bool) (r : spec_float) : Prop :=
  match r with
  | S754_nan => False
  | S754_zero s | S754_infinity s | S754_finite s _ _ => s = sx
  end.

(** [r] is a zero or negative. *)
Definition sf_nonpos (r : spec_float) : Prop :=
  match r with
  | S754_nan => False
  | S754_zero _ => True
  | S754_infinity s | S754_finite s _ _ => s = true
  end.

(** The float 24, specified. *)
Definition sf24 : spec_float := S754_finite false 6755399441055744 (-48).

(** [10^d] as a float. *)
Definition pow10 (d : Z) : float := Float64.of_int (10 ^ d).

(** [2^63] as a float: the first value above the 64-bit integers. *)
Definition two63 : float := 9223372036854775808%float.

(** [r] is a zero or positive. *)
Definition sf_ge0 (r : spec_float) : Prop :=
  match r with
  | S754_nan => False
  | S754_zero _ => True
  | S754_infinity s | S754_finite s _ _ => s = false
  end.

(** [r] is finite and positive. *)
Definition sf_positive (r : spec_float) : bool :=
  match r with
  | S754_finite false _ _ => true
  | _ => false
  end.

(** The multiplier of [roundToDecimal] is the float [10^d], finite and
    positive. *)
Definition multiplierOK (d : Z) : bool :=
  PrimFloat.Leibniz.eqb (Handlers.multiplier d) (pow10 d)
  && sf_positive (Prim2SF (Handlers.multiplier d)).


(** ** Slices read and written by index *)

Module Slice.

(** [a[i]], with the zero value [d] outside the bounds (the loops below
    stay inside them). *)
Definition get {A : Type} (d : A) (a : list A) (i : nat) : A := nth i a d.

(** [a[i] = x]. *)
Fixpoint set {A : Type} (a : list A) (i : nat) (x : A) : list A :=
  match a, i with
  | [], _ => []
  | _ :: rest, O => x :: rest
  | y :: rest, S i' => y :: set rest i' x
  end.

(** [a[i], a[j] = a[j], a[i]]: both elements are read, then both are
    written. *)
Definition swap {A : Type} (d : A) (a : list A) (i j : nat) : list A :=
  let ai := get d a i in
  let aj := get d a j in
  set (set a i aj) j ai.

End Slice.

(** ** internal/handlers: ranking, batches and requests *)

Module Ranking.

Section ExchangeSort.

Variable A : Type.
Variable zero : A.
Variable key : A -> float.

(** [if results[j].key > results[i].key { swap }]. *)
Definition compareSwap (results : list A) (i j : nat) : list A :=
  if (key (Slice.get zero results i) <? key (Slice.get zero results j))%float
  then Slice.swap zero results i j
  else results.

(** [for j := ...; j < len(results); j++]: [n] turns are left and the
    next index is [j]. *)
Fixpoint innerLoop (results : list A) (i j n : nat) : list A :=
  match n with
  | O => results
  | S n' => innerLoop (compareSwap results i j) i (S j) n'
  end.

(** [for i := ...; i < len(results)-1; i++]: [n] turns are left and the
    next index is [i]. *)
Fixpoint outerLoop (results : list A) (i n : nat) : list A :=
  match n with
  | O => results
  | S n' =>
      outerLoop (innerLoop results i (S i) (List.length results - S i)) (S i) n'
  end.

Definition exchangeSort (results : list A) : list A :=
  outerLoop results 0 (List.length results - 1).

End ExchangeSort.

(** The zero values of the two result structs. *)
Definition zeroSiteResult : CumulativeSiteResult :=
  {| SiteID := 0; SiteName := ""; ResultDeviceID := "";
     FuelConsumed := 0; FuelTopped := 0;
     ResultFuelConsumedPercent := 0; ResultFuelToppedPercent := 0;
     GeneratorHours := 0; ZesaHours := 0; OfflineHours := 0;
     Status := ""; Error := "" |}.

Definition zeroRangeResult : CumulativeSiteRangeResult :=
  {| RangeSiteID := 0; RangeSiteName := ""; RangeDeviceID := "";
     RangeFuelConsumed := 0; RangeFuelTopped := 0;
     RangeGeneratorHours := 0; RangeZesaHours := 0; RangeOfflineHours := 0;
     ReadingDays := 0;
     SiteDateRange := {| Start := ""; End_ := ""; IsRange := false |} |}.

(** [sortResultsByFuelConsumed]: highest fuel first. *)
Definition sortResultsByFuelConsumed (results : list CumulativeSiteResult)
  : list CumulativeSiteResult :=
  exchangeSort CumulativeSiteResult zeroSiteResult FuelConsumed results.

(** [sortRangeResultsByFuelConsumed]: highest total fuel first. *)
Definition sortRangeResultsByFuelConsumed (results : list CumulativeSiteRangeResult)
  : list CumulativeSiteRangeResult :=
  exchangeSort CumulativeSiteRangeResult zeroRangeResult RangeFuelConsumed results.

End Ranking.

(** ** Auxiliary definitions of the proofs of the ranking *)

(** One pass of the inner loop seen from the element at index [i]: the
    element that ends there and the rest in its new order. *)
Fixpoint pass {A : Type} (key : A -> float) (x : A) (rest : list A) : A * list A :=
  match rest with
  | [] => (x, [])
  | y :: rest' =>
      if (key x <? key y)%float then
        let '(top, others) := pass key y rest' in (top, x :: others)
      else
        let '(top, others) := pass key x rest' in (top, y :: others)
  end.

(** [n] passes, each on what the one before left. *)
Fixpoint passes {A : Type} (key : A -> float) (n : nat) (l : list A) : list A :=
  match n, l with
  | S n', x :: rest => let '(top, others) := pass key x rest in top :: passes key n' others
  | _, _ => l
  end.

(** The order of specified floats as an order on triples of integers:
    the class (below zero, zero, above zero, with the infinities at the
    ends), then exponent and mantissa. *)
Definition sf_key (x : spec_float) : Z * Z * Z :=
  match x with
  | S754_nan => (0, 0, 0)
  | S754_zero _ => (0, 0, 0)
  | S754_infinity true => (-2, 0, 0)
  | S754_infinity false => (2, 0, 0)
  | S754_finite true m e => (-1, - e, - Z.pos m)
  | S754_finite false m e => (1, e, Z.pos m)
  end.

Definition lex_lt (a b : Z * Z * Z) : Prop :=
  let '(a1, a2, a3) := a in
  let '(b1, b2, b3) := b in
  a1 < b1 \/ (a1 = b1 /\ (a2 < b2 \/ (a2 = b2 /\ a3 < b3))).

Definition sf_is_nan (x : spec_float) : bool :=
  match x with
  | S754_nan => true
  | _ => false
  end.

(** ** The store: sites and existing readings *)

(** [rows.Scan] of one row in the loops that give up on an error: the
    row, or the error of the scan. *)
Inductive Row (A : Type) : Type :=
| RowOk (a : A)
| RowErr (msg : string).
Arguments RowOk {A} a.
Arguments RowErr {A} msg.

(** The answers of the store to the queries on sites and on the readings
    that exist for a date. *)
Record Directory := mkDirectory {
  (* SELECT ... FROM sites WHERE is_active = true ORDER BY name *)
  query_all_sites : Res (list (Row Site));
  (* the active sites assigned to a user, by name *)
  query_user_sites : Z -> Res (list (Row Site));
  (* SELECT ... FROM cumulative_readings WHERE date = $1 AND site_id IN (...) *)
  query_existing : string -> list Z -> Res (list (Row CumulativeReading))
}.

Module Store.

(** [for rows.Next() { if err := rows.Scan(...); err != nil { return nil,
    wrapped error }; list = append(list, &row) }]. *)
Fixpoint scanRows {A : Type} (wrap : string) (rows : list (Row A)) (scanned : list A)
  : Res (list A) :=
  match rows with
  | [] => Ok scanned
  | RowOk a :: rest => scanRows wrap rest (scanned ++ [a])
  | RowErr e :: _ => Err (wrap ++ e)%string
  end.

Definition GetAllSites (dir : Directory) : Res (list Site) :=
  match query_all_sites dir with
  | Err e => Err ("failed to get all sites: " ++ e)%string
  | Ok rows => scanRows "failed to scan site: " rows []
  end.

Definition GetSitesForUser (dir : Directory) (userID : Z) (userRole : string)
  : Res (list Site) :=
  if String.eqb userRole "admin" then GetAllSites dir
  else
    match query_user_sites dir userID with
    | Err e => Err ("failed to get user sites: " ++ e)%string
    | Ok rows => scanRows "failed to scan site: " rows []
    end.

Definition GetExistingCumulativeReadings (dir : Directory) (date : string)
    (sites : list Site) : Res (list CumulativeReading) :=
  if (List.length sites =? 0)%nat then Ok []
  else
    match query_existing dir date (map ID sites) with
    | Err e => Err ("failed to get existing cumulative readings: " ++ e)%string
    | Ok rows => scanRows "failed to scan cumulative reading: " rows []
    end.

End Store.

(** ** internal/handlers: batches and requests *)

(** The answer of a handler: the status it writes and, for a success, the
    body. *)
Inductive Response (A : Type) : Type :=
| Unauthorized (message : string)
| BadRequest (message : string)
| InternalServerError (message : string)
| StatusOK (body : A).
Arguments Unauthorized {A} message.
Arguments BadRequest {A} message.
Arguments InternalServerError {A} message.
Arguments StatusOK {A} body.

(** The user that the middleware found in the request. *)
Record User := mkUser {
  UserID : Z;
  Username : string;
  Role : string
}.

Record UserInfo := mkUserInfo {
  InfoUsername : string;
  InfoRole : string
}.

Record CumulativeReadingsResponse := mkCumulativeReadingsResponse {
  ResponseDate : string;
  ProcessedAt : string;
  ResponseUser : UserInfo;
  ResponseSites : list CumulativeSiteResult;
  ResponseSummary : CumulativeSummary
}.

Record CumulativeReadingsRangeResponse := mkCumulativeReadingsRangeResponse {
  RangeResponseSites : list CumulativeSiteRangeResult;
  RangeResponseSummary : CumulativeRangeSummary
}.

Module Orchestrator.

Import GoTime.

(** [a[i:j]]. *)
Definition slice {A : Type} (a : list A) (i j : nat) : list A :=
  firstn (j - i) (skipn i a).

(** [for i := 0; i < len(sites); i += batchSize { batch := sites[i:end] }]:
    the batches in the order they are started; [n] bounds the turns. *)
Fixpoint batchLoop {A : Type} (batchSize : nat) (sites : list A) (i n : nat)
  : list (list A) :=
  match n with
  | O => []
  | S n' =>
      if (i <? List.length sites)%nat then
        let end0 := (i + batchSize)%nat in
        let end1 := if (List.length sites <? end0)%nat then List.length sites else end0 in
        slice sites i end1 :: batchLoop batchSize sites (i + batchSize) n'
      else []
  end.

Definition batches {A : Type} (batchSize : nat) (sites : list A) : list (list A) :=
  batchLoop batchSize sites 0 (List.length sites).

(** The map of the existing readings by site: a later reading of a site
    replaces an earlier one. *)
Definition existingBySiteID (existingReadings : list CumulativeReading)
  : Z -> option CumulativeReading :=
  fold_left (fun (existing : Z -> option CumulativeReading) reading =>
               fun siteID => if siteID =? cr_SiteID reading then Some reading
                             else existing siteID)
            existingReadings (fun _ => None).

Section Requests.

(** [strconv.ParseFloat]. *)
Variable ParseFloat : string -> option float.

(** [time.Parse(layout, text)] for the two layouts of dates: the day
    (days since 1970-01-01) of the midnight UTC it returns. *)
Variable Parse : string -> string -> Res Z.

(** [t.Format("2006-01-02")] of the midnight of a day. *)
Variable Format : Z -> string.

(** The calendar day of [time.Now()] and its RFC 3339 text. *)
Variable today : Z.
Variable nowText : string.

(** The order in which the goroutines of the batches append their
    results under the mutex: some rearrangement of the batches. *)
Variable completion :
  list (list CumulativeSiteResult * list Upsert) ->
  list (list CumulativeSiteResult * list Upsert).
Variable rangeCompletion :
  list (list CumulativeSiteRangeResult) -> list (list CumulativeSiteRangeResult).

(** [parseDate]: the day of the date. *)
Definition parseDate (dateStr : string) : Res Z :=
  if String.eqb dateStr "" then Ok today
  else if (String.length dateStr =? 10)%nat
          && (match String.get 2 dateStr with Some c => Ascii.eqb c "/"%char | None => false end)
          && (match String.get 5 dateStr with Some c => Ascii.eqb c "/"%char | None => false end)
  then Parse "02/01/2006" dateStr
  else Parse "2006-01-02" dateStr.

(** [processSitesInBatches]: batches of ten, each processed by a
    goroutine, merged as they complete, then ranked. The upserts are listed
    batch by batch in the same order. *)
Definition processSitesInBatches (db : DB) (sites : list Site)
    (existingReadings : Z -> option CumulativeReading) (day : Z) (dateString : string)
  : list CumulativeSiteResult * list Upsert :=
  let outputs :=
    map (fun batch => Handlers.processBatch ParseFloat db batch existingReadings day
                        dateString)
        (batches 10 sites) in
  let merged := completion outputs in
  (Ranking.sortResultsByFuelConsumed (List.concat (map fst merged)),
   List.concat (map snd merged)).

(** [getCumulativeReadingsForRange]: batches of twenty. *)
Definition getCumulativeReadingsForRange (db : DB) (sites : list Site)
    (startDate endDate : string) : list CumulativeSiteRangeResult :=
  let outputs :=
    map (fun batch => Handlers.processSiteRangeBatch db batch startDate endDate)
        (batches 20 sites) in
  Ranking.sortRangeResultsByFuelConsumed (List.concat (rangeCompletion outputs)).

(** [GetCumulativeReadings]: [user] is what the middleware left in the
    context, [body] the date of the bound JSON body or the error of the
    binding. The answer comes with the upserts sent to the store. *)
Definition GetCumulativeReadings (db : DB) (dir : Directory) (user : option User)
    (body : Res string) : Response CumulativeReadingsResponse * list Upsert :=
  match user with
  | None => (Unauthorized "Authentication required", [])
  | Some user =>
      match body with
      | Err _ => (BadRequest "Invalid request format", [])
      | Ok date =>
          match parseDate date with
          | Err _ =>
              (BadRequest "Invalid date format. Use DD/MM/YYYY or YYYY-MM-DD", [])
          | Ok targetDate =>
              let dateString := Format targetDate in
              match Store.GetSitesForUser dir (UserID user) (Role user) with
              | Err _ => (InternalServerError "Failed to get sites", [])
              | Ok sites =>
                  if (List.length sites =? 0)%nat then
                    (StatusOK
                       {| ResponseDate := dateString;
                          ProcessedAt := nowText;
                          ResponseUser :=
                            {| InfoUsername := Username user; InfoRole := Role user |};
                          ResponseSites := [];
                          ResponseSummary :=
                            {| TotalSites := 0; ProcessedSites := 0; ErrorSites := 0;
                               SumFuelConsumed := 0; SumFuelTopped := 0;
                               SumGeneratorHours := 0; SumZesaHours := 0;
                               SumOfflineHours := 0 |} |}, [])
                  else
                    match Store.GetExistingCumulativeReadings dir dateString sites with
                    | Err _ =>
                        (InternalServerError "Failed to check existing readings", [])
                    | Ok existingReadings =>
                        let '(results, sent) :=
                          processSitesInBatches db sites
                            (existingBySiteID existingReadings) targetDate dateString in
                        let summary :=
                          Handlers.calculateSummary results
                            (Z.of_nat (List.length sites)) in
                        (StatusOK
                           {| ResponseDate := dateString;
                              ProcessedAt := nowText;
                              ResponseUser :=
                                {| InfoUsername := Username user;
                                   InfoRole := Role user |};
                              ResponseSites := results;
                              ResponseSummary := summary |}, sent)
                    end
              end
          end
      end
  end.

(** [GetCumulativeReadingsByDateRange]: [startDateStr] and [endDateStr]
    are the query parameters, empty when absent. *)
Definition GetCumulativeReadingsByDateRange (db : DB) (dir : Directory)
    (user : option User) (startDateStr endDateStr : string)
  : Response CumulativeReadingsRangeResponse :=
  match user with
  | None => Unauthorized "Authentication required"
  | Some user =>
      if String.eqb startDateStr "" then BadRequest "startDate parameter is required"
      else
        match parseDate startDateStr with
        | Err _ => BadRequest "Invalid startDate format. Use DD/MM/YYYY or YYYY-MM-DD"
        | Ok startDate =>
            match (if negb (String.eqb endDateStr "") then parseDate endDateStr
                   else Ok startDate) with
            | Err _ => BadRequest "Invalid endDate format. Use DD/MM/YYYY or YYYY-MM-DD"
            | Ok endDate =>
                let startDateString := Format startDate in
                let endDateString := Format endDate in
                match Store.GetSitesForUser dir (UserID user) (Role user) with
                | Err _ => InternalServerError "Failed to get sites"
                | Ok sites =>
                    if (List.length sites =? 0)%nat then
                      StatusOK
                        {| RangeResponseSites := [];
                           RangeResponseSummary :=
                             {| SummaryDateRange :=
                                  {| Start := startDateString;
                                     End_ := endDateString;
                                     IsRange := false |};
                                RangeTotalSites := 0;
                                RangeTotalFuelConsumed := 0;
                                RangeTotalFuelTopped := 0;
                                RangeTotalGeneratorHours := 0;
                                RangeTotalZesaHours := 0;
                                RangeTotalOfflineHours := 0;
                                AverageFuelPerSite := 0;
                                DaysIncluded :=
                                  Handlers.calculateDaysDifference
                                    (midnight startDate) (midnight endDate) |} |}
                    else
                      let siteReadings :=
                        getCumulativeReadingsForRange db sites startDateString
                          endDateString in
                      let summary :=
                        Handlers.calculateRangeSummary siteReadings startDateString
                          endDateString (midnight startDate) (midnight endDate) in
                      StatusOK
                        {| RangeResponseSites := siteReadings;
                           RangeResponseSummary := summary |}
                end
            end
        end
  end.

End Requests.

End Orchestrator.

(** ** Stores and requests of the examples *)

Module Cases.

(** 2024-01-01. *)
Definition newYear : Z := 19723.

Definition hourOfNewYear (h : Z) : GoTime.Time :=
  GoTime.midnight newYear + h * GoTime.Hour.

(** A day on which the generator of every device runs from 06:00 to
    09:00 and the grid is never on; the level goes from 100 to 101 and the
    volume from 100 to 101, and every upsert is accepted. *)
Definition morningRun : DB :=
  mkDB (fun _ _ _ => Ok 1)
       (fun _ _ _ =>
          Ok [Scanned (mkFuelRow "100" (hourOfNewYear 6) "fuel_sensor_level");
              Scanned (mkFuelRow "100" (hourOfNewYear 6) "fuel_sensor_volume");
              Scanned (mkFuelRow "101" (hourOfNewYear 9) "fuel_sensor_level");
              Scanned (mkFuelRow "101" (hourOfNewYear 9) "fuel_sensor_volume")])
       (fun _ sensor _ _ =>
          if String.eqb sensor "generator_state" then
            Ok [Scanned (mkStateRow "1" (hourOfNewYear 6));
                ScanError;
                Scanned (mkStateRow "0" (hourOfNewYear 9))]
          else Ok [Scanned (mkStateRow "0" (hourOfNewYear 6))])
       (fun _ => Ok tt)
       (fun _ _ _ => Err "connection refused"%string).


(** A day with a single level reading among a row that does not scan. *)
Definition loneRows : list (Scan FuelRow) :=
  [Scanned (mkFuelRow "50" (hourOfNewYear 6) "fuel_sensor_level"); ScanError].

Definition loneReading : DB :=
  mkDB (fun _ _ _ => Ok 0) (fun _ _ _ => Ok loneRows) (fun _ _ _ _ => Ok [])
       (fun _ => Ok tt) (fun _ _ _ => Err "connection refused"%string).

(** A directory of three sites, all assigned to user 7; a reading of the
    day exists for site 2. *)
Definition threeSites : Directory :=
  mkDirectory
    (Ok [RowOk Examples.siteA; RowOk Examples.siteB; RowOk Examples.siteC])
    (fun userID =>
       if userID =? 7 then Ok [RowOk Examples.siteA; RowOk Examples.siteB] else Ok [])
    (fun date _ => Ok [RowOk (mkCumulativeReading 2 "dev-b" date)]).

Definition administrator : User := mkUser 1 "admin" "admin".

(** A parser of the two dates of the examples. *)
Definition parseExample (layout text : string) : Res Z :=
  if String.eqb layout "2006-01-02" then
    if String.eqb text "2024-01-01" then Ok 19723
    else if String.eqb text "2024-01-03" then Ok 19725
    else Err "parsing time: cannot parse"%string
  else if String.eqb text "01/01/2024" then Ok 19723
  else Err "parsing time: cannot parse"%string.

Definition formatExample (day : Z) : string :=
  if day =? 19723 then "2024-01-01"
  else if day =? 19725 then "2024-01-03"
  else "2024-01-02".

End Cases.

(** ** State-Interval Integrator *)





(** ** Fuel-Delta Analyzer *)

Lemma loopFrom_pairs {f : float -> float -> float * float -> float * float}
    {step : nat -> float * float -> float * float} {rs : list Database.Reading}
    (Hstep : forall i t,
        step i t = f (Database.Value (Database.index rs (i - 1)))
                     (Database.Value (Database.index rs i)) t) :
  forall (rest pre : list Database.Reading) (a : Database.Reading) (totals : float * float),
    rs = (pre ++ a :: rest)%list ->
    Database.loopFrom step (List.length rest) (S (List.length pre)) totals
    = walkPairs f (map Database.Value (a :: rest)) totals.
Proof.
  induction rest as [| b rest IH]; intros pre a totals Hrs.
  - reflexivity.
  - simpl Database.loopFrom. rewrite Hstep.
    replace (S (List.length pre) - 1)%nat with (List.length pre) by lia.
    assert (Ha : Database.index rs (List.length pre) = a).
    { unfold Database.index. rewrite Hrs. apply nth_middle. }
    assert (Hrs' : rs = ((pre ++ [a]) ++ b :: rest)%list).
    { rewrite Hrs, <- app_assoc. reflexivity. }
    assert (Hlen : S (List.length pre) = List.length (pre ++ [a])%list).
    { rewrite length_app. simpl. lia. }
    assert (Hb : Database.index rs (S (List.length pre)) = b).
    { unfold Database.index. rewrite Hlen, Hrs'. apply nth_middle. }
    rewrite Ha, Hb, Hlen.
    rewrite (IH (pre ++ [a])%list b _ Hrs').
    reflexivity.
Qed.

Lemma loop_is_walkPairs {f : float -> float -> float * float -> float * float}
    {step : nat -> float * float -> float * float} (rs : list Database.Reading)
    (Hstep : forall i t,
        step i t = f (Database.Value (Database.index rs (i - 1)))
                     (Database.Value (Database.index rs i)) t)
    (totals : float * float) :
  Database.loopFrom step (List.length rs - 1) 1 totals
  = walkPairs f (map Database.Value rs) totals.
Proof.
  destruct rs as [| a rest]; [reflexivity |].
  simpl List.length. replace (S (List.length rest) - 1)%nat with (List.length rest) by lia.
  exact (loopFrom_pairs Hstep rest [] a totals eq_refl).
Qed.

Lemma levelStep_pair (g : bool) (rs : list Database.Reading) (i : nat) (t : float * float) :
  Database.levelStep g rs i t
  = levelPair g (Database.Value (Database.index rs (i - 1)))
              (Database.Value (Database.index rs i)) t.
Proof.
  unfold Database.levelStep, levelPair, Spec.classify. destruct t as [c p]. simpl.
  destruct (negb g && _); [reflexivity |].
  destruct (0 <? _)%float; [reflexivity |].
  destruct (_ <? 0)%float; reflexivity.
Qed.

Lemma volumeStep_pair (g : bool) (rs : list Database.Reading) (i : nat) (t : float * float) :
  Database.volumeStep g rs i t
  = volumePair g (Database.Value (Database.index rs (i - 1)))
               (Database.Value (Database.index rs i)) t.
Proof.
  unfold Database.volumeStep, volumePair, Spec.classify. destruct t as [c p]. simpl.
  destruct (if (0 <? _)%float then _ else false); [reflexivity |].
  destruct (0 <? _)%float; [reflexivity |].
  destruct (_ <? 0)%float; reflexivity.
Qed.

Lemma walkPairs_level (g : bool) (values : list float) :
  forall totals : float * float,
    walkPairs (levelPair g) values totals
    = fold_left Spec.classify
        (map snd (Spec.gated g Spec.levelDiscarded (Spec.deltas values))) totals.
Proof.
  induction values as [| a rest IH]; intros totals; [reflexivity |].
  destruct rest as [| b rest]; [reflexivity |].
  change (walkPairs (levelPair g) (a :: b :: rest) totals)
    with (walkPairs (levelPair g) (b :: rest) (levelPair g a b totals)).
  rewrite IH.
  change (Spec.deltas (a :: b :: rest))
    with ((a, (b - a)%float) :: Spec.deltas (b :: rest)).
  unfold Spec.gated. cbn [filter]. unfold levelPair, Spec.levelDiscarded at 2. cbn [snd].
  destruct (negb g && (abs (b - a) <? 2.0)%float); reflexivity.
Qed.

Lemma walkPairs_volume (g : bool) (values : list float) :
  forall totals : float * float,
    walkPairs (volumePair g) values totals
    = fold_left Spec.classify
        (map snd (Spec.gated g Spec.volumeDiscarded (Spec.deltas values))) totals.
Proof.
  induction values as [| a rest IH]; intros totals; [reflexivity |].
  destruct rest as [| b rest]; [reflexivity |].
  change (walkPairs (volumePair g) (a :: b :: rest) totals)
    with (walkPairs (volumePair g) (b :: rest) (volumePair g a b totals)).
  rewrite IH.
  change (Spec.deltas (a :: b :: rest))
    with ((a, (b - a)%float) :: Spec.deltas (b :: rest)).
  unfold Spec.gated. cbn [filter]. unfold volumePair, Spec.volumeDiscarded at 2.
  cbn [fst snd].
  destruct (0 <? a)%float; cbn [andb].
  - destruct (negb g); cbn [andb negb]; [| reflexivity].
    destruct (abs (b - a) / a * 100 <? 2.0)%float; reflexivity.
  - rewrite andb_false_r. reflexivity.
Qed.

Lemma levelChanges_gated (g : bool) (levelReadings : list Database.Reading) :
  Database.levelChanges g levelReadings
  = Spec.accumulate
      (Spec.gated g Spec.levelDiscarded (Spec.deltas (map Database.Value levelReadings))).
Proof.
  unfold Database.levelChanges, Spec.accumulate.
  rewrite (loop_is_walkPairs levelReadings (levelStep_pair g levelReadings)).
  apply walkPairs_level.
Qed.

Lemma volumeChanges_gated (g : bool) (volumeReadings : list Database.Reading) :
  Database.volumeChanges g volumeReadings
  = Spec.accumulate
      (Spec.gated g Spec.volumeDiscarded (Spec.deltas (map Database.Value volumeReadings))).
Proof.
  unfold Database.volumeChanges, Spec.accumulate.
  rewrite (loop_is_walkPairs volumeReadings (volumeStep_pair g volumeReadings)).
  apply walkPairs_volume.
Qed.

Lemma readingStep_loop (ParseFloat : string -> option float) (rows : list (Scan FuelRow)) :
  forall levels volumes : list Database.Reading,
    let slices := fold_left (Database.readingStep ParseFloat) rows (levels, volumes) in
    map Database.Value (fst slices)
    = (map Database.Value levels
       ++ Spec.sequenceOf ParseFloat "fuel_sensor_level" rows)%list
    /\ map Database.Value (snd slices)
       = (map Database.Value volumes
          ++ Spec.sequenceOf ParseFloat "fuel_sensor_volume" rows)%list.
Proof.
  induction rows as [| row rows IH]; intros levels volumes; cbv zeta.
  - simpl. rewrite !app_nil_r. split; reflexivity.
  - cbn [fold_left]. unfold Spec.sequenceOf. cbn [flat_map].
    fold (Spec.sequenceOf ParseFloat "fuel_sensor_level" rows).
    fold (Spec.sequenceOf ParseFloat "fuel_sensor_volume" rows).
    destruct row as [r |]; [| apply IH].
    cbn [Database.readingStep].
    destruct (String.eqb (fr_sensor r) "fuel_sensor_level") eqn:El.
    + assert (Ev : String.eqb (fr_sensor r) "fuel_sensor_volume" = false).
      { apply String.eqb_eq in El. rewrite El. reflexivity. }
      rewrite Ev.
      destruct (ParseFloat (fr_value r)) as [value |]; [| apply IH].
      destruct (IH (levels ++ [Database.mkReading value (fr_time r)])%list volumes)
        as [H1 H2].
      rewrite H1, H2, map_app, <- app_assoc. split; reflexivity.
    + destruct (String.eqb (fr_sensor r) "fuel_sensor_volume") eqn:Ev.
      * destruct (ParseFloat (fr_value r)) as [value |]; [| apply IH].
        destruct (IH levels (volumes ++ [Database.mkReading value (fr_time r)])%list)
          as [H1 H2].
        rewrite H1, H2, map_app, <- app_assoc. split; reflexivity.
      * destruct (ParseFloat (fr_value r)) as [value |]; apply IH.
Qed.

Lemma CalculateFuelChanges_gated (ParseFloat : string -> option float) (db : DB)
    (deviceID : string) (day : Z) :
  Database.CalculateFuelChanges ParseFloat db deviceID day
  = match count_generator_on db deviceID (Database.startOfDay day) (Database.endOfDay day)
    with
    | Err e => Err ("failed to check generator activity: " ++ e)%string
    | Ok count =>
        match query_fuel db deviceID (Database.startOfDay day) (Database.endOfDay day) with
        | Err e => Err ("failed to get fuel readings: " ++ e)%string
        | Ok rows =>
            let percent :=
              Spec.accumulate
                (Spec.gated (0 <? count) Spec.levelDiscarded
                   (Spec.deltas (Spec.sequenceOf ParseFloat "fuel_sensor_level" rows))) in
            let volume :=
              Spec.accumulate
                (Spec.gated (0 <? count) Spec.volumeDiscarded
                   (Spec.deltas (Spec.sequenceOf ParseFloat "fuel_sensor_volume" rows))) in
            Ok (mkFuelMetrics (fst volume) (snd volume) (fst percent) (snd percent))
        end
    end.
Proof.
  unfold Database.CalculateFuelChanges, Database.hasGeneratorActivity.
  destruct (count_generator_on db deviceID _ _) as [count | e]; [| reflexivity].
  destruct (query_fuel db deviceID _ _) as [rows | e]; [| reflexivity].
  destruct (readingStep_loop ParseFloat rows [] []) as [Hl Hv]. cbv zeta in Hl, Hv.
  destruct (fold_left (Database.readingStep ParseFloat) rows ([], [])) as [levels volumes].
  cbn [fst snd map app] in Hl, Hv.
  rewrite levelChanges_gated, volumeChanges_gated, Hl, Hv.
  destruct (Spec.accumulate (Spec.gated (0 <? count) Spec.levelDiscarded _)).
  destruct (Spec.accumulate (Spec.gated (0 <? count) Spec.volumeDiscarded _)).
  reflexivity.
Qed.

(** C3. With the generator inactive, the level loop of
    [CalculateFuelChanges] keeps exactly the consecutive deltas whose
    magnitude is not below 2.0 and classifies them: a delta is discarded if
    and only if its magnitude is strictly below 2.0. So the percentages that
    [CalculateFuelChanges] returns on a day with no ON sample of the
    generator are the totals of the kept deltas of the level sequence. A
    delta of magnitude exactly 2.0 is kept, and the levels 50, 48, 53 give
    consumed 2 and topped 5. *)
Theorem level_noise_gate :
  (forall levelReadings : list Database.Reading,
      Database.levelChanges false levelReadings
      = Spec.accumulate
          (filter (fun d => negb (abs (snd d) <? 2.0)%float)
                  (Spec.deltas (map Database.Value levelReadings))))
  /\ (forall (ParseFloat : string -> option float) (db : DB) (deviceID : string) (day : Z),
         match count_generator_on db deviceID (Database.startOfDay day)
                 (Database.endOfDay day),
               query_fuel db deviceID (Database.startOfDay day) (Database.endOfDay day),
               Database.CalculateFuelChanges ParseFloat db deviceID day with
         | Ok count, Ok rows, Ok metrics =>
             count <= 0 ->
             (FuelConsumedPercent metrics, FuelToppedPercent metrics)
             = Spec.accumulate
                 (filter (fun d => negb (abs (snd d) <? 2.0)%float)
                         (Spec.deltas (Spec.sequenceOf ParseFloat "fuel_sensor_level" rows)))
         | Ok _, Ok _, Err _ => False
         | _, _, _ => True
         end)
  /\ Database.levelChanges false (readings [50; 48]%float) = (2, 0)%float
  /\ Database.levelChanges false (readings [50; 48; 53]%float) = (2, 5)%float
  /\ Database.CalculateFuelChanges Examples.parseKnown Examples.idleDay "dev-a" 19723
     = Ok (mkFuelMetrics 0 3 2 5).
Proof.
  split; [| split; [| repeat split; reflexivity]].
  - intros levelReadings. rewrite levelChanges_gated. reflexivity.
  - intros ParseFloat db deviceID day. rewrite CalculateFuelChanges_gated.
    destruct (count_generator_on db deviceID _ _) as [count | e]; [| exact I].
    destruct (query_fuel db deviceID _ _) as [rows | e]; [| exact I].
    cbv zeta. cbn [FuelConsumedPercent FuelToppedPercent].
    intros Hcount. apply Z.ltb_ge in Hcount. rewrite Hcount.
    rewrite <- surjective_pairing. reflexivity.
Qed.

(** The idle day of the examples: the percentages of its metrics are the
    totals of the kept deltas of its level sequence. *)
Lemma level_noise_gate_witness :
  0 <= 0
  /\ (2, 5)%float
     = Spec.accumulate
         (filter (fun d => negb (abs (snd d) <? 2.0)%float)
                 (Spec.deltas [50; 48; 53]%float)).
Proof.
  split; [lia |].
  pose proof (proj1 (proj2 level_noise_gate) Examples.parseKnown Examples.idleDay
                "dev-a"%string 19723) as H.
  change (0 <= 0 ->
          (2, 5)%float
          = Spec.accumulate
              (filter (fun d => negb (abs (snd d) <? 2.0)%float)
                      (Spec.deltas [50; 48; 53]%float))) in H.
  apply H. lia.
Defined.

(** C4. With the generator inactive, the volume loop of
    [CalculateFuelChanges] gates a consecutive delta only when the previous
    reading is above zero: the delta is discarded if and only if
    previous > 0 and |delta| / previous * 100 < 2.0; with a previous reading
    at or below zero the check is skipped and the delta is classified
    (topped when positive, consumed when negative). So the litres that
    [CalculateFuelChanges] returns on a day with no ON sample of the
    generator are the totals of the kept deltas of the volume sequence. From
    100 a rise to 101 is discarded and a rise to 102 is kept; from -100 a
    rise to -99 is classified although its percentage is below the
    threshold. *)
Theorem volume_noise_gate :
  (forall volumeReadings : list Database.Reading,
      Database.volumeChanges false volumeReadings
      = Spec.accumulate
          (filter (fun d => negb ((0 <? fst d)%float
                                  && (abs (snd d) / fst d * 100 <? 2.0)%float))
                  (Spec.deltas (map Database.Value volumeReadings))))
  /\ (forall (volumeReadings : list Database.Reading) (i : nat) (totals : float * float),
         let prev := Database.Value (Database.index volumeReadings (i - 1)) in
         let curr := Database.Value (Database.index volumeReadings i) in
         Database.volumeStep false volumeReadings i totals
         = if (0 <? prev)%float && (abs (curr - prev) / prev * 100 <? 2.0)%float
           then totals
           else Spec.classify totals (curr - prev)%float)
  /\ (forall (ParseFloat : string -> option float) (db : DB) (deviceID : string) (day : Z),
         match count_generator_on db deviceID (Database.startOfDay day)
                 (Database.endOfDay day),
               query_fuel db deviceID (Database.startOfDay day) (Database.endOfDay day),
               Database.CalculateFuelChanges ParseFloat db deviceID day with
         | Ok count, Ok rows, Ok metrics =>
             count <= 0 ->
             (TotalFuelConsumed metrics, TotalFuelTopped metrics)
             = Spec.accumulate
                 (filter (fun d => negb ((0 <? fst d)%float
                                         && (abs (snd d) / fst d * 100 <? 2.0)%float))
                         (Spec.deltas (Spec.sequenceOf ParseFloat "fuel_sensor_volume" rows)))
         | Ok _, Ok _, Err _ => False
         | _, _, _ => True
         end)
  /\ Database.volumeChanges false (readings [100; 101]%float) = (0, 0)%float
  /\ Database.volumeChanges false (readings [100; 102]%float) = (0, 2)%float
  /\ Database.volumeChanges false (readings [-100; -99]%float) = (0, 1)%float
  /\ Database.volumeChanges false (readings [0; -1]%float) = (1, 0)%float
  /\ Database.CalculateFuelChanges Examples.parseKnown Examples.idleDay "dev-a" 19723
     = Ok (mkFuelMetrics 0 3 2 5).
Proof.
  split; [| split; [| split; [| repeat split; reflexivity]]].
  - intros volumeReadings. rewrite volumeChanges_gated. reflexivity.
  - intros volumeReadings i totals prev curr.
    rewrite volumeStep_pair. unfold volumePair. fold prev curr. cbn [negb andb].
    destruct (0 <? prev)%float; reflexivity.
  - intros ParseFloat db deviceID day. rewrite CalculateFuelChanges_gated.
    destruct (count_generator_on db deviceID _ _) as [count | e]; [| exact I].
    destruct (query_fuel db deviceID _ _) as [rows | e]; [| exact I].
    cbv zeta. cbn [TotalFuelConsumed TotalFuelTopped].
    intros Hcount. apply Z.ltb_ge in Hcount. rewrite Hcount.
    rewrite <- surjective_pairing. reflexivity.
Qed.

(** The idle day of the examples: the litres of its metrics are the totals
    of the kept deltas of its volume sequence. *)
Lemma volume_noise_gate_witness :
  0 <= 0
  /\ (0, 3)%float
     = Spec.accumulate
         (filter (fun d => negb ((0 <? fst d)%float
                                 && (abs (snd d) / fst d * 100 <? 2.0)%float))
                 (Spec.deltas [100; 101; 104]%float)).
Proof.
  split; [lia |].
  pose proof (proj1 (proj2 (proj2 volume_noise_gate)) Examples.parseKnown Examples.idleDay
                "dev-a"%string 19723) as H.
  change (0 <= 0 ->
          (0, 3)%float
          = Spec.accumulate
              (filter (fun d => negb ((0 <? fst d)%float
                                      && (abs (snd d) / fst d * 100 <? 2.0)%float))
                      (Spec.deltas [100; 101; 104]%float))) in H.
  apply H. lia.
Defined.

(** ** Aggregation Summary Builder *)

Lemma fold_summaryStep (results : list CumulativeSiteResult) :
  forall st : Handlers.SummaryState,
    fold_left Handlers.summaryStep results st
    = Handlers.mkSummaryState
        (fold_left PrimFloat.add (map FuelConsumed (Spec.processed results))
                   (Handlers.totalFuelConsumed st))
        (fold_left PrimFloat.add (map FuelTopped (Spec.processed results))
                   (Handlers.totalFuelTopped st))
        (fold_left PrimFloat.add (map GeneratorHours (Spec.processed results))
                   (Handlers.totalGeneratorHours st))
        (fold_left PrimFloat.add (map ZesaHours (Spec.processed results))
                   (Handlers.totalZesaHours st))
        (fold_left PrimFloat.add (map OfflineHours (Spec.processed results))
                   (Handlers.totalOfflineHours st))
        (Handlers.processedSites st + Z.of_nat (List.length (Spec.processed results)))
        (Handlers.errorSites st + Z.of_nat (List.length (filter Spec.isError results))).
Proof.
  induction results as [| r results IH]; intros st.
  - destruct st. simpl. rewrite !Z.add_0_r. reflexivity.
  - simpl fold_left. rewrite IH. unfold Handlers.summaryStep, Spec.processed.
    cbn [filter]. change (String.eqb (Status r) "ERROR") with (Spec.isError r).
    destruct (Spec.isError r); cbn [negb map fold_left List.length
      Handlers.totalFuelConsumed Handlers.totalFuelTopped Handlers.totalGeneratorHours
      Handlers.totalZesaHours Handlers.totalOfflineHours Handlers.processedSites
      Handlers.errorSites]; f_equal; lia.
Qed.

(** C6. For every result list and count of eligible sites,
    [calculateSummary] counts the results with status ERROR in errorSites
    and all the others in processedSites, and each of the five totals is the
    rounded sum of its field over the results that are not errors; the
    results [{fuelConsumed: 10, status OK}, {status ERROR}] with 2 sites
    give processedSites 1, errorSites 1 and totalFuelConsumed 10.0, and the
    values that an ERROR result carries are left out of the totals. *)
Theorem calculateSummary_excludes_errors :
  (forall (results : list CumulativeSiteResult) (totalSites : Z),
      let summary := Handlers.calculateSummary results totalSites in
      TotalSites summary = totalSites
      /\ ErrorSites summary = Z.of_nat (List.length (filter Spec.isError results))
      /\ ProcessedSites summary = Z.of_nat (List.length (Spec.processed results))
      /\ SumFuelConsumed summary
         = Handlers.roundToDecimal (Spec.sum (map FuelConsumed (Spec.processed results))) 1
      /\ SumFuelTopped summary
         = Handlers.roundToDecimal (Spec.sum (map FuelTopped (Spec.processed results))) 1
      /\ SumGeneratorHours summary
         = Handlers.roundToDecimal (Spec.sum (map GeneratorHours (Spec.processed results))) 2
      /\ SumZesaHours summary
         = Handlers.roundToDecimal (Spec.sum (map ZesaHours (Spec.processed results))) 2
      /\ SumOfflineHours summary
         = Handlers.roundToDecimal (Spec.sum (map OfflineHours (Spec.processed results))) 2)
  /\ (let summary :=
        Handlers.calculateSummary
          [mkCumulativeSiteResult 1 "A" "dev-a" 10 0 0 0 0 0 0 "OK" "";
           mkCumulativeSiteResult 2 "B" "dev-b" 0 0 0 0 0 0 0 "ERROR" "Calculation error"]
          2 in
      ProcessedSites summary = 1 /\ ErrorSites summary = 1
      /\ SumFuelConsumed summary = 10.0%float)
  /\ (let summary :=
        Handlers.calculateSummary
          [mkCumulativeSiteResult 1 "A" "dev-a" 10 1 0 0 2 3 19 "UPDATED" "";
           mkCumulativeSiteResult 2 "B" "dev-b" 7 7 0 0 7 7 7 "ERROR" "Calculation error";
           mkCumulativeSiteResult 3 "C" "dev-c" 5 0 0 0 4 20 0 "CREATED" ""]
          3 in
      ProcessedSites summary = 2 /\ ErrorSites summary = 1
      /\ SumFuelConsumed summary = 15.0%float /\ SumFuelTopped summary = 1.0%float
      /\ SumGeneratorHours summary = 6.0%float /\ SumZesaHours summary = 23.0%float
      /\ SumOfflineHours summary = 19.0%float).
Proof.
  split; [| split].
  - intros results totalSites summary. subst summary.
    unfold Handlers.calculateSummary. rewrite fold_summaryStep.
    cbn. repeat split; reflexivity.
  - vm_compute. repeat split; reflexivity.
  - vm_compute. repeat split; reflexivity.
Qed.

(** ** Per-site failures *)

Lemma rangeBatch_loop (db : DB) (startDate endDate : string) (sites : list Site) :
  forall acc : list CumulativeSiteRangeResult,
    fold_left (Handlers.rangeBatchStep db startDate endDate) sites acc
    = (acc ++ flat_map (rangeEntry db startDate endDate) sites)%list.
Proof.
  induction sites as [| site sites IH]; intros acc; simpl.
  - rewrite app_nil_r. reflexivity.
  - rewrite IH. unfold Handlers.rangeBatchStep, rangeEntry.
    destruct (Handlers.getSiteRangeData db site startDate endDate).
    + rewrite <- app_assoc. reflexivity.
    + reflexivity.
Qed.

Lemma processSiteRangeBatch_entries (db : DB) (sites : list Site) (startDate endDate : string) :
  Handlers.processSiteRangeBatch db sites startDate endDate
  = flat_map (rangeEntry db startDate endDate) sites.
Proof.
  unfold Handlers.processSiteRangeBatch. rewrite rangeBatch_loop. reflexivity.
Qed.

Lemma processBatch_entries (ParseFloat : string -> option float) (db : DB)
    (existingReadings : Z -> option CumulativeReading) (day : Z) (dateString : string)
    (sites : list Site) :
  forall acc : list CumulativeSiteResult * list Upsert,
    fold_left (Handlers.batchStep ParseFloat db existingReadings day dateString) sites acc
    = ((fst acc
        ++ map (fun site =>
                  fst (Handlers.processSingleSite ParseFloat db site
                         (existingReadings (ID site)) day dateString)) sites)%list,
       (snd acc
        ++ flat_map (fun site =>
                       snd (Handlers.processSingleSite ParseFloat db site
                              (existingReadings (ID site)) day dateString)) sites)%list).
Proof.
  induction sites as [| site sites IH]; intros [results sent].
  - simpl. rewrite !app_nil_r. reflexivity.
  - simpl fold_left. rewrite IH. cbn [map flat_map].
    unfold Handlers.batchStep.
    destruct (Handlers.processSingleSite ParseFloat db site (existingReadings (ID site))
                day dateString) as [result sent'].
    cbn [fst snd]. rewrite <- !app_assoc. reflexivity.
Qed.

Lemma calculateStateRuntime_error (db : DB) (device sensor : string) (s e : GoTime.Time) :
  error_of (Database.calculateStateRuntime db device sensor s e)
  = match query_state db device sensor s e with
    | Ok _ => None
    | Err msg => Some ("failed to get state readings: " ++ msg)%string
    end.
Proof.
  unfold Database.calculateStateRuntime.
  destruct (query_state db device sensor s e) as [rows | msg]; [| reflexivity].
  destruct (Database.hasData _ && Database.lastState _ && GoTime.Before _ _); reflexivity.
Qed.

Lemma CalculatePowerRuntimes_error (db : DB) (device : string) (day : Z) :
  error_of (Database.CalculatePowerRuntimes db device day) = None
  <-> (error_of (query_state db device "generator_state" (Database.startOfDay day)
                   (Database.endOfDay day)) = None
       /\ error_of (query_state db device "zesa_state" (Database.startOfDay day)
                      (Database.endOfDay day)) = None).
Proof.
  unfold Database.CalculatePowerRuntimes.
  pose proof (calculateStateRuntime_error db device "generator_state"
                (Database.startOfDay day) (Database.endOfDay day)) as Hg.
  pose proof (calculateStateRuntime_error db device "zesa_state"
                (Database.startOfDay day) (Database.endOfDay day)) as Hz.
  destruct (Database.calculateStateRuntime db device "generator_state" _ _) as [g | eg];
    destruct (query_state db device "generator_state" _ _) as [rg | mg];
    try discriminate Hg.
  - destruct (Database.calculateStateRuntime db device "zesa_state" _ _) as [z | ez];
      destruct (query_state db device "zesa_state" _ _) as [rz | mz];
      try discriminate Hz; simpl; split; try tauto; try discriminate.
    intros [_ H]. discriminate H.
  - simpl. split; [discriminate |]. intros [H _]. discriminate H.
Qed.

Lemma CalculateFuelChanges_error (ParseFloat : string -> option float) (db : DB)
    (device : string) (day : Z) :
  error_of (Database.CalculateFuelChanges ParseFloat db device day) = None
  <-> (error_of (count_generator_on db device (Database.startOfDay day)
                   (Database.endOfDay day)) = None
       /\ error_of (query_fuel db device (Database.startOfDay day)
                      (Database.endOfDay day)) = None).
Proof.
  unfold Database.CalculateFuelChanges, Database.hasGeneratorActivity.
  destruct (count_generator_on db device _ _) as [count | e].
  - destruct (query_fuel db device _ _) as [rows | e].
    + destruct (fold_left _ rows _) as [levels volumes].
      destruct (Database.levelChanges _ levels), (Database.volumeChanges _ volumes).
      simpl. tauto.
    + simpl. split; [discriminate |]. intros [_ H]. discriminate H.
  - simpl. split; [discriminate |]. intros [H _]. discriminate H.
Qed.

Lemma storageFailure_iff (ParseFloat : string -> option float) (db : DB) (site : Site)
    (day : Z) :
  storageFailure db site day
  <-> ~ (error_of (Database.CalculateFuelChanges ParseFloat db (DeviceID site) day) = None
         /\ error_of (Database.CalculatePowerRuntimes db (DeviceID site) day) = None).
Proof.
  rewrite CalculateFuelChanges_error, CalculatePowerRuntimes_error.
  unfold storageFailure. cbv zeta.
  destruct (error_of (count_generator_on db (DeviceID site) _ _));
    destruct (error_of (query_fuel db (DeviceID site) _ _));
    destruct (error_of (query_state db (DeviceID site) "generator_state" _ _));
    destruct (error_of (query_state db (DeviceID site) "zesa_state" _ _));
    split; intros H;
    try (intros [[? ?] [? ?]]; discriminate);
    try (left; discriminate);
    try (right; left; discriminate);
    try (right; right; left; discriminate);
    try (right; right; right; discriminate).
  - destruct H as [H | [H | [H | H]]]; exfalso; apply H; reflexivity.
  - exfalso. apply H. repeat split.
Qed.

Lemma processSingleSite_failure (ParseFloat : string -> option float) (db : DB) (site : Site)
    (existingReading : option CumulativeReading) (day : Z) (dateString : string) :
  storageFailure db site day ->
  Handlers.processSingleSite ParseFloat db site existingReading day dateString
  = (mkCumulativeSiteResult (ID site) (Name site) (DeviceID site)
       0%float 0%float 0%float 0%float 0%float 0%float 0%float "ERROR"
       ("Calculation error: fuel="
        ++ show_error (error_of (Database.CalculateFuelChanges ParseFloat db
                                   (DeviceID site) day))
        ++ ", power="
        ++ show_error (error_of (Database.CalculatePowerRuntimes db (DeviceID site) day)))%string,
     []).
Proof.
  intros Hfail. apply (storageFailure_iff ParseFloat) in Hfail.
  unfold Handlers.processSingleSite.
  destruct (Database.CalculateFuelChanges ParseFloat db (DeviceID site) day) as [fm | ef];
    destruct (Database.CalculatePowerRuntimes db (DeviceID site) day) as [pm | ep];
    try reflexivity.
  exfalso. apply Hfail. split; reflexivity.
Qed.

Lemma getSiteRangeData_failure (db : DB) (site : Site) (startDate endDate msg : string) :
  query_range db (ID site) startDate endDate = Err msg ->
  Handlers.getSiteRangeData db site startDate endDate = None.
Proof.
  intros H. unfold Handlers.getSiteRangeData. rewrite H. reflexivity.
Qed.

Lemma getSiteRangeData_Some (db : DB) (site : Site) (startDate endDate : string)
    (result : CumulativeSiteRangeResult) :
  Handlers.getSiteRangeData db site startDate endDate = Some result ->
  RangeSiteID result = ID site
  /\ exists row scan,
      query_range db (ID site) startDate endDate = Ok row
      /\ Handlers.scanRange (Ok row) = Ok scan
      /\ reading_days row <> 0
      /\ ReadingDays result = reading_days row.
Proof.
  unfold Handlers.getSiteRangeData.
  destruct (query_range db (ID site) startDate endDate) as [row | e] eqn:Hq;
    [| discriminate].
  destruct (Handlers.scanRange (Ok row)) as [scan | e] eqn:Hscan; [| discriminate].
  assert (Hdays : Handlers.readingDays scan = reading_days row).
  { unfold Handlers.scanRange in Hscan.
    destruct (total_fuel_consumed row), (total_fuel_topped row),
      (total_generator_hours row), (total_zesa_hours row), (total_offline_hours row),
      (first_date row), (last_date row); try discriminate Hscan.
    injection Hscan as <-. reflexivity. }
  destruct (Handlers.readingDays scan =? 0) eqn:Hzero; [discriminate |].
  intros H. injection H as <-. split; [reflexivity |].
  exists row, scan. apply Z.eqb_neq in Hzero. rewrite <- Hdays.
  repeat split; try reflexivity; assumption.
Qed.

Lemma processSingleSite_success (ParseFloat : string -> option float) (db : DB) (site : Site)
    (existingReading : option CumulativeReading) (day : Z) (dateString : string) :
  ~ storageFailure db site day ->
  exists cmd : Upsert,
    snd (Handlers.processSingleSite ParseFloat db site existingReading day dateString) = [cmd]
    /\ up_site cmd = ID site /\ up_date cmd = dateString.
Proof.
  intros Hok. rewrite (storageFailure_iff ParseFloat) in Hok.
  unfold Handlers.processSingleSite, Database.CreateOrUpdateCumulativeReading.
  destruct (Database.CalculateFuelChanges ParseFloat db (DeviceID site) day) as [fm | ef].
  - destruct (Database.CalculatePowerRuntimes db (DeviceID site) day) as [pm | ep].
    + exists (mkUpsert (ID site) (DeviceID site) dateString fm pm).
      destruct (exec_upsert db _); repeat split.
    + exfalso. apply Hok. intros [_ H]. discriminate H.
  - exfalso. apply Hok. intros [H _]. discriminate H.
Qed.

Lemma failed_range_query_no_entry (db : DB) (sites : list Site) (startDate endDate msg : string)
    (site : Site) :
  query_range db (ID site) startDate endDate = Err msg ->
  forall entry,
    In entry (Handlers.processSiteRangeBatch db sites startDate endDate) ->
    RangeSiteID entry <> ID site.
Proof.
  intros Hq entry Hentry Hid. rewrite processSiteRangeBatch_entries in Hentry.
  apply in_flat_map in Hentry. destruct Hentry as [site' [_ Hentry]].
  unfold rangeEntry in Hentry.
  destruct (Handlers.getSiteRangeData db site' startDate endDate) as [result |] eqn:Hdata;
    [| contradiction].
  destruct Hentry as [-> | []].
  apply getSiteRangeData_Some in Hdata.
  destruct Hdata as [Hsite [row [scan [Hq' _]]]].
  rewrite Hid in Hsite. rewrite <- Hsite, Hq in Hq'. discriminate Hq'.
Qed.

(** C2, as the code has it. A storage failure in the fuel or the power
    calculation of a site is caught in [processSingleSite]: the entry of the
    site has status ERROR and a message that names both errors, and no
    upsert is sent for it (a site without such a failure sends exactly one);
    the list of a batch holds, site by site, the entry that the site gets on
    its own, so the failing site has its ERROR entry in the list and the
    entries of the other sites are what they are without it. In the range
    variant a site whose query fails gets a nil result from
    [getSiteRangeData] and no entry in the list of the batch, which holds
    the entries of the other sites, each computed on its own. *)
Theorem site_failure_is_local :
  forall (ParseFloat : string -> option float) (db : DB),
    (forall (site : Site) (existingReading : option CumulativeReading) (day : Z)
            (dateString : string),
        storageFailure db site day ->
        let entry :=
          Handlers.processSingleSite ParseFloat db site existingReading day dateString in
        SiteID (fst entry) = ID site
        /\ Status (fst entry) = "ERROR"%string
        /\ Error (fst entry)
           = ("Calculation error: fuel="
              ++ show_error (error_of (Database.CalculateFuelChanges ParseFloat db
                                         (DeviceID site) day))
              ++ ", power="
              ++ show_error (error_of (Database.CalculatePowerRuntimes db
                                         (DeviceID site) day)))%string
        /\ snd entry = [])
    /\ (forall (site : Site) (existingReading : option CumulativeReading) (day : Z)
               (dateString : string),
           ~ storageFailure db site day ->
           exists cmd : Upsert,
             snd (Handlers.processSingleSite ParseFloat db site existingReading day
                    dateString) = [cmd]
             /\ up_site cmd = ID site /\ up_date cmd = dateString)
    /\ (forall (sites : list Site) (existingReadings : Z -> option CumulativeReading)
               (day : Z) (dateString : string),
           Handlers.processBatch ParseFloat db sites existingReadings day dateString
           = (map (fun site =>
                     fst (Handlers.processSingleSite ParseFloat db site
                            (existingReadings (ID site)) day dateString)) sites,
              flat_map (fun site =>
                          snd (Handlers.processSingleSite ParseFloat db site
                                 (existingReadings (ID site)) day dateString)) sites))
    /\ (forall (sites : list Site) (existingReadings : Z -> option CumulativeReading)
               (day : Z) (dateString : string) (site : Site),
           In site sites ->
           storageFailure db site day ->
           exists entry,
             In entry (fst (Handlers.processBatch ParseFloat db sites existingReadings day
                              dateString))
             /\ SiteID entry = ID site /\ Status entry = "ERROR"%string)
    /\ (forall (site : Site) (startDate endDate msg : string),
           query_range db (ID site) startDate endDate = Err msg ->
           Handlers.getSiteRangeData db site startDate endDate = None)
    /\ (forall (sites : list Site) (startDate endDate msg : string) (site : Site),
           query_range db (ID site) startDate endDate = Err msg ->
           forall entry,
             In entry (Handlers.processSiteRangeBatch db sites startDate endDate) ->
             RangeSiteID entry <> ID site)
    /\ (forall (sites : list Site) (startDate endDate : string),
           Handlers.processSiteRangeBatch db sites startDate endDate
           = flat_map (fun site =>
                         match Handlers.getSiteRangeData db site startDate endDate with
                         | Some result => [result]
                         | None => []
                         end) sites).
Proof.
  intros ParseFloat db.
  assert (Hbatch :
    forall (sites : list Site) (existingReadings : Z -> option CumulativeReading)
           (day : Z) (dateString : string),
      Handlers.processBatch ParseFloat db sites existingReadings day dateString
      = (map (fun site =>
                fst (Handlers.processSingleSite ParseFloat db site
                       (existingReadings (ID site)) day dateString)) sites,
         flat_map (fun site =>
                     snd (Handlers.processSingleSite ParseFloat db site
                            (existingReadings (ID site)) day dateString)) sites)).
  { intros sites existingReadings day dateString.
    unfold Handlers.processBatch. rewrite processBatch_entries. reflexivity. }
  split; [| split; [| split; [| split; [| split; [| split]]]]].
  - intros site existingReading day dateString Hfail entry. subst entry.
    rewrite processSingleSite_failure by assumption.
    split; [reflexivity |]. split; [reflexivity |]. split; reflexivity.
  - intros site existingReading day dateString. apply processSingleSite_success.
  - exact Hbatch.
  - intros sites existingReadings day dateString site Hin Hfail.
    rewrite Hbatch. cbn [fst].
    exists (fst (Handlers.processSingleSite ParseFloat db site (existingReadings (ID site))
                   day dateString)).
    split.
    + apply (in_map (fun site =>
                       fst (Handlers.processSingleSite ParseFloat db site
                              (existingReadings (ID site)) day dateString))).
      exact Hin.
    + rewrite processSingleSite_failure by assumption. split; reflexivity.
  - intros site startDate endDate msg. apply getSiteRangeData_failure.
  - intros sites startDate endDate msg site. apply failed_range_query_no_entry.
  - intros sites startDate endDate. apply processSiteRangeBatch_entries.
Qed.

(** The failure of the sensor queries of site A gives it an ERROR entry and
    sends no upsert. *)
Lemma site_failure_is_local_witness :
  storageFailure Examples.sensorsDown Examples.siteA 19723
  /\ Status (fst (Handlers.processSingleSite Examples.noParse Examples.sensorsDown
                    Examples.siteA None 19723 "2024-01-01"))
     = "ERROR"%string
  /\ snd (Handlers.processSingleSite Examples.noParse Examples.sensorsDown
            Examples.siteA None 19723 "2024-01-01") = [].
Proof.
  assert (Hfail : storageFailure Examples.sensorsDown Examples.siteA 19723).
  { right. left. simpl. discriminate. }
  split; [exact Hfail |].
  pose proof (proj1 (site_failure_is_local Examples.noParse Examples.sensorsDown)
                Examples.siteA None 19723 "2024-01-01"%string Hfail) as H.
  cbv zeta in H. destruct H as [_ [Hstatus [_ Hsent]]].
  split; [exact Hstatus | exact Hsent].
Defined.

(** C2 as stated fails for the range variant: the range query of site D
    fails, and the list has no entry for site D, with status ERROR or
    otherwise; the entry of site B is there. *)
Lemma range_failure_leaves_no_entry :
  query_range Examples.rangeStore (ID Examples.siteD) "2024-01-01" "2024-01-03"
  = Err "connection refused"%string
  /\ map RangeSiteID
         (Handlers.processSiteRangeBatch Examples.rangeStore
            [Examples.siteB; Examples.siteD] "2024-01-01" "2024-01-03")
     = [2]
  /\ ~ (exists entry,
           In entry (Handlers.processSiteRangeBatch Examples.rangeStore
                       [Examples.siteB; Examples.siteD] "2024-01-01" "2024-01-03")
           /\ RangeSiteID entry = ID Examples.siteD).
Proof.
  split; [reflexivity |].
  assert (Hids :
    map RangeSiteID
        (Handlers.processSiteRangeBatch Examples.rangeStore
           [Examples.siteB; Examples.siteD] "2024-01-01" "2024-01-03") = [2]).
  { vm_compute. reflexivity. }
  split; [exact Hids |].
  intros [entry [Hin Hid]].
  apply (in_map RangeSiteID) in Hin. rewrite Hids, Hid in Hin.
  destruct Hin as [H | []]. discriminate H.
Qed.

(** ** Range variant *)

(** C9. In the range variant a site whose aggregate query matches zero
    days has no entry in the returned list (no row of zeros stands for it),
    and a site whose query matches at least one day, with the sums and dates
    of those days, has its entry; for every store, site list and window. *)
Theorem range_omits_sites_without_days :
  forall (db : DB) (sites : list Site) (startDate endDate : string) (site : Site)
         (row : RangeRow),
    In site sites ->
    query_range db (ID site) startDate endDate = Ok row ->
    (reading_days row = 0 ->
     forall entry,
       In entry (Handlers.processSiteRangeBatch db sites startDate endDate) ->
       RangeSiteID entry <> ID site)
    /\ (reading_days row <> 0 ->
        forall scan,
          Handlers.scanRange (Ok row) = Ok scan ->
          exists entry,
            In entry (Handlers.processSiteRangeBatch db sites startDate endDate)
            /\ RangeSiteID entry = ID site
            /\ ReadingDays entry = reading_days row).
Proof.
  intros db sites startDate endDate site row Hin Hq.
  rewrite processSiteRangeBatch_entries. split.
  - intros Hzero entry Hentry Hid.
    apply in_flat_map in Hentry. destruct Hentry as [site' [_ Hentry]].
    unfold rangeEntry in Hentry.
    destruct (Handlers.getSiteRangeData db site' startDate endDate) as [result |] eqn:Hdata;
      [| contradiction].
    destruct Hentry as [-> | []].
    apply getSiteRangeData_Some in Hdata.
    destruct Hdata as [Hsite [row' [scan [Hq' [_ [Hdays _]]]]]].
    rewrite Hid in Hsite. rewrite <- Hsite, Hq in Hq'.
    injection Hq' as <-. contradiction.
  - intros Hdays scan Hscan.
    assert (Hscandays : Handlers.readingDays scan = reading_days row).
    { unfold Handlers.scanRange in Hscan.
      destruct (total_fuel_consumed row), (total_fuel_topped row),
        (total_generator_hours row), (total_zesa_hours row), (total_offline_hours row),
        (first_date row), (last_date row); try discriminate Hscan.
      injection Hscan as <-. reflexivity. }
    assert (Hdata : exists result,
               Handlers.getSiteRangeData db site startDate endDate = Some result
               /\ RangeSiteID result = ID site /\ ReadingDays result = reading_days row).
    { unfold Handlers.getSiteRangeData. rewrite Hq, Hscan, Hscandays.
      apply Z.eqb_neq in Hdays. rewrite Hdays.
      eexists. split; [reflexivity |]. split; reflexivity. }
    destruct Hdata as [result [Hdata [Hid Hrd]]].
    exists result. split; [| split; assumption].
    apply in_flat_map. exists site. split; [exact Hin |].
    unfold rangeEntry. rewrite Hdata. left. reflexivity.
Qed.

(** Site A has no reading in the window and no entry, site B has three
    days and its entry. *)
Lemma range_omits_sites_without_days_witness :
  (forall entry,
      In entry (Handlers.processSiteRangeBatch Examples.rangeStore
                  [Examples.siteA; Examples.siteB] "2024-01-01" "2024-01-03") ->
      RangeSiteID entry <> 1)
  /\ (exists entry,
         In entry (Handlers.processSiteRangeBatch Examples.rangeStore
                     [Examples.siteA; Examples.siteB] "2024-01-01" "2024-01-03")
         /\ RangeSiteID entry = 2 /\ ReadingDays entry = 3).
Proof.
  split.
  - apply (proj1 (range_omits_sites_without_days Examples.rangeStore
                    [Examples.siteA; Examples.siteB] "2024-01-01" "2024-01-03"
                    Examples.siteA Examples.noDays
                    (or_introl eq_refl) eq_refl)).
    reflexivity.
  - apply (proj2 (range_omits_sites_without_days Examples.rangeStore
                    [Examples.siteA; Examples.siteB] "2024-01-01" "2024-01-03"
                    Examples.siteB (Examples.someDays 3 0.04%float)
                    (or_intror (or_introl eq_refl)) eq_refl)
             ltac:(discriminate)
             (Handlers.mkRangeScan 3 0.04%float 0%float 0%float 0%float 0%float
                "2024-01-01" "2024-01-03")
             eq_refl).
Defined.

(** ** The two summary paths *)

Lemma fold_rangeSummaryStep (results : list CumulativeSiteRangeResult) :
  forall fc ft gh zh oh : float,
    fold_left Handlers.rangeSummaryStep results (fc, ft, gh, zh, oh)
    = (fold_left PrimFloat.add (map RangeFuelConsumed results) fc,
       fold_left PrimFloat.add (map RangeFuelTopped results) ft,
       fold_left PrimFloat.add (map RangeGeneratorHours results) gh,
       fold_left PrimFloat.add (map RangeZesaHours results) zh,
       fold_left PrimFloat.add (map RangeOfflineHours results) oh).
Proof.
  induction results as [| r results IH]; intros fc ft gh zh oh.
  - reflexivity.
  - simpl. apply IH.
Qed.

Lemma rangeEntry_scan (db : DB) (startDate endDate : string) (site : Site) :
  rangeEntry db startDate endDate site
  = map (fun s =>
           mkCumulativeSiteRangeResult (ID site) (Name site) (DeviceID site)
             (Handlers.roundToDecimal (Handlers.scanFuelConsumed s) 1)
             (Handlers.roundToDecimal (Handlers.scanFuelTopped s) 1)
             (Handlers.roundToDecimal (Handlers.scanGeneratorHours s) 2)
             (Handlers.roundToDecimal (Handlers.scanZesaHours s) 2)
             (Handlers.roundToDecimal (Handlers.scanOfflineHours s) 2)
             (Handlers.readingDays s)
             (mkDateRange (Handlers.firstDate s) (Handlers.lastDate s) false))
        (rangeScans db startDate endDate [site]).
Proof.
  unfold rangeEntry, rangeScans, Handlers.getSiteRangeData. cbn [flat_map].
  destruct (Handlers.scanRange (query_range db (ID site) startDate endDate)) as [s | e];
    [| reflexivity].
  destruct (Handlers.readingDays s =? 0); reflexivity.
Qed.

Lemma rangeScans_cons (db : DB) (startDate endDate : string) (site : Site)
    (sites : list Site) :
  rangeScans db startDate endDate (site :: sites)
  = (rangeScans db startDate endDate [site] ++ rangeScans db startDate endDate sites)%list.
Proof.
  unfold rangeScans. cbn [flat_map]. rewrite app_nil_r. reflexivity.
Qed.

Lemma range_fields_rounded (db : DB) (startDate endDate : string) (sites : list Site) :
  let entries := Handlers.processSiteRangeBatch db sites startDate endDate in
  let scans := rangeScans db startDate endDate sites in
  map RangeFuelConsumed entries
  = map (fun s => Handlers.roundToDecimal (Handlers.scanFuelConsumed s) 1) scans
  /\ map RangeFuelTopped entries
     = map (fun s => Handlers.roundToDecimal (Handlers.scanFuelTopped s) 1) scans
  /\ map RangeGeneratorHours entries
     = map (fun s => Handlers.roundToDecimal (Handlers.scanGeneratorHours s) 2) scans
  /\ map RangeZesaHours entries
     = map (fun s => Handlers.roundToDecimal (Handlers.scanZesaHours s) 2) scans
  /\ map RangeOfflineHours entries
     = map (fun s => Handlers.roundToDecimal (Handlers.scanOfflineHours s) 2) scans.
Proof.
  cbv zeta. rewrite processSiteRangeBatch_entries.
  induction sites as [| site sites IH].
  - repeat split.
  - cbn [flat_map]. rewrite rangeScans_cons, !map_app, rangeEntry_scan, !map_map.
    cbn [RangeFuelConsumed RangeFuelTopped RangeGeneratorHours RangeZesaHours
         RangeOfflineHours].
    destruct IH as [H1 [H2 [H3 [H4 H5]]]].
    rewrite H1, H2, H3, H4, H5. repeat split.
Qed.

Lemma calculateRangeSummary_totals (results : list CumulativeSiteRangeResult)
    (startDate endDate : string) (startDateTime endDateTime : GoTime.Time) :
  let summary :=
    Handlers.calculateRangeSummary results startDate endDate startDateTime endDateTime in
  RangeTotalFuelConsumed summary
  = Handlers.roundToDecimal (Spec.sum (map RangeFuelConsumed results)) 1
  /\ RangeTotalFuelTopped summary
     = Handlers.roundToDecimal (Spec.sum (map RangeFuelTopped results)) 1
  /\ RangeTotalGeneratorHours summary
     = Handlers.roundToDecimal (Spec.sum (map RangeGeneratorHours results)) 2
  /\ RangeTotalZesaHours summary
     = Handlers.roundToDecimal (Spec.sum (map RangeZesaHours results)) 2
  /\ RangeTotalOfflineHours summary
     = Handlers.roundToDecimal (Spec.sum (map RangeOfflineHours results)) 2.
Proof.
  cbv zeta. unfold Handlers.calculateRangeSummary. rewrite fold_rangeSummaryStep.
  cbn. repeat split.
Qed.

(** C10. The two summary paths round differently. The single-day summary
    sums the unrounded values of the sites that are not errors and rounds
    the sum once. In the range variant each entry holds the rounded sums of
    its site (1 decimal for the volumes, 2 for the hours), and the summary
    sums these rounded values and rounds again: a total is
    round(sum of round(value of the site))). The two can differ: two sites
    with 0.04 litres each total 0.0 on the range path, and 0.1 when the raw
    sum is rounded. *)
Theorem range_summary_rounds_twice :
  (forall (results : list CumulativeSiteResult) (totalSites : Z),
      let summary := Handlers.calculateSummary results totalSites in
      SumFuelConsumed summary
      = Handlers.roundToDecimal (Spec.sum (map FuelConsumed (Spec.processed results))) 1
      /\ SumFuelTopped summary
         = Handlers.roundToDecimal (Spec.sum (map FuelTopped (Spec.processed results))) 1
      /\ SumGeneratorHours summary
         = Handlers.roundToDecimal (Spec.sum (map GeneratorHours (Spec.processed results))) 2
      /\ SumZesaHours summary
         = Handlers.roundToDecimal (Spec.sum (map ZesaHours (Spec.processed results))) 2
      /\ SumOfflineHours summary
         = Handlers.roundToDecimal (Spec.sum (map OfflineHours (Spec.processed results))) 2)
  /\ (forall (db : DB) (sites : list Site) (startDate endDate : string)
             (startDateTime endDateTime : GoTime.Time),
         let scans := rangeScans db startDate endDate sites in
         let summary :=
           Handlers.calculateRangeSummary
             (Handlers.processSiteRangeBatch db sites startDate endDate)
             startDate endDate startDateTime endDateTime in
         RangeTotalFuelConsumed summary
         = Handlers.roundToDecimal
             (Spec.sum (map (fun s => Handlers.roundToDecimal (Handlers.scanFuelConsumed s) 1)
                            scans)) 1
         /\ RangeTotalFuelTopped summary
            = Handlers.roundToDecimal
                (Spec.sum (map (fun s => Handlers.roundToDecimal (Handlers.scanFuelTopped s) 1)
                               scans)) 1
         /\ RangeTotalGeneratorHours summary
            = Handlers.roundToDecimal
                (Spec.sum (map (fun s =>
                                  Handlers.roundToDecimal (Handlers.scanGeneratorHours s) 2)
                               scans)) 2
         /\ RangeTotalZesaHours summary
            = Handlers.roundToDecimal
                (Spec.sum (map (fun s => Handlers.roundToDecimal (Handlers.scanZesaHours s) 2)
                               scans)) 2
         /\ RangeTotalOfflineHours summary
            = Handlers.roundToDecimal
                (Spec.sum (map (fun s =>
                                  Handlers.roundToDecimal (Handlers.scanOfflineHours s) 2)
                               scans)) 2)
  /\ (map Handlers.scanFuelConsumed
          (rangeScans Examples.rangeStore "2024-01-01" "2024-01-03"
                      [Examples.siteB; Examples.siteC])
      = [0.04; 0.04]%float
      /\ RangeTotalFuelConsumed
           (Handlers.calculateRangeSummary
              (Handlers.processSiteRangeBatch Examples.rangeStore
                 [Examples.siteB; Examples.siteC] "2024-01-01" "2024-01-03")
              "2024-01-01" "2024-01-03"
              (GoTime.date 2024 1 1) (GoTime.date 2024 1 3))
         = 0%float
      /\ Handlers.roundToDecimal (Spec.sum [0.04; 0.04]%float) 1 = 0.1%float
      /\ SumFuelConsumed
           (Handlers.calculateSummary
              [mkCumulativeSiteResult 2 "Beta" "dev-b" 0.04 0 0 0 0 0 0 "CREATED" "";
               mkCumulativeSiteResult 3 "Gamma" "dev-c" 0.04 0 0 0 0 0 0 "CREATED" ""]
              2)
         = 0.1%float).
Proof.
  split; [| split].
  - intros results totalSites summary. subst summary.
    unfold Handlers.calculateSummary. rewrite fold_summaryStep.
    cbn. repeat split.
  - intros db sites startDate endDate startDateTime endDateTime scans summary.
    subst scans summary.
    destruct (calculateRangeSummary_totals
                (Handlers.processSiteRangeBatch db sites startDate endDate)
                startDate endDate startDateTime endDateTime) as [T1 [T2 [T3 [T4 T5]]]].
    destruct (range_fields_rounded db startDate endDate sites) as [F1 [F2 [F3 [F4 F5]]]].
    rewrite T1, T2, T3, T4, T5, F1, F2, F3, F4, F5. repeat split.
  - vm_compute. repeat split.
Qed.

(** ** Conversions between integers and floats *)

Lemma SF2Prim_binary_round_opp (p : positive) (e : Z) :
  SF2Prim (binary_round prec emax true p e)
  = (- SF2Prim (binary_round prec emax false p e))%float.
Proof.
  unfold binary_round, binary_round_aux.
  destruct (shl_align p e _) as [mz ez].
  destruct (shr_fexp prec emax (Z.pos mz) ez loc_Exact) as [mrs' e'].
  destruct (shr_fexp prec emax _ e' loc_Exact) as [mrs'' e''].
  destruct (shr_m mrs'') as [| m | m]; try reflexivity.
  destruct (e'' <=? emax - prec); reflexivity.
Qed.

Lemma of_int_nonneg (n : Z) :
  0 <= n < 2 ^ 63 -> Float64.of_int n = of_uint63 (Uint63.of_Z n).
Proof.
  intros Hn. unfold Float64.of_int.
  rewrite <- (SF2Prim_Prim2SF (of_uint63 (Uint63.of_Z n))), of_uint63_spec.
  rewrite <- (Uint63.is_int n) by exact Hn. reflexivity.
Qed.

Lemma of_int_is_fast (n : Z) :
  - 2 ^ 63 < n < 2 ^ 63 -> Float64.of_int n = of_int_fast n.
Proof.
  intros Hn. destruct n as [| p | p].
  - apply of_int_nonneg. lia.
  - apply of_int_nonneg. lia.
  - unfold of_int_fast. rewrite <- (of_int_nonneg (Z.pos p)) by lia.
    unfold Float64.of_int. cbn [binary_normalize].
    apply SF2Prim_binary_round_opp.
Qed.

Lemma allFrom_spec (p : Z -> bool) (n : nat) :
  forall lo : Z,
    allFrom p lo n = true ->
    forall k : Z, lo <= k < lo + Z.of_nat n -> p k = true.
Proof.
  induction n as [| n IH]; intros lo Hall k Hk.
  - simpl in Hk. lia.
  - simpl in Hall. apply andb_true_iff in Hall. destruct Hall as [Hlo Hrest].
    destruct (Z.eq_dec k lo) as [-> | Hne]; [exact Hlo |].
    apply (IH (lo + 1) Hrest). lia.
Qed.

(** ** Days of a range *)

Lemma Hours_of_days (k : Z) :
  GoTime.Hours (k * GoTime.Day)
  = (Float64.of_int (24 * k) + Float64.of_int 0 / 3.6e12)%float.
Proof.
  unfold GoTime.Hours.
  replace (k * GoTime.Day) with (24 * k * GoTime.Hour) by (unfold GoTime.Day; ring).
  rewrite Z.quot_mul by discriminate.
  rewrite Z.rem_mul by discriminate.
  reflexivity.
Qed.

Lemma daysBetween_checked :
  allFrom (fun k => daysBetween k =? k) (- maxDays) (Z.to_nat (2 * maxDays + 1)) = true.
Proof. vm_compute. reflexivity. Qed.

Lemma days_of_span (k : Z) :
  - maxDays <= k <= maxDays ->
  Float64.to_int (GoTime.Hours (k * GoTime.Day)%Z / 24)%float = k.
Proof.
  intros Hk. rewrite Hours_of_days.
  rewrite !of_int_is_fast by (unfold maxDays in Hk; lia).
  apply Z.eqb_eq.
  apply (allFrom_spec (fun k => daysBetween k =? k) _ _ daysBetween_checked).
  unfold maxDays in *. lia.
Qed.

Lemma Sub_midnights (a b : Z) :
  - maxDays <= b - a <= maxDays ->
  GoTime.Sub (GoTime.midnight b) (GoTime.midnight a) = (b - a) * GoTime.Day.
Proof.
  intros H. unfold maxDays in H.
  unfold GoTime.Sub, GoTime.midnight, GoTime.minDuration, GoTime.maxDuration.
  change GoTime.Day with 86400000000000.
  change Float64.int64_min with (-9223372036854775808).
  change Float64.int64_max with 9223372036854775807.
  destruct (Z.ltb_spec (b * 86400000000000 - a * 86400000000000) (-9223372036854775808));
    [lia |].
  destruct (Z.ltb_spec 9223372036854775807 (b * 86400000000000 - a * 86400000000000));
    lia.
Qed.

(** C8, as the code has it. For two midnights at most 106751 days apart
    (the longest span a Duration holds), [calculateDaysDifference] returns 1
    when they are equal and the difference in days plus one otherwise;
    2024-01-01 to 2024-01-01 gives 1 and 2024-01-01 to 2024-01-03 gives
    3. *)
Theorem calculateDaysDifference_inclusive :
  forall startDay endDay : Z,
    - maxDays <= endDay - startDay <= maxDays ->
    Handlers.calculateDaysDifference (GoTime.midnight startDay) (GoTime.midnight endDay)
    = (if endDay =? startDay then 1 else endDay - startDay + 1)
    /\ Handlers.calculateDaysDifference (GoTime.date 2024 1 1) (GoTime.date 2024 1 1) = 1
    /\ Handlers.calculateDaysDifference (GoTime.date 2024 1 1) (GoTime.date 2024 1 3) = 3.
Proof.
  intros startDay endDay Hspan.
  split; [| split; vm_compute; reflexivity].
  unfold Handlers.calculateDaysDifference, GoTime.Equal.
  destruct (Z.eqb_spec endDay startDay) as [-> | Hne].
  - rewrite Z.eqb_refl. reflexivity.
  - destruct (Z.eqb_spec (GoTime.midnight startDay) (GoTime.midnight endDay)) as [E | _].
    + exfalso. apply Hne. unfold GoTime.midnight in E.
      change GoTime.Day with 86400000000000 in E. lia.
    + rewrite Sub_midnights by exact Hspan.
      rewrite days_of_span by exact Hspan. reflexivity.
Qed.

(** A window of three days. *)
Lemma calculateDaysDifference_inclusive_witness :
  Handlers.calculateDaysDifference (GoTime.midnight 19723) (GoTime.midnight 19725) = 3.
Proof.
  assert (Hspan : - maxDays <= 19725 - 19723 <= maxDays) by (unfold maxDays; lia).
  exact (proj1 (calculateDaysDifference_inclusive 19723 19725 Hspan)).
Defined.

(** C8 as stated fails on a long window: from 0001-01-01 to 2024-01-01
    there are 738885 days, and the function returns 106752, the days of the
    longest Duration plus one. *)
Lemma calculateDaysDifference_saturates :
  GoTime.days_from_civil 2024 1 1 - GoTime.days_from_civil 1 1 1 = 738885
  /\ Handlers.calculateDaysDifference (GoTime.date 1 1 1) (GoTime.date 2024 1 1) = 106752
  /\ Handlers.calculateDaysDifference (GoTime.date 1 1 1) (GoTime.date 2024 1 1)
     <> GoTime.days_from_civil 2024 1 1 - GoTime.days_from_civil 1 1 1 + 1.
Proof.
  split; [vm_compute; reflexivity |].
  split; [vm_compute; reflexivity |].
  vm_compute. discriminate.
Qed.

(** ** Signs through rounding *)

Lemma shr_1_nonneg (mrs : shr_record) : 0 <= shr_m mrs -> 0 <= shr_m (shr_1 mrs).
Proof.
  destruct mrs as [m r s]. destruct m as [| p | p]; simpl; try lia.
  destruct p; simpl; lia.
Qed.

Lemma iter_pos_invariant {A : Type} (P : A -> Prop) (f : A -> A)
    (Hf : forall x, P x -> P (f x)) :
  forall (n : positive) (x : A), P x -> P (iter_pos f n x).
Proof.
  induction n as [n IH | n IH |]; intros x Hx; simpl.
  - apply IH, IH, Hf, Hx.
  - apply IH, IH, Hx.
  - apply Hf, Hx.
Qed.

Lemma shr_fexp_nonneg (m e : Z) (l : location) :
  0 <= m -> 0 <= shr_m (fst (shr_fexp prec emax m e l)).
Proof.
  intros Hm. unfold shr_fexp, shr.
  assert (H0 : 0 <= shr_m (shr_record_of_loc m l)).
  { destruct l as [| c]; [| destruct c]; exact Hm. }
  destruct (fexp prec emax (Zdigits2 m + e) - e) as [| p | p]; simpl; try exact H0.
  apply (iter_pos_invariant (fun mrs => 0 <= shr_m mrs) shr_1 shr_1_nonneg). exact H0.
Qed.

Lemma round_nearest_even_nonneg (m : Z) (l : location) :
  0 <= m -> 0 <= round_nearest_even m l.
Proof.
  intros Hm. destruct l as [| c]; [| destruct c]; simpl; try lia.
  destruct (Z.even m); lia.
Qed.

Lemma binary_round_aux_sign (sx : bool) (mx ex : Z) (lx : location) :
  0 <= mx -> sf_sign sx (binary_round_aux prec emax sx mx ex lx).
Proof.
  intros Hm. unfold binary_round_aux.
  pose proof (shr_fexp_nonneg mx ex lx Hm) as H1.
  destruct (shr_fexp prec emax mx ex lx) as [mrs' e']. simpl in H1.
  pose proof (shr_fexp_nonneg _ e' loc_Exact
                (round_nearest_even_nonneg _ (loc_of_shr_record mrs') H1)) as H2.
  destruct (shr_fexp prec emax _ e' loc_Exact) as [mrs'' e'']. simpl in H2.
  destruct (shr_m mrs'') as [| p | p].
  - reflexivity.
  - destruct (e'' <=? emax - prec); reflexivity.
  - lia.
Qed.

Lemma binary_round_sign (sx : bool) (m : positive) (e : Z) :
  sf_sign sx (binary_round prec emax sx m e).
Proof.
  unfold binary_round. destruct (shl_align m e _) as [mz ez].
  apply binary_round_aux_sign. lia.
Qed.

Lemma binary_normalize_nonneg (m e : Z) :
  0 <= m -> sf_sign false (binary_normalize prec emax m e false).
Proof.
  intros Hm. destruct m as [| p | p]; [reflexivity | apply binary_round_sign | lia].
Qed.

Lemma binary_normalize_nonpos (m e : Z) :
  m <= 0 -> sf_nonpos (binary_normalize prec emax m e false).
Proof.
  intros Hm. destruct m as [| p | p]; [exact I | lia |].
  simpl. pose proof (binary_round_sign true p e) as H.
  destruct (binary_round prec emax true p e); simpl in *; auto.
Qed.

(** ** Mantissas of valid floats *)

Lemma digits2_pos_bounds (m : positive) :
  2 ^ (Z.pos (digits2_pos m) - 1) <= Z.pos m < 2 ^ Z.pos (digits2_pos m).
Proof.
  induction m as [m IH | m IH |]; simpl digits2_pos.
  - rewrite Pos2Z.inj_succ.
    replace (Z.succ (Z.pos (digits2_pos m)) - 1) with (Z.succ (Z.pos (digits2_pos m) - 1))
      by lia.
    rewrite !Z.pow_succ_r by lia. lia.
  - rewrite Pos2Z.inj_succ.
    replace (Z.succ (Z.pos (digits2_pos m)) - 1) with (Z.succ (Z.pos (digits2_pos m) - 1))
      by lia.
    rewrite !Z.pow_succ_r by lia. lia.
  - simpl. lia.
Qed.

Lemma bounded_mantissa (m : positive) (e : Z) :
  bounded prec emax m e = true ->
  Z.pos m < 2 ^ 53 /\ (-1074 < e -> 2 ^ 52 <= Z.pos m).
Proof.
  unfold bounded, canonical_mantissa, fexp, SpecFloat.emin.
  change prec with 53. change emax with 1024.
  intros H. apply andb_true_iff in H. destruct H as [H _].
  apply Z.eqb_eq in H.
  pose proof (digits2_pos_bounds m) as [Hlo Hhi].
  split.
  - assert (Hd : Z.pos (digits2_pos m) <= 53) by lia.
    apply (Z.lt_le_trans _ _ _ Hhi). apply Z.pow_le_mono_r; lia.
  - intros He. assert (Hd : Z.pos (digits2_pos m) = 53) by lia.
    rewrite Hd in Hlo. exact Hlo.
Qed.

Lemma iter_xO_doubles (m d : positive) : 2 * Z.pos m <= Z.pos (Pos.iter xO m d).
Proof.
  induction d as [| d IH] using Pos.peano_ind.
  - simpl. lia.
  - rewrite Pos.iter_succ. lia.
Qed.

(** ** Subtraction from 24 *)

Lemma sub_24_finite (sg : bool) (m : positive) (e : Z) :
  bounded prec emax m e = true ->
  (SFltb (S754_finite sg m e) sf24 = true ->
   sf_sign false (SF64sub sf24 (S754_finite sg m e)))
  /\ (SFltb (S754_finite sg m e) sf24 = false ->
      sf_nonpos (SF64sub sf24 (S754_finite sg m e))).
Proof.
  intros Hb. apply bounded_mantissa in Hb. destruct Hb as [Hhi Hlo].
  unfold SF64sub, sf24, SFsub, SFltb, SFcompare, shl_align.
  remember 6755399441055744%positive as c eqn:Hc.
  assert (Hcz : Z.pos c = 6755399441055744) by (rewrite Hc; reflexivity).
  clear Hc.
  destruct sg.
  - split; [intros _ | discriminate].
    apply binary_normalize_nonneg.
    destruct (Z.min (-48) e - -48); destruct (Z.min (-48) e - e);
      cbn [fst cond_Zopp]; lia.
  - destruct (Z.compare_spec e (-48)) as [He | He | He].
    + subst e. change (Z.min (-48) (-48)) with (-48).
      change (-48 - -48) with 0. cbn [fst cond_Zopp].
      rewrite Pos.compare_cont_spec. cbn [Pos.switch_Eq].
      destruct (Pos.compare_spec m c) as [Hm | Hm | Hm].
      * split; [discriminate | intros _]. apply binary_normalize_nonpos. lia.
      * split; [intros _ | discriminate]. apply binary_normalize_nonneg. lia.
      * split; [discriminate | intros _]. apply binary_normalize_nonpos. lia.
    + split; [intros _ | discriminate].
      rewrite Z.min_r by lia. rewrite Z.sub_diag.
      destruct (e - -48) as [| d | d] eqn:Hd; try lia.
      cbn [fst cond_Zopp].
      apply binary_normalize_nonneg.
      pose proof (iter_xO_doubles c d). lia.
    + split; [discriminate | intros _].
      rewrite Z.min_l by lia. rewrite Z.sub_diag.
      destruct (-48 - e) as [| d | d] eqn:Hd; try lia.
      cbn [fst cond_Zopp].
      apply binary_normalize_nonpos.
      pose proof (iter_xO_doubles m d). specialize (Hlo ltac:(lia)). lia.
Qed.

Lemma sf_sign_false_cases (r : spec_float) :
  sf_sign false r ->
  (r = S754_zero false \/ SFltb (S754_zero false) r = true)
  /\ SFltb r (S754_zero false) = false.
Proof.
  destruct r as [s | s | | s m e]; simpl; intros H; try contradiction; subst s.
  - split; [left; reflexivity | reflexivity].
  - split; [right; reflexivity | reflexivity].
  - split; [right; reflexivity | reflexivity].
Qed.

Lemma sf_nonpos_not_above_zero (r : spec_float) :
  sf_nonpos r -> SFltb (S754_zero false) r = false.
Proof.
  destruct r as [s | s | | s m e]; simpl; intros H; try contradiction;
    try subst s; reflexivity.
Qed.

Lemma Prim2SF_24 : Prim2SF 24 = sf24.
Proof. reflexivity. Qed.

Lemma Prim2SF_zero : Prim2SF 0 = S754_zero false.
Proof. reflexivity. Qed.

Lemma sub_24_below (s : float) :
  (s <? 24)%float = true -> sf_sign false (Prim2SF (24 - s)).
Proof.
  rewrite FloatAxioms.ltb_spec, FloatAxioms.sub_spec, Prim2SF_24.
  pose proof (Prim2SF_valid s) as Hv.
  destruct (Prim2SF s) as [sg | sg | | sg m e].
  - intros _. reflexivity.
  - destruct sg; [intros _; reflexivity | discriminate].
  - discriminate.
  - apply (proj1 (sub_24_finite sg m e Hv)).
Qed.

Lemma sub_24_not_below (s : float) :
  (s <? 24)%float = false -> (0 <? 24 - s)%float = false.
Proof.
  rewrite !FloatAxioms.ltb_spec, FloatAxioms.sub_spec, Prim2SF_24, Prim2SF_zero.
  pose proof (Prim2SF_valid s) as Hv.
  destruct (Prim2SF s) as [sg | sg | | sg m e].
  - discriminate.
  - destruct sg; [discriminate | intros _; reflexivity].
  - intros _. reflexivity.
  - intros H. apply sf_nonpos_not_above_zero.
    apply (proj2 (sub_24_finite sg m e Hv)). exact H.
Qed.

Lemma offlineHours_max0 (generatorHours zesaHours : float) :
  Database.offlineHours generatorHours zesaHours
  = Float64.max0 (24 - (generatorHours + zesaHours))
  /\ (Database.offlineHours generatorHours zesaHours <? 0)%float = false.
Proof.
  unfold Database.offlineHours, Float64.max0.
  set (s := (generatorHours + zesaHours)%float).
  destruct (s <? 24)%float eqn:Hlt.
  - pose proof (sf_sign_false_cases _ (sub_24_below s Hlt)) as [[Hz | Hp] Hn].
    + assert (E : (24 - s)%float = 0%float).
      { apply Prim2SF_inj. rewrite Hz. reflexivity. }
      rewrite E. split; reflexivity.
    + rewrite <- Prim2SF_zero, <- !FloatAxioms.ltb_spec in *. rewrite Hp. split; [reflexivity | exact Hn].
  - rewrite (sub_24_not_below s Hlt). split; reflexivity.
Qed.

(** C5. The offline hours of the power metrics are
    max(0, 24 - generator hours - grid hours): for every pair of runtimes
    the offline time is 24 minus their sum when that is above zero and 0
    otherwise, and it is never below zero; [CalculatePowerRuntimes] returns
    the two runtimes with this offline time; 14 and 15 hours give 0. *)
Theorem offline_hours_clamped :
  forall generatorHours zesaHours : float,
    Database.offlineHours generatorHours zesaHours
    = Float64.max0 (24 - (generatorHours + zesaHours))
    /\ (Database.offlineHours generatorHours zesaHours <? 0)%float = false
    /\ (forall (db : DB) (deviceID : string) (day : Z),
           Database.CalculatePowerRuntimes db deviceID day
           = match Database.calculateStateRuntime db deviceID "generator_state"
                     (Database.startOfDay day) (Database.endOfDay day) with
             | Err e => Err ("failed to calculate generator runtime: " ++ e)%string
             | Ok g =>
                 match Database.calculateStateRuntime db deviceID "zesa_state"
                         (Database.startOfDay day) (Database.endOfDay day) with
                 | Err e => Err ("failed to calculate zesa runtime: " ++ e)%string
                 | Ok z => Ok (mkPowerMetrics g z (Float64.max0 (24 - (g + z))))
                 end
             end)
    /\ Database.offlineHours 14 15 = 0%float.
Proof.
  intros generatorHours zesaHours.
  destruct (offlineHours_max0 generatorHours zesaHours) as [Hmax Hneg].
  split; [exact Hmax |]. split; [exact Hneg |]. split; [| reflexivity].
  intros db deviceID day. unfold Database.CalculatePowerRuntimes.
  destruct (Database.calculateStateRuntime db deviceID "generator_state" _ _) as [g | e];
    [| reflexivity].
  destruct (Database.calculateStateRuntime db deviceID "zesa_state" _ _) as [z | e];
    [| reflexivity].
  rewrite (proj1 (offlineHours_max0 g z)). reflexivity.
Qed.

(** ** Rounding to decimals *)

Lemma multiplier_checked : allFrom multiplierOK 0 23 = true.
Proof. vm_compute. reflexivity. Qed.

Lemma multiplier_is_pow10 (d : Z) :
  0 <= d <= 22 ->
  Handlers.multiplier d = pow10 d /\ sf_positive (Prim2SF (Handlers.multiplier d)) = true.
Proof.
  intros Hd.
  assert (H : multiplierOK d = true).
  { apply (allFrom_spec multiplierOK 23 0 multiplier_checked). simpl. lia. }
  unfold multiplierOK in H. apply andb_true_iff in H. destruct H as [H1 H2].
  split; [apply FloatAxioms.Leibniz.eqb_spec; exact H1 | exact H2].
Qed.

Lemma leb_zero_ge0 (x : float) : (0 <=? x)%float = true -> sf_ge0 (Prim2SF x).
Proof.
  rewrite FloatAxioms.leb_spec, Prim2SF_zero.
  destruct (Prim2SF x) as [s | s | | s m e]; simpl; try discriminate; auto;
    destruct s; try discriminate; reflexivity.
Qed.

Lemma mul_positive_ge0 (a b : spec_float) :
  sf_ge0 a -> sf_positive b = true -> sf_ge0 (SF64mul a b).
Proof.
  destruct b as [sb | sb | | sb mb eb]; try discriminate.
  destruct sb; [discriminate |]. intros Ha _.
  destruct a as [sa | sa | | sa ma ea]; simpl in Ha; try contradiction.
  - exact I.
  - subst sa. reflexivity.
  - subst sa. unfold SF64mul, SFmul. cbn [xorb].
    pose proof (binary_round_aux_sign false (Z.pos (ma * mb)) (ea + eb) loc_Exact
                  ltac:(lia)) as H.
    destruct (binary_round_aux prec emax false (Z.pos (ma * mb)) (ea + eb) loc_Exact);
      simpl in *; auto.
Qed.

Lemma add_positive_sign (a b : spec_float) :
  sf_ge0 a -> sf_positive b = true -> sf_sign false (SF64add a b).
Proof.
  destruct b as [sb | sb | | sb mb eb]; try discriminate.
  destruct sb; [discriminate |]. intros Ha _.
  destruct a as [sa | sa | | sa ma ea]; simpl in Ha; try contradiction.
  - reflexivity.
  - subst sa. reflexivity.
  - subst sa. unfold SF64add, SFadd. cbn [cond_Zopp].
    apply binary_normalize_nonneg. lia.
Qed.

Lemma Prim2SF_half : sf_positive (Prim2SF 0.5) = true.
Proof. reflexivity. Qed.

Lemma scaled_sign (x : float) (d : Z) :
  0 <= d <= 22 ->
  (0 <=? x)%float = true ->
  sf_sign false (Prim2SF (x * Handlers.multiplier d + 0.5)).
Proof.
  intros Hd Hx.
  rewrite FloatAxioms.add_spec, FloatAxioms.mul_spec.
  apply add_positive_sign; [| exact Prim2SF_half].
  apply mul_positive_ge0; [apply leb_zero_ge0; exact Hx |].
  apply multiplier_is_pow10. exact Hd.
Qed.

Lemma Prim2SF_two63 : Prim2SF two63 = S754_finite false 4503599627370496 11.
Proof. reflexivity. Qed.

Lemma shiftl_below_two63 (m : positive) (e : Z) :
  Z.pos m < 2 ^ 53 ->
  (e < 11 \/ (e = 11 /\ Z.pos m < 2 ^ 52)) ->
  0 <= Z.shiftl (Z.pos m) e < 2 ^ 63.
Proof.
  intros Hm He.
  destruct (Z.le_gt_cases 0 e) as [Hpos | Hneg].
  - rewrite Z.shiftl_mul_pow2 by exact Hpos.
    assert (H2 : 0 < 2 ^ e) by (apply Z.pow_pos_nonneg; lia).
    split; [lia |].
    destruct He as [He | [He Hm']].
    + apply Z.lt_le_trans with (2 ^ 53 * 2 ^ e).
      * apply Z.mul_lt_mono_pos_r; assumption.
      * rewrite <- Z.pow_add_r by lia. apply Z.pow_le_mono_r; lia.
    + subst e. change (2 ^ 63) with (2 ^ 52 * 2 ^ 11).
      apply Z.mul_lt_mono_pos_r; [reflexivity | exact Hm'].
  - rewrite Z.shiftl_div_pow2 by lia.
    assert (H2 : 0 < 2 ^ (- e)) by (apply Z.pow_pos_nonneg; lia).
    split.
    + apply Z.div_pos; lia.
    + apply Z.le_lt_trans with (Z.pos m).
      * apply Z.div_le_upper_bound; [exact H2 |]. nia.
      * apply Z.lt_trans with (2 ^ 53); [exact Hm | reflexivity].
Qed.

Lemma to_int_is_floor (y : float) :
  sf_sign false (Prim2SF y) ->
  (y <? two63)%float = true ->
  Float64.of_int (Float64.to_int y) = Float64.floor y.
Proof.
  intros Hsign Hlt.
  rewrite FloatAxioms.ltb_spec, Prim2SF_two63 in Hlt.
  pose proof (Prim2SF_valid y) as Hv.
  unfold Float64.to_int, Float64.floor.
  destruct (Prim2SF y) as [s | s | | s m e] eqn:E; simpl in Hsign; try contradiction;
    subst s.
  - assert (Hy : y = 0%float) by (apply Prim2SF_inj; rewrite E; reflexivity).
    rewrite Hy. reflexivity.
  - discriminate Hlt.
  - cbn [Float64.trunc_SF].
    assert (Hrange : 0 <= Z.shiftl (Z.pos m) e < 2 ^ 63).
    { apply bounded_mantissa in Hv. destruct Hv as [Hm _].
      apply shiftl_below_two63; [exact Hm |].
      unfold SFltb, SFcompare in Hlt.
      remember 4503599627370496%positive as c eqn:Hc.
      assert (Hcz : Z.pos c = 2 ^ 52) by (rewrite Hc; reflexivity).
      clear Hc.
      destruct (Z.compare_spec e 11) as [He | He | He].
      - right. split; [exact He |].
        rewrite Pos.compare_cont_spec in Hlt. cbn [Pos.switch_Eq] in Hlt.
        destruct (Pos.compare_spec m c) as [Hm' | Hm' | Hm']; try discriminate Hlt.
        rewrite <- Hcz. exact Hm'.
      - left. exact He.
      - discriminate Hlt. }
    set (v := Z.shiftl (Z.pos m) e) in *.
    assert (Hin : (Float64.int64_min <=? v) && (v <=? Float64.int64_max) = true).
    { apply andb_true_iff. unfold Float64.int64_min, Float64.int64_max.
      split; apply Z.leb_le; lia. }
    rewrite Hin.
    destruct (Z.eqb_spec v 0) as [-> | _]; reflexivity.
Qed.

(** C7, as the code has it. For every x at or above zero whose scaled
    value x * 10^d + 0.5 is below 2^63 (d from 0 to 22, where the
    multiplier is exactly 10^d), [roundToDecimal x d] is
    floor(x * 10^d + 0.5) / 10^d in float arithmetic: halves go up. The
    summary rounds the fuel totals with d = 1 and the hour totals with
    d = 2. *)
Theorem roundToDecimal_half_up :
  (forall (x : float) (d : Z),
      0 <= d <= 22 ->
      (0 <=? x)%float = true ->
      (x * pow10 d + 0.5 <? two63)%float = true ->
      Handlers.roundToDecimal x d = (Float64.floor (x * pow10 d + 0.5) / pow10 d)%float)
  /\ (forall (results : list CumulativeSiteResult) (totalSites : Z),
         let summary := Handlers.calculateSummary results totalSites in
         SumFuelConsumed summary
         = Handlers.roundToDecimal (Spec.sum (map FuelConsumed (Spec.processed results))) 1
         /\ SumFuelTopped summary
            = Handlers.roundToDecimal (Spec.sum (map FuelTopped (Spec.processed results))) 1
         /\ SumGeneratorHours summary
            = Handlers.roundToDecimal
                (Spec.sum (map GeneratorHours (Spec.processed results))) 2
         /\ SumZesaHours summary
            = Handlers.roundToDecimal (Spec.sum (map ZesaHours (Spec.processed results))) 2
         /\ SumOfflineHours summary
            = Handlers.roundToDecimal
                (Spec.sum (map OfflineHours (Spec.processed results))) 2)
  /\ Handlers.roundToDecimal 0.25 1 = 0.3%float
  /\ Handlers.roundToDecimal 0.125 2 = 0.13%float.
Proof.
  split; [| split; [| repeat split; reflexivity]].
  - intros x d Hd Hx Hlt.
    destruct (multiplier_is_pow10 d Hd) as [Hmul _].
    unfold Handlers.roundToDecimal. rewrite <- Hmul in *.
    rewrite to_int_is_floor; [reflexivity | apply scaled_sign; assumption | exact Hlt].
  - intros results totalSites summary. subst summary.
    unfold Handlers.calculateSummary. rewrite fold_summaryStep.
    cbn. repeat split.
Qed.

(** One and a quarter rounds to 1.3. *)
Lemma roundToDecimal_half_up_witness :
  Handlers.roundToDecimal 1.25 1 = (Float64.floor (1.25 * pow10 1 + 0.5) / pow10 1)%float.
Proof.
  apply (proj1 roundToDecimal_half_up 1.25%float 1).
  - lia.
  - reflexivity.
  - reflexivity.
Defined.

(** C7 as stated fails on a large value: 1e19 is not below zero, its
    scaled value 1e20 does not fit a 64-bit integer, and the result is
    below zero, while floor(x * 10 + 0.5) / 10 is 1e19. *)
Lemma roundToDecimal_overflows :
  (0 <=? 1e19)%float = true
  /\ (Float64.floor (1e19 * pow10 1 + 0.5) / pow10 1)%float = 1e19%float
  /\ (Handlers.roundToDecimal 1e19 1 <? 0)%float = true
  /\ Handlers.roundToDecimal 1e19 1
     <> (Float64.floor (1e19 * pow10 1 + 0.5) / pow10 1)%float.
Proof.
  split; [reflexivity |]. split; [vm_compute; reflexivity |].
  split; [vm_compute; reflexivity |].
  intros H. apply (f_equal (fun v => (v <? 0)%float)) in H.
  vm_compute in H. discriminate H.
Qed.

(** ** The order of floats *)

Lemma SFltb_lex (a b : spec_float) :
  SFltb a b = true <->
  sf_is_nan a = false /\ sf_is_nan b = false /\ lex_lt (sf_key a) (sf_key b).
Proof.
  unfold SFltb, SFcompare, lex_lt.
  destruct a as [sa | sa | | sa ma ea]; destruct b as [sb | sb | | sb mb eb];
    try destruct sa; try destruct sb; cbn [sf_key sf_is_nan];
    try (split; [discriminate | intros [_ [_ H]]; lia]);
    try (split; [intros _; repeat split; lia | reflexivity]);
    try (split; [discriminate | intros [H _]; discriminate H]);
    try (split; [discriminate | intros [_ [H _]]; discriminate H]).
  - destruct (Z.compare_spec ea eb) as [E | E | E]; cbn.
    + subst eb. rewrite Pos.compare_cont_spec. cbn [Pos.switch_Eq].
      destruct (Pos.compare_spec ma mb) as [M | M | M]; cbn;
        (split; [try discriminate; intros _; repeat split; lia
                | try reflexivity; intros [_ [_ H]]; lia]).
    + split; [discriminate | intros [_ [_ H]]; lia].
    + split; [intros _; repeat split; lia | reflexivity].
  - destruct (Z.compare_spec ea eb) as [E | E | E]; cbn.
    + subst eb. rewrite Pos.compare_cont_spec. cbn [Pos.switch_Eq].
      destruct (Pos.compare_spec ma mb) as [M | M | M]; cbn;
        (split; [try discriminate; intros _; repeat split; lia
                | try reflexivity; intros [_ [_ H]]; lia]).
    + split; [intros _; repeat split; lia | reflexivity].
    + split; [discriminate | intros [_ [_ H]]; lia].
Qed.

Lemma float_ltb_trans (x y z : float) :
  (x <? y)%float = true -> (y <? z)%float = true -> (x <? z)%float = true.
Proof.
  rewrite !FloatAxioms.ltb_spec, !SFltb_lex. unfold lex_lt.
  destruct (sf_key (Prim2SF x)) as [[x1 x2] x3].
  destruct (sf_key (Prim2SF y)) as [[y1 y2] y3].
  destruct (sf_key (Prim2SF z)) as [[z1 z2] z3].
  intros [Hx [_ Hxy]] [_ [Hz Hyz]]. repeat split; try assumption. lia.
Qed.

Lemma float_ltb_irrefl (x : float) : (x <? x)%float = false.
Proof.
  destruct (x <? x)%float eqn:H; [| reflexivity].
  rewrite FloatAxioms.ltb_spec, SFltb_lex in H. unfold lex_lt in H.
  destruct (sf_key (Prim2SF x)) as [[x1 x2] x3]. destruct H as [_ [_ H]]. lia.
Qed.

Lemma float_ltb_asym (x y : float) :
  (x <? y)%float = true -> (y <? x)%float = false.
Proof.
  intros Hxy. destruct (y <? x)%float eqn:Hyx; [| reflexivity].
  pose proof (float_ltb_trans x y x Hxy Hyx) as H.
  rewrite float_ltb_irrefl in H. discriminate H.
Qed.

(** ** Slices *)

Lemma set_middle {A : Type} (pre rest : list A) (x z : A) :
  Slice.set (pre ++ x :: rest) (List.length pre) z = (pre ++ z :: rest)%list.
Proof.
  induction pre as [| p pre IH]; simpl; [reflexivity | rewrite IH; reflexivity].
Qed.

Lemma get_middle {A : Type} (d : A) (pre rest : list A) (x : A) :
  Slice.get d (pre ++ x :: rest) (List.length pre) = x.
Proof. unfold Slice.get. apply nth_middle. Qed.

Lemma swap_apart {A : Type} (d : A) (pre mid post : list A) (x y : A) :
  Slice.swap d (pre ++ x :: mid ++ y :: post) (List.length pre)
             (S (List.length pre + List.length mid))
  = (pre ++ y :: mid ++ x :: post)%list.
Proof.
  assert (Hj : forall u : A,
             (pre ++ u :: mid ++ y :: post)%list = ((pre ++ u :: mid) ++ y :: post)%list).
  { intros u. rewrite <- app_assoc. reflexivity. }
  assert (Hlen : forall u : A,
             S (List.length pre + List.length mid) = List.length (pre ++ u :: mid)%list).
  { intros u. rewrite length_app. simpl. lia. }
  assert (Hi : Slice.get d (pre ++ x :: mid ++ y :: post) (List.length pre) = x)
    by apply get_middle.
  assert (Hjy : Slice.get d (pre ++ x :: mid ++ y :: post)
                          (S (List.length pre + List.length mid)) = y).
  { rewrite (Hj x), (Hlen x). apply get_middle. }
  unfold Slice.swap. cbv zeta. rewrite Hi, Hjy, set_middle.
  rewrite (Hj y), (Hlen y), set_middle, <- app_assoc. reflexivity.
Qed.

(** ** The exchange sort as a sequence of passes *)

Section ExchangeSortProofs.

Variable A : Type.
Variable zero : A.
Variable key : A -> float.

Lemma innerLoop_pass (todo : list A) :
  forall (pre done : list A) (x : A),
    Ranking.innerLoop A zero key (pre ++ x :: done ++ todo) (List.length pre)
                      (S (List.length pre + List.length done)) (List.length todo)
    = (pre ++ fst (pass key x todo) :: done ++ snd (pass key x todo))%list.
Proof.
  induction todo as [| y todo IH]; intros pre done x.
  - reflexivity.
  - cbn [List.length Ranking.innerLoop pass].
    unfold Ranking.compareSwap.
    rewrite get_middle.
    assert (Hy : Slice.get zero (pre ++ x :: done ++ y :: todo)
                           (S (List.length pre + List.length done)) = y).
    { replace (pre ++ x :: done ++ y :: todo)%list
        with ((pre ++ x :: done) ++ y :: todo)%list
        by (rewrite <- app_assoc; reflexivity).
      replace (S (List.length pre + List.length done))
        with (List.length (pre ++ x :: done)%list)
        by (rewrite length_app; simpl; lia).
      apply get_middle. }
    rewrite Hy.
    assert (Hnext : forall u : A,
               S (S (List.length pre + List.length done))
               = S (List.length pre + List.length (done ++ [u])%list)).
    { intros u. rewrite length_app. simpl. lia. }
    destruct (key x <? key y)%float.
    + rewrite swap_apart.
      replace (pre ++ y :: done ++ x :: todo)%list
        with (pre ++ y :: (done ++ [x]) ++ todo)%list
        by (rewrite <- app_assoc; reflexivity).
      rewrite (Hnext x), IH.
      destruct (pass key y todo) as [top others]. cbn [fst snd].
      rewrite <- app_assoc. reflexivity.
    + replace (pre ++ x :: done ++ y :: todo)%list
        with (pre ++ x :: (done ++ [y]) ++ todo)%list
        by (rewrite <- app_assoc; reflexivity).
      rewrite (Hnext y), IH.
      destruct (pass key x todo) as [top others]. cbn [fst snd].
      rewrite <- app_assoc. reflexivity.
Qed.

Lemma pass_length (rest : list A) :
  forall x : A, List.length (snd (pass key x rest)) = List.length rest.
Proof.
  induction rest as [| y rest IH]; intros x; [reflexivity |].
  cbn [pass]. destruct (key x <? key y)%float.
  - specialize (IH y). destruct (pass key y rest). simpl in *. rewrite IH. reflexivity.
  - specialize (IH x). destruct (pass key x rest). simpl in *. rewrite IH. reflexivity.
Qed.

Lemma outerLoop_passes (n : nat) :
  forall pre l : list A,
    (n < List.length l)%nat ->
    Ranking.outerLoop A zero key (pre ++ l) (List.length pre) n
    = (pre ++ passes key n l)%list.
Proof.
  induction n as [| n IH]; intros pre l Hn.
  - destruct l; reflexivity.
  - destruct l as [| x rest]; [simpl in Hn; lia |].
    cbn [Ranking.outerLoop passes].
    replace (List.length (pre ++ x :: rest) - S (List.length pre))%nat
      with (List.length rest) by (rewrite length_app; simpl; lia).
    pose proof (innerLoop_pass rest pre [] x) as Hinner.
    cbn [app List.length] in Hinner. rewrite Nat.add_0_r in Hinner.
    rewrite Hinner.
    pose proof (pass_length rest x) as Hlen.
    destruct (pass key x rest) as [top others]. cbn [fst snd] in *.
    replace (pre ++ top :: others)%list with ((pre ++ [top]) ++ others)%list
      by (rewrite <- app_assoc; reflexivity).
    replace (S (List.length pre)) with (List.length (pre ++ [top])%list)
      by (rewrite length_app; simpl; lia).
    rewrite IH by (simpl in Hn; lia).
    rewrite <- app_assoc. reflexivity.
Qed.

Lemma exchangeSort_passes (l : list A) :
  Ranking.exchangeSort A zero key l = passes key (List.length l - 1) l.
Proof.
  unfold Ranking.exchangeSort.
  destruct l as [| x rest]; [reflexivity |].
  apply (outerLoop_passes (List.length (x :: rest) - 1) [] (x :: rest)).
  simpl. lia.
Qed.

Lemma pass_permutation (rest : list A) :
  forall x : A,
    Permutation (x :: rest) (fst (pass key x rest) :: snd (pass key x rest)).
Proof.
  induction rest as [| y rest IH]; intros x; [apply Permutation_refl |].
  cbn [pass]. destruct (key x <? key y)%float.
  - specialize (IH y). destruct (pass key y rest) as [top others]. cbn [fst snd] in *.
    apply Permutation_trans with (x :: top :: others).
    + apply perm_skip. exact IH.
    + apply perm_swap.
  - specialize (IH x). destruct (pass key x rest) as [top others]. cbn [fst snd] in *.
    apply Permutation_trans with (y :: x :: rest); [apply perm_swap |].
    apply Permutation_trans with (y :: top :: others).
    + apply perm_skip. exact IH.
    + apply perm_swap.
Qed.

(** The element that a pass leaves in front is the first one or one
    above it, and nothing that the pass leaves behind is above it. *)
Lemma pass_top (rest : list A) :
  forall x : A,
    let top := fst (pass key x rest) in
    (key top = key x \/ (key x <? key top)%float = true)
    /\ Forall (fun z => (key top <? key z)%float = false) (snd (pass key x rest)).
Proof.
  induction rest as [| y rest IH]; intros x; cbv zeta.
  - split; [left; reflexivity | constructor].
  - cbn [pass]. destruct (key x <? key y)%float eqn:Hxy.
    + specialize (IH y). cbv zeta in IH.
      destruct (pass key y rest) as [top others]. cbn [fst snd] in *.
      destruct IH as [Htop Hothers].
      assert (Hx : (key x <? key top)%float = true).
      { destruct Htop as [E | L]; [rewrite E; exact Hxy |].
        exact (float_ltb_trans _ _ _ Hxy L). }
      split; [right; exact Hx |].
      constructor; [apply float_ltb_asym; exact Hx | exact Hothers].
    + specialize (IH x). cbv zeta in IH.
      destruct (pass key x rest) as [top others]. cbn [fst snd] in *.
      destruct IH as [Htop Hothers].
      split; [exact Htop |].
      constructor; [| exact Hothers].
      destruct Htop as [E | L]; [rewrite E; exact Hxy |].
      destruct (key top <? key y)%float eqn:Hty; [| reflexivity].
      rewrite (float_ltb_trans _ _ _ L Hty) in Hxy. discriminate Hxy.
Qed.

Lemma passes_permutation (n : nat) :
  forall l : list A, Permutation l (passes key n l).
Proof.
  induction n as [| n IH]; intros l; [destruct l; apply Permutation_refl |].
  destruct l as [| x rest]; [apply Permutation_refl |].
  cbn [passes].
  pose proof (pass_permutation rest x) as Hp.
  destruct (pass key x rest) as [top others]. cbn [fst snd] in Hp.
  apply Permutation_trans with (top :: others); [exact Hp |].
  apply perm_skip. apply IH.
Qed.

Lemma passes_sorted (n : nat) :
  forall l : list A,
    (List.length l <= S n)%nat ->
    StronglySorted (fun a b => (key a <? key b)%float = false) (passes key n l).
Proof.
  induction n as [| n IH]; intros l Hlen.
  - destruct l as [| x [| y rest]]; simpl in *; try lia;
      repeat constructor.
  - destruct l as [| x rest]; [constructor |].
    cbn [passes].
    pose proof (pass_top rest x) as Htop. cbv zeta in Htop.
    pose proof (pass_length rest x) as Hl.
    destruct (pass key x rest) as [top others]. cbn [fst snd] in *.
    constructor.
    + apply IH. simpl in Hlen. lia.
    + destruct Htop as [_ Hothers].
      apply (Permutation_Forall (passes_permutation n others)). exact Hothers.
Qed.

End ExchangeSortProofs.

Lemma exchangeSort_ranks (A : Type) (zero : A) (key : A -> float) (l : list A) :
  Permutation l (Ranking.exchangeSort A zero key l)
  /\ StronglySorted (fun earlier later => (key earlier <? key later)%float = false)
       (Ranking.exchangeSort A zero key l).
Proof.
  rewrite exchangeSort_passes. split.
  - apply passes_permutation.
  - apply passes_sorted. lia.
Qed.

(** X1. [sortResultsByFuelConsumed] rearranges the results and loses or
    invents none, and in its output no entry has less fuel consumed than an
    entry after it, whatever the values are (NaN included: the comparison
    with NaN is false, and the statement is about that comparison). *)
Theorem sortResultsByFuelConsumed_ranks (results : list CumulativeSiteResult) :
  Permutation results (Ranking.sortResultsByFuelConsumed results)
  /\ StronglySorted
       (fun earlier later => (FuelConsumed earlier <? FuelConsumed later)%float = false)
       (Ranking.sortResultsByFuelConsumed results).
Proof. apply exchangeSort_ranks. Qed.

(** X2. [sortRangeResultsByFuelConsumed] rearranges the range results and
    in its output no entry has a smaller total of fuel consumed than an
    entry after it. *)
Theorem sortRangeResultsByFuelConsumed_ranks (results : list CumulativeSiteRangeResult) :
  Permutation results (Ranking.sortRangeResultsByFuelConsumed results)
  /\ StronglySorted
       (fun earlier later =>
          (RangeFuelConsumed earlier <? RangeFuelConsumed later)%float = false)
       (Ranking.sortRangeResultsByFuelConsumed results).
Proof. apply exchangeSort_ranks. Qed.

(** ** Batches *)

Lemma batchLoop_concat {A : Type} (batchSize : nat) (sites : list A) :
  (1 <= batchSize)%nat ->
  forall n i : nat,
    (List.length sites - i <= n)%nat ->
    List.concat (Orchestrator.batchLoop batchSize sites i n) = skipn i sites.
Proof.
  intros Hsize. induction n as [| n IH]; intros i Hn.
  - simpl. symmetry. apply skipn_all2. lia.
  - cbn [Orchestrator.batchLoop].
    destruct (Nat.ltb_spec i (List.length sites)) as [Hi | Hi].
    + cbv zeta. cbn [List.concat]. rewrite IH by lia. unfold Orchestrator.slice.
      destruct (Nat.ltb_spec (List.length sites) (i + batchSize)) as [Hend | Hend].
      * rewrite (skipn_all2 sites (n := i + batchSize)) by lia.
        rewrite app_nil_r. apply firstn_all2. rewrite length_skipn. lia.
      * replace (i + batchSize - i)%nat with batchSize by lia.
        replace (i + batchSize)%nat with (batchSize + i)%nat by lia.
        rewrite <- skipn_skipn. apply firstn_skipn.
    + simpl. symmetry. apply skipn_all2. lia.
Qed.

Lemma batchLoop_sizes {A : Type} (batchSize : nat) (sites : list A) :
  (1 <= batchSize)%nat ->
  forall n i : nat,
    Forall (fun batch => (1 <= List.length batch <= batchSize)%nat)
           (Orchestrator.batchLoop batchSize sites i n).
Proof.
  intros Hsize. induction n as [| n IH]; intros i; [constructor |].
  cbn [Orchestrator.batchLoop].
  destruct (Nat.ltb_spec i (List.length sites)) as [Hi | Hi]; [| constructor].
  cbv zeta. constructor; [| apply IH].
  unfold Orchestrator.slice. rewrite length_firstn, length_skipn.
  destruct (Nat.ltb_spec (List.length sites) (i + batchSize)); lia.
Qed.

Lemma batches_concat {A : Type} (batchSize : nat) (sites : list A) :
  (1 <= batchSize)%nat -> List.concat (Orchestrator.batches batchSize sites) = sites.
Proof.
  intros Hsize. unfold Orchestrator.batches.
  rewrite (batchLoop_concat batchSize sites Hsize) by lia. reflexivity.
Qed.

(** X3. The batch loop of [processSitesInBatches] and of
    [getCumulativeReadingsForRange] cuts the sites into consecutive batches:
    put end to end the batches are the list of sites, so every site is in
    exactly one batch, and no batch is empty or longer than the batch
    size. *)
Theorem batches_partition {A : Type} (batchSize : nat) (sites : list A) :
  (1 <= batchSize)%nat ->
  List.concat (Orchestrator.batches batchSize sites) = sites
  /\ Forall (fun batch => (1 <= List.length batch <= batchSize)%nat)
            (Orchestrator.batches batchSize sites).
Proof.
  intros Hsize. split.
  - apply batches_concat. exact Hsize.
  - apply batchLoop_sizes. exact Hsize.
Qed.

Lemma batches_partition_witness :
  let sites := [1; 2; 3; 4; 5; 6; 7; 8; 9; 10; 11; 12] in
  List.concat (Orchestrator.batches 10 sites) = sites
  /\ Forall (fun batch => (1 <= List.length batch <= 10)%nat)
            (Orchestrator.batches 10 sites).
Proof. apply (batches_partition 10 [1; 2; 3; 4; 5; 6; 7; 8; 9; 10; 11; 12]). lia. Defined.

(** ** The results of a request *)

Lemma processBatch_fst (ParseFloat : string -> option float) (db : DB)
    (existingReadings : Z -> option CumulativeReading) (day : Z) (dateString : string)
    (sites : list Site) :
  fst (Handlers.processBatch ParseFloat db sites existingReadings day dateString)
  = map (fun site => fst (Handlers.processSingleSite ParseFloat db site
                            (existingReadings (ID site)) day dateString)) sites.
Proof.
  unfold Handlers.processBatch. rewrite processBatch_entries. reflexivity.
Qed.

Lemma processBatch_snd (ParseFloat : string -> option float) (db : DB)
    (existingReadings : Z -> option CumulativeReading) (day : Z) (dateString : string)
    (sites : list Site) :
  snd (Handlers.processBatch ParseFloat db sites existingReadings day dateString)
  = flat_map (fun site => snd (Handlers.processSingleSite ParseFloat db site
                                 (existingReadings (ID site)) day dateString)) sites.
Proof.
  unfold Handlers.processBatch. rewrite processBatch_entries. reflexivity.
Qed.

Lemma concat_map_map {A B : Type} (f : A -> B) (ls : list (list A)) :
  List.concat (map (map f) ls) = map f (List.concat ls).
Proof. symmetry. apply concat_map. Qed.

Lemma flat_map_concat {A B : Type} (f : A -> list B) (ls : list (list A)) :
  List.concat (map (flat_map f) ls) = flat_map f (List.concat ls).
Proof.
  induction ls as [| l ls IH]; [reflexivity |].
  cbn [map List.concat]. rewrite IH, flat_map_app. reflexivity.
Qed.

Lemma Permutation_concat {A : Type} (ls ls' : list (list A)) :
  Permutation ls ls' -> Permutation (List.concat ls) (List.concat ls').
Proof.
  induction 1 as [| l ls ls' _ IH | l1 l2 ls | ls1 ls2 ls3 _ IH1 _ IH2].
  - apply Permutation_refl.
  - cbn [List.concat]. apply Permutation_app_head. exact IH.
  - cbn [List.concat]. rewrite !app_assoc. apply Permutation_app_tail.
    apply Permutation_app_comm.
  - exact (Permutation_trans IH1 IH2).
Qed.

Section Pipeline.

Variable ParseFloat : string -> option float.
Variable completion :
  list (list CumulativeSiteResult * list Upsert) ->
  list (list CumulativeSiteResult * list Upsert).
Variable rangeCompletion :
  list (list CumulativeSiteRangeResult) -> list (list CumulativeSiteRangeResult).

Hypothesis completion_rearranges : forall outputs, Permutation outputs (completion outputs).
Hypothesis rangeCompletion_rearranges :
  forall outputs, Permutation outputs (rangeCompletion outputs).

Lemma processSitesInBatches_results (db : DB) (sites : list Site)
    (existingReadings : Z -> option CumulativeReading) (day : Z) (dateString : string) :
  let entry site :=
    Handlers.processSingleSite ParseFloat db site (existingReadings (ID site)) day
      dateString in
  let output :=
    Orchestrator.processSitesInBatches ParseFloat completion db sites existingReadings
      day dateString in
  Permutation (map (fun site => fst (entry site)) sites) (fst output)
  /\ Permutation (flat_map (fun site => snd (entry site)) sites) (snd output).
Proof.
  cbv zeta. unfold Orchestrator.processSitesInBatches. cbv zeta. cbn [fst snd].
  set (outputs := map _ (Orchestrator.batches 10 sites)).
  pose proof (completion_rearranges outputs) as Hperm.
  split.
  - eapply Permutation_trans;
      [| apply (proj1 (exchangeSort_ranks _ _ _ _))].
    eapply Permutation_trans;
      [| apply Permutation_concat, Permutation_map, Hperm].
    unfold outputs. rewrite map_map.
    rewrite (map_ext _ _ (fun batch => processBatch_fst ParseFloat db existingReadings
                                          day dateString batch)).
    rewrite <- (map_map (fun batch => batch)
                  (map (fun site => fst (Handlers.processSingleSite ParseFloat db site
                                           (existingReadings (ID site)) day dateString)))).
    rewrite map_id, concat_map_map, batches_concat by lia.
    apply Permutation_refl.
  - eapply Permutation_trans;
      [| apply Permutation_concat, Permutation_map, Hperm].
    unfold outputs. rewrite map_map.
    rewrite (map_ext _ _ (fun batch => processBatch_snd ParseFloat db existingReadings
                                          day dateString batch)).
    rewrite flat_map_concat, batches_concat by lia.
    apply Permutation_refl.
Qed.

End Pipeline.

(** ** Signs of the fuel totals and of the runtimes *)

Lemma sf_sign_ge0 (r : spec_float) : sf_sign false r -> sf_ge0 r.
Proof. destruct r; simpl; auto. Qed.

Lemma ge0_leb_zero (x : float) : sf_ge0 (Prim2SF x) -> (0 <=? x)%float = true.
Proof.
  rewrite FloatAxioms.leb_spec, Prim2SF_zero.
  destruct (Prim2SF x) as [s | s | | s m e]; simpl; intros H; try contradiction;
    try subst s; reflexivity.
Qed.

Lemma ltb_zero_ge0 (x : float) : (0 <? x)%float = true -> sf_ge0 (Prim2SF x).
Proof.
  rewrite FloatAxioms.ltb_spec, Prim2SF_zero.
  destruct (Prim2SF x) as [s | s | | s m e]; simpl; try discriminate;
    destruct s; try discriminate; reflexivity.
Qed.

Lemma ltb_zero_opp_ge0 (x : float) : (x <? 0)%float = true -> sf_ge0 (Prim2SF (- x)).
Proof.
  rewrite FloatAxioms.ltb_spec, Prim2SF_zero, FloatAxioms.opp_spec.
  destruct (Prim2SF x) as [s | s | | s m e]; simpl; try discriminate;
    destruct s; try discriminate; reflexivity.
Qed.

Lemma add_ge0 (a b : spec_float) : sf_ge0 a -> sf_ge0 b -> sf_ge0 (SF64add a b).
Proof.
  destruct a as [sa | sa | | sa ma ea]; destruct b as [sb | sb | | sb mb eb];
    simpl; intros Ha Hb; try contradiction; try subst sa; try subst sb;
    try exact I; try reflexivity.
  - destruct sa, sb; exact I.
  - apply sf_sign_ge0. unfold SF64add, SFadd. cbn [cond_Zopp].
    apply binary_normalize_nonneg. lia.
Qed.

Lemma div_positive_ge0 (a b : spec_float) :
  sf_ge0 a -> sf_positive b = true -> sf_ge0 (SF64div a b).
Proof.
  destruct b as [sb | sb | | sb mb eb]; try discriminate.
  destruct sb; [discriminate |]. intros Ha _.
  destruct a as [sa | sa | | sa ma ea]; simpl in Ha; try contradiction.
  - exact I.
  - subst sa. reflexivity.
  - subst sa. unfold SF64div, SFdiv. cbn [xorb].
    unfold SFdiv_core_binary. cbv zeta.
    set (e' := Z.min _ _).
    match goal with
    | |- context [Z.div_eucl ?m _] => assert (Hm' : (0 <= m)%Z); [| set (m' := m) in *]
    end.
    { destruct (ea - eb - e')%Z as [| p | p]; [lia | | lia].
      rewrite Z.shiftl_mul_pow2 by lia.
      apply Z.mul_nonneg_nonneg; [lia | apply Z.pow_nonneg; lia]. }
    pose proof (Z.div_pos m' (Z.pos mb) Hm' ltac:(lia)) as Hq.
    unfold Z.div in Hq.
    destruct (Z.div_eucl m' (Z.pos mb)) as [q r]. cbn [fst] in Hq.
    apply sf_sign_ge0. apply binary_round_aux_sign. exact Hq.
Qed.

Lemma of_int_ge0 (n : Z) : 0 <= n < 2 ^ 63 -> sf_ge0 (Prim2SF (Float64.of_int n)).
Proof.
  intros Hn. rewrite of_int_nonneg by exact Hn. rewrite of_uint63_spec.
  apply sf_sign_ge0, binary_normalize_nonneg.
  pose proof (Uint63.to_Z_bounded (Uint63.of_Z n)). lia.
Qed.

Lemma Hours_ge0 (d : GoTime.Duration) :
  0 <= d <= GoTime.maxDuration -> (0 <=? GoTime.Hours d)%float = true.
Proof.
  intros Hd. apply ge0_leb_zero. unfold GoTime.Hours. cbv zeta.
  assert (HH : GoTime.Hour = 3600000000000) by reflexivity.
  assert (Hmax : GoTime.maxDuration = 2 ^ 63 - 1) by reflexivity.
  rewrite FloatAxioms.add_spec, FloatAxioms.div_spec.
  apply add_ge0.
  - apply of_int_ge0. rewrite Z.quot_div_nonneg by lia.
    split; [apply Z.div_pos; lia |].
    apply Z.div_lt_upper_bound; lia.
  - apply div_positive_ge0; [| reflexivity].
    apply of_int_ge0. rewrite Z.rem_mod_nonneg by lia.
    pose proof (Z.mod_pos_bound d GoTime.Hour ltac:(lia)). lia.
Qed.

Lemma Sub_ge0 (t u : GoTime.Time) : u <= t -> 0 <= GoTime.Sub t u <= GoTime.maxDuration.
Proof.
  intros Hle. unfold GoTime.Sub. cbv zeta.
  assert (Hmin : GoTime.minDuration = - 2 ^ 63) by reflexivity.
  assert (Hmax : GoTime.maxDuration = 2 ^ 63 - 1) by reflexivity.
  destruct (Z.ltb_spec (t - u) GoTime.minDuration); [lia |].
  destruct (Z.ltb_spec GoTime.maxDuration (t - u)); lia.
Qed.

Lemma add_Hours_ge0 (total : float) (t u : GoTime.Time) :
  (0 <=? total)%float = true -> u <= t ->
  (0 <=? total + GoTime.Hours (GoTime.Sub t u))%float = true.
Proof.
  intros Htotal Hle. apply ge0_leb_zero. rewrite FloatAxioms.add_spec.
  apply add_ge0; apply leb_zero_ge0; [exact Htotal |].
  apply Hours_ge0, Sub_ge0. exact Hle.
Qed.

Lemma classify_ge0 (totals : float * float) (delta : float) :
  (0 <=? fst totals)%float = true /\ (0 <=? snd totals)%float = true ->
  (0 <=? fst (Spec.classify totals delta))%float = true
  /\ (0 <=? snd (Spec.classify totals delta))%float = true.
Proof.
  intros [Hc Ht]. unfold Spec.classify.
  destruct (0 <? delta)%float eqn:Hpos.
  - cbn [fst snd]. split; [exact Hc |].
    apply ge0_leb_zero. rewrite FloatAxioms.add_spec.
    apply add_ge0; [apply leb_zero_ge0; exact Ht | apply ltb_zero_ge0; exact Hpos].
  - destruct (delta <? 0)%float eqn:Hneg.
    + cbn [fst snd]. split; [| exact Ht].
      apply ge0_leb_zero. rewrite FloatAxioms.add_spec.
      apply add_ge0; [apply leb_zero_ge0; exact Hc | apply ltb_zero_opp_ge0; exact Hneg].
    + split; assumption.
Qed.

Lemma accumulate_ge0 (kept : list (float * float)) :
  (0 <=? fst (Spec.accumulate kept))%float = true
  /\ (0 <=? snd (Spec.accumulate kept))%float = true.
Proof.
  unfold Spec.accumulate.
  assert (H : forall (ds : list float) (totals : float * float),
             (0 <=? fst totals)%float = true /\ (0 <=? snd totals)%float = true ->
             (0 <=? fst (fold_left Spec.classify ds totals))%float = true
             /\ (0 <=? snd (fold_left Spec.classify ds totals))%float = true).
  { induction ds as [| d ds IH]; intros totals Ht; [exact Ht |].
    cbn [fold_left]. apply IH, classify_ge0, Ht. }
  apply H. split; reflexivity.
Qed.

(** X4. Whatever the readings of the day are (in any order, with values
    that are negative, infinite or NaN), the four totals that
    [CalculateFuelChanges] returns are at or above zero, and so none of them
    is NaN: consumption is never reported as a negative amount. *)
Theorem CalculateFuelChanges_totals_nonnegative (ParseFloat : string -> option float)
    (db : DB) (deviceID : string) (day : Z) (metrics : FuelMetrics) :
  Database.CalculateFuelChanges ParseFloat db deviceID day = Ok metrics ->
  (0 <=? TotalFuelConsumed metrics)%float = true
  /\ (0 <=? TotalFuelTopped metrics)%float = true
  /\ (0 <=? FuelConsumedPercent metrics)%float = true
  /\ (0 <=? FuelToppedPercent metrics)%float = true.
Proof.
  rewrite CalculateFuelChanges_gated.
  destruct (count_generator_on db deviceID _ _) as [count | e]; [| discriminate].
  destruct (query_fuel db deviceID _ _) as [rows | e]; [| discriminate].
  cbv zeta. intros H. injection H as <-. cbn [TotalFuelConsumed TotalFuelTopped
    FuelConsumedPercent FuelToppedPercent].
  pose proof (accumulate_ge0
                (Spec.gated (0 <? count) Spec.levelDiscarded
                   (Spec.deltas (Spec.sequenceOf ParseFloat "fuel_sensor_level" rows))))
    as [Hl1 Hl2].
  pose proof (accumulate_ge0
                (Spec.gated (0 <? count) Spec.volumeDiscarded
                   (Spec.deltas (Spec.sequenceOf ParseFloat "fuel_sensor_volume" rows))))
    as [Hv1 Hv2].
  split; [exact Hv1 |]. split; [exact Hv2 |]. split; [exact Hl1 | exact Hl2].
Qed.

Lemma CalculateFuelChanges_totals_nonnegative_witness :
  let metrics := mkFuelMetrics 0 3 2 5 in
  (0 <=? TotalFuelConsumed metrics)%float = true
  /\ (0 <=? TotalFuelTopped metrics)%float = true
  /\ (0 <=? FuelConsumedPercent metrics)%float = true
  /\ (0 <=? FuelToppedPercent metrics)%float = true.
Proof.
  apply (CalculateFuelChanges_totals_nonnegative Examples.parseKnown Examples.idleDay
           "dev-a" 19723).
  reflexivity.
Defined.

Lemma runtime_fold_ge0 (rows : list (Scan StateRow)) :
  forall st : Database.RuntimeState,
    (0 <=? Database.runtime st)%float = true ->
    (if Database.hasData st
     then Sorted Z.le (Database.lastTime st :: map sr_time (Spec.samples rows))
     else Sorted Z.le (map sr_time (Spec.samples rows))) ->
    let st' := fold_left Database.runtimeStep rows st in
    (0 <=? Database.runtime st')%float = true
    /\ (Database.hasData st = true -> Database.hasData st' = true).
Proof.
  induction rows as [| row rows IH]; intros st Hrun Hsorted; cbv zeta.
  - split; [exact Hrun | auto].
  - destruct row as [r |]; cbn [fold_left]; [| apply IH; assumption].
    change (Spec.samples (Scanned r :: rows)) with (r :: Spec.samples rows) in Hsorted.
    cbn [map] in Hsorted.
    assert (Hnext : Sorted Z.le (sr_time r :: map sr_time (Spec.samples rows))
                    /\ (Database.hasData st = true -> Database.lastTime st <= sr_time r)).
    { destruct (Database.hasData st).
      - inversion Hsorted as [| a l Htail Hhead]; subst.
        split; [exact Htail |]. intros _. inversion Hhead; subst. assumption.
      - split; [exact Hsorted | discriminate]. }
    destruct Hnext as [Htail Hhead].
    edestruct (IH (Database.runtimeStep st (Scanned r))) as [H1 H2].
    + cbn [Database.runtimeStep Database.runtime].
      destruct (Database.hasData st) eqn:Hdata; [| exact Hrun].
      destruct (Database.lastState st); [| exact Hrun].
      cbn [andb]. apply add_Hours_ge0; [exact Hrun | apply Hhead; reflexivity].
    + cbn [Database.runtimeStep Database.hasData Database.lastTime]. exact Htail.
    + split; [exact H1 |]. intros _. apply H2. reflexivity.
Qed.

(** X5. When the store answers with the samples in ascending order of
    time, as the query asks with ORDER BY, [calculateStateRuntime] returns a
    runtime at or above zero (so not NaN), whatever the states, the gaps and
    the rows that do not scan are. *)
Theorem calculateStateRuntime_nonnegative (db : DB) (deviceID sensorName : string)
    (startOfDay endOfDay : GoTime.Time) (rows : list (Scan StateRow)) :
  query_state db deviceID sensorName startOfDay endOfDay = Ok rows ->
  Sorted Z.le (map sr_time (Spec.samples rows)) ->
  exists hours : float,
    Database.calculateStateRuntime db deviceID sensorName startOfDay endOfDay = Ok hours
    /\ (0 <=? hours)%float = true.
Proof.
  intros Hq Hsorted. unfold Database.calculateStateRuntime. rewrite Hq. cbv zeta.
  destruct (runtime_fold_ge0 rows Database.initialRuntimeState eq_refl Hsorted)
    as [Hrun _]. cbv zeta in Hrun.
  set (st := fold_left Database.runtimeStep rows Database.initialRuntimeState) in *.
  destruct (Database.hasData st && Database.lastState st
            && GoTime.Before (Database.lastTime st) endOfDay) eqn:Htail.
  - eexists. split; [reflexivity |].
    apply andb_prop in Htail. destruct Htail as [_ Hbefore].
    unfold GoTime.Before in Hbefore. apply Z.ltb_lt in Hbefore.
    apply add_Hours_ge0; [exact Hrun | lia].
  - eexists. split; [reflexivity | exact Hrun].
Qed.

Lemma runtime_fold_off (rows : list (Scan StateRow)) :
  forall st : Database.RuntimeState,
    Database.lastState st = false ->
    Forall (fun s => Database.isOn (sr_value s) = false) (Spec.samples rows) ->
    let st' := fold_left Database.runtimeStep rows st in
    Database.runtime st' = Database.runtime st /\ Database.lastState st' = false.
Proof.
  induction rows as [| row rows IH]; intros st Hoff Hall; cbv zeta.
  - split; [reflexivity | exact Hoff].
  - destruct row as [r |]; cbn [fold_left]; [| apply IH; assumption].
    change (Spec.samples (Scanned r :: rows)) with (r :: Spec.samples rows) in Hall.
    inversion Hall as [| a l Hr Hrest]; subst.
    destruct (IH (Database.runtimeStep st (Scanned r))) as [H1 H2].
    + cbn [Database.runtimeStep Database.lastState]. exact Hr.
    + exact Hrest.
    + split; [| exact H2]. rewrite H1.
      cbn [Database.runtimeStep Database.runtime]. rewrite Hoff, andb_false_r.
      reflexivity.
Qed.

(** X6. A sensor with no ON sample in the window has a runtime of exactly
    zero: [calculateStateRuntime] adds no interval and no tail, whatever the
    timestamps and however many samples there are, none included. *)
Theorem calculateStateRuntime_never_on (db : DB) (deviceID sensorName : string)
    (startOfDay endOfDay : GoTime.Time) (rows : list (Scan StateRow)) :
  query_state db deviceID sensorName startOfDay endOfDay = Ok rows ->
  Forall (fun s => Database.isOn (sr_value s) = false) (Spec.samples rows) ->
  Database.calculateStateRuntime db deviceID sensorName startOfDay endOfDay = Ok 0%float.
Proof.
  intros Hq Hall. unfold Database.calculateStateRuntime. rewrite Hq. cbv zeta.
  destruct (runtime_fold_off rows Database.initialRuntimeState eq_refl Hall) as [H1 H2].
  cbv zeta in H1, H2. rewrite H1, H2, andb_false_r. reflexivity.
Qed.

Lemma calculateStateRuntime_nonnegative_witness :
  exists hours : float,
    Database.calculateStateRuntime Cases.morningRun "dev-a" "generator_state"
      (Database.startOfDay Cases.newYear) (Database.endOfDay Cases.newYear) = Ok hours
    /\ (0 <=? hours)%float = true.
Proof.
  apply (calculateStateRuntime_nonnegative Cases.morningRun "dev-a" "generator_state"
           (Database.startOfDay Cases.newYear) (Database.endOfDay Cases.newYear)
           [Scanned (mkStateRow "1" (Cases.hourOfNewYear 6));
            ScanError;
            Scanned (mkStateRow "0" (Cases.hourOfNewYear 9))]).
  - reflexivity.
  - repeat constructor. vm_compute. discriminate.
Defined.

Lemma calculateStateRuntime_never_on_witness :
  Database.calculateStateRuntime Cases.morningRun "dev-a" "zesa_state"
    (Database.startOfDay Cases.newYear) (Database.endOfDay Cases.newYear) = Ok 0%float.
Proof.
  apply (calculateStateRuntime_never_on Cases.morningRun "dev-a" "zesa_state"
           (Database.startOfDay Cases.newYear) (Database.endOfDay Cases.newYear)
           [Scanned (mkStateRow "0" (Cases.hourOfNewYear 6))]).
  - reflexivity.
  - repeat constructor.
Defined.

Lemma gated_active (discarded : float * float -> bool) (ds : list (float * float)) :
  Spec.gated true discarded ds = ds.
Proof.
  unfold Spec.gated. induction ds as [| d ds IH]; [reflexivity |].
  simpl in *. f_equal. exact IH.
Qed.

(** X7. On a day with at least one ON sample of the generator,
    [CalculateFuelChanges] discards nothing: every delta between consecutive
    readings of a sensor, however small, is added to topped when it is
    positive and to consumed when it is negative. The noise gates apply only
    to days without generator activity. *)
Theorem CalculateFuelChanges_generator_active (ParseFloat : string -> option float)
    (db : DB) (deviceID : string) (day count : Z) (rows : list (Scan FuelRow)) :
  count_generator_on db deviceID (Database.startOfDay day) (Database.endOfDay day)
  = Ok count ->
  0 < count ->
  query_fuel db deviceID (Database.startOfDay day) (Database.endOfDay day) = Ok rows ->
  let totals values :=
    fold_left Spec.classify (map snd (Spec.deltas values)) (0%float, 0%float) in
  let percent := totals (Spec.sequenceOf ParseFloat "fuel_sensor_level" rows) in
  let volume := totals (Spec.sequenceOf ParseFloat "fuel_sensor_volume" rows) in
  Database.CalculateFuelChanges ParseFloat db deviceID day
  = Ok (mkFuelMetrics (fst volume) (snd volume) (fst percent) (snd percent)).
Proof.
  intros Hcount Hpos Hrows. cbv zeta.
  rewrite CalculateFuelChanges_gated, Hcount, Hrows. cbv zeta.
  apply Z.ltb_lt in Hpos. rewrite Hpos, !gated_active. reflexivity.
Qed.

Lemma CalculateFuelChanges_generator_active_witness :
  Database.CalculateFuelChanges Examples.parseKnown Cases.morningRun "dev-a" Cases.newYear
  = Ok (mkFuelMetrics 0 1 0 1).
Proof.
  apply (CalculateFuelChanges_generator_active Examples.parseKnown Cases.morningRun
           "dev-a" Cases.newYear 1
           [Scanned (mkFuelRow "100" (Cases.hourOfNewYear 6) "fuel_sensor_level");
            Scanned (mkFuelRow "100" (Cases.hourOfNewYear 6) "fuel_sensor_volume");
            Scanned (mkFuelRow "101" (Cases.hourOfNewYear 9) "fuel_sensor_level");
            Scanned (mkFuelRow "101" (Cases.hourOfNewYear 9) "fuel_sensor_volume")]).
  - reflexivity.
  - lia.
  - reflexivity.
Defined.

Lemma deltas_short (values : list float) :
  (List.length values <= 1)%nat -> Spec.deltas values = [].
Proof.
  destruct values as [| a [| b rest]]; simpl; intros H; try reflexivity; lia.
Qed.

(** X8. A sensor needs two usable readings to count: when at most one
    row of the day scans, parses and belongs to the level sensor, both
    percentages that [CalculateFuelChanges] returns are zero, and likewise
    the two volumes for the volume sensor; rows that do not scan, do not
    parse or name another sensor do not count as readings. *)
Theorem CalculateFuelChanges_needs_two_readings (ParseFloat : string -> option float)
    (db : DB) (deviceID : string) (day : Z) (rows : list (Scan FuelRow))
    (metrics : FuelMetrics) :
  query_fuel db deviceID (Database.startOfDay day) (Database.endOfDay day) = Ok rows ->
  Database.CalculateFuelChanges ParseFloat db deviceID day = Ok metrics ->
  ((List.length (Spec.sequenceOf ParseFloat "fuel_sensor_level" rows) <= 1)%nat ->
   FuelConsumedPercent metrics = 0%float /\ FuelToppedPercent metrics = 0%float)
  /\ ((List.length (Spec.sequenceOf ParseFloat "fuel_sensor_volume" rows) <= 1)%nat ->
      TotalFuelConsumed metrics = 0%float /\ TotalFuelTopped metrics = 0%float).
Proof.
  intros Hrows. rewrite CalculateFuelChanges_gated, Hrows.
  destruct (count_generator_on db deviceID _ _) as [count | e]; [| discriminate].
  cbv zeta. intros H. injection H as <-.
  cbn [TotalFuelConsumed TotalFuelTopped FuelConsumedPercent FuelToppedPercent].
  split; intros Hshort; rewrite (deltas_short _ Hshort); split; reflexivity.
Qed.

Lemma CalculateFuelChanges_needs_two_readings_witness :
  let metrics := mkFuelMetrics 0 0 0 0 in
  ((List.length (Spec.sequenceOf Examples.parseKnown "fuel_sensor_level" Cases.loneRows)
    <= 1)%nat ->
   FuelConsumedPercent metrics = 0%float /\ FuelToppedPercent metrics = 0%float)
  /\ ((List.length (Spec.sequenceOf Examples.parseKnown "fuel_sensor_volume" Cases.loneRows)
       <= 1)%nat ->
      TotalFuelConsumed metrics = 0%float /\ TotalFuelTopped metrics = 0%float).
Proof.
  apply (CalculateFuelChanges_needs_two_readings Examples.parseKnown Cases.loneReading
           "dev-a" Cases.newYear).
  - reflexivity.
  - reflexivity.
Defined.



(** ** The queries on sites and existing readings *)





Lemma existingBySiteID_snoc (readings : list CumulativeReading) (reading : CumulativeReading)
    (siteID : Z) :
  Orchestrator.existingBySiteID (readings ++ [reading]) siteID
  = if siteID =? cr_SiteID reading then Some reading
    else Orchestrator.existingBySiteID readings siteID.
Proof.
  unfold Orchestrator.existingBySiteID. rewrite fold_left_app. reflexivity.
Qed.

(** X12. The map of existing readings that [GetCumulativeReadings] builds
    finds a reading for a site exactly when the list holds one with the
    identifier of the site; the reading found is in the list and has that
    identifier, and of several readings of one site the last one is kept. *)
Theorem existingBySiteID_lookup (readings : list CumulativeReading) (siteID : Z) :
  (Orchestrator.existingBySiteID readings siteID = None
   <-> ~ In siteID (map cr_SiteID readings))
  /\ (forall reading,
         Orchestrator.existingBySiteID readings siteID = Some reading ->
         In reading readings /\ cr_SiteID reading = siteID)
  /\ (forall reading,
         Orchestrator.existingBySiteID (readings ++ [reading]) (cr_SiteID reading)
         = Some reading).
Proof.
  split; [| split].
  - induction readings as [| reading readings IH] using rev_ind.
    + simpl. split; [intros _ [] | reflexivity].
    + rewrite existingBySiteID_snoc, map_app, in_app_iff. cbn [map In].
      destruct (Z.eqb_spec siteID (cr_SiteID reading)) as [E | E].
      * split; [discriminate |]. intros H. exfalso. apply H. right. left. auto.
      * rewrite IH. split.
        -- intros H [H' | [H' | []]]; [exact (H H') | exact (E (eq_sym H'))].
        -- intros H H'. apply H. left. exact H'.
  - induction readings as [| reading' readings IH] using rev_ind; intros reading.
    + discriminate.
    + rewrite existingBySiteID_snoc, in_app_iff.
      destruct (Z.eqb_spec siteID (cr_SiteID reading')) as [E | E].
      * intros H. injection H as <-. split; [right; left; reflexivity | auto].
      * intros H. destruct (IH reading H) as [Hin Hid]. split; [left; exact Hin | exact Hid].
  - intros reading. rewrite existingBySiteID_snoc, Z.eqb_refl. reflexivity.
Qed.

(** ** Counts of the summary *)

Lemma calculateSummary_counts_aux (results : list CumulativeSiteResult) (totalSites : Z) :
  let summary := Handlers.calculateSummary results totalSites in
  ProcessedSites summary + ErrorSites summary = Z.of_nat (List.length results)
  /\ TotalSites summary = totalSites.
Proof.
  cbv zeta. unfold Handlers.calculateSummary. cbv zeta.
  rewrite fold_summaryStep.
  cbn [ProcessedSites ErrorSites TotalSites Handlers.processedSites Handlers.errorSites
       Handlers.initialSummaryState].
  assert (H : forall l : list CumulativeSiteResult,
             (List.length (Spec.processed l) + List.length (filter Spec.isError l)
              = List.length l)%nat).
  { induction l as [| r l IH]; [reflexivity |].
    unfold Spec.processed in *. cbn [filter].
    destruct (Spec.isError r); cbn [negb List.length]; lia. }
  specialize (H results). split; [lia | reflexivity].
Qed.

(** X13. [calculateSummary] counts every result once: the processed
    sites and the error sites add up to the number of results, and the
    total of sites is the number it was given. *)
Theorem calculateSummary_counts (results : list CumulativeSiteResult) (totalSites : Z) :
  let summary := Handlers.calculateSummary results totalSites in
  ProcessedSites summary + ErrorSites summary = Z.of_nat (List.length results)
  /\ TotalSites summary = totalSites
  /\ 0 <= ProcessedSites summary
  /\ 0 <= ErrorSites summary.
Proof.
  cbv zeta. destruct (calculateSummary_counts_aux results totalSites) as [Hcount Htotal].
  cbv zeta in Hcount, Htotal. split; [exact Hcount |]. split; [exact Htotal |].
  unfold Handlers.calculateSummary. cbv zeta. rewrite fold_summaryStep.
  cbn [ProcessedSites ErrorSites Handlers.processedSites Handlers.errorSites
       Handlers.initialSummaryState]. lia.
Qed.

(** ** The batches of a request *)

(** X14. Whatever the order in which the goroutines of the batches
    finish, [processSitesInBatches] returns one entry per site, the entry
    that [processSingleSite] gives for the site with its existing reading,
    none lost and none twice, ranked so that no entry has less fuel consumed
    than an entry after it; and the upserts sent are those of the sites. *)
Theorem processSitesInBatches_entries (ParseFloat : string -> option float)
    (completion : list (list CumulativeSiteResult * list Upsert) ->
                  list (list CumulativeSiteResult * list Upsert))
    (db : DB) (sites : list Site) (existingReadings : Z -> option CumulativeReading)
    (day : Z) (dateString : string) :
  (forall outputs, Permutation outputs (completion outputs)) ->
  let entry site :=
    Handlers.processSingleSite ParseFloat db site (existingReadings (ID site)) day
      dateString in
  let output :=
    Orchestrator.processSitesInBatches ParseFloat completion db sites existingReadings
      day dateString in
  Permutation (map (fun site => fst (entry site)) sites) (fst output)
  /\ Permutation (flat_map (fun site => snd (entry site)) sites) (snd output)
  /\ StronglySorted
       (fun earlier later => (FuelConsumed earlier <? FuelConsumed later)%float = false)
       (fst output).
Proof.
  intros Hcompletion. cbv zeta.
  destruct (processSitesInBatches_results ParseFloat completion Hcompletion db sites
              existingReadings day dateString) as [Hresults Hsent].
  split; [exact Hresults |]. split; [exact Hsent |].
  unfold Orchestrator.processSitesInBatches. cbv zeta. cbn [fst].
  apply (proj2 (exchangeSort_ranks _ _ _ _)).
Qed.

Lemma processSitesInBatches_entries_witness :
  let sites := [Examples.siteA; Examples.siteB; Examples.siteC] in
  let entry site :=
    Handlers.processSingleSite Examples.parseKnown Cases.morningRun site None
      Cases.newYear "2024-01-01" in
  let output :=
    Orchestrator.processSitesInBatches Examples.parseKnown (@rev _) Cases.morningRun
      sites (fun _ => None) Cases.newYear "2024-01-01" in
  Permutation (map (fun site => fst (entry site)) sites) (fst output)
  /\ Permutation (flat_map (fun site => snd (entry site)) sites) (snd output)
  /\ StronglySorted
       (fun earlier later => (FuelConsumed earlier <? FuelConsumed later)%float = false)
       (fst output).
Proof.
  apply (processSitesInBatches_entries Examples.parseKnown (@rev _) Cases.morningRun
           [Examples.siteA; Examples.siteB; Examples.siteC] (fun _ => None)
           Cases.newYear "2024-01-01").
  intros outputs. apply Permutation_rev.
Defined.

Lemma getCumulativeReadingsForRange_results
    (rangeCompletion : list (list CumulativeSiteRangeResult) ->
                       list (list CumulativeSiteRangeResult))
    (db : DB) (sites : list Site) (startDate endDate : string) :
  (forall outputs, Permutation outputs (rangeCompletion outputs)) ->
  Permutation (flat_map (rangeEntry db startDate endDate) sites)
              (Orchestrator.getCumulativeReadingsForRange rangeCompletion db sites
                 startDate endDate).
Proof.
  intros Hcompletion. unfold Orchestrator.getCumulativeReadingsForRange. cbv zeta.
  eapply Permutation_trans; [| apply (proj1 (exchangeSort_ranks _ _ _ _))].
  eapply Permutation_trans; [| apply Permutation_concat, Hcompletion].
  rewrite (map_ext _ _ (fun batch => processSiteRangeBatch_entries db batch startDate
                                        endDate)).
  rewrite flat_map_concat, batches_concat by lia.
  apply Permutation_refl.
Qed.

(** X15. Whatever the order in which the goroutines of the batches
    finish, [getCumulativeReadingsForRange] returns exactly the entries that
    [getSiteRangeData] gives for the sites (none for a site for which it
    returns nil), each once, ranked so that no entry has a smaller total of
    fuel consumed than an entry after it. *)
Theorem getCumulativeReadingsForRange_entries
    (rangeCompletion : list (list CumulativeSiteRangeResult) ->
                       list (list CumulativeSiteRangeResult))
    (db : DB) (sites : list Site) (startDate endDate : string) :
  (forall outputs, Permutation outputs (rangeCompletion outputs)) ->
  let results :=
    Orchestrator.getCumulativeReadingsForRange rangeCompletion db sites startDate
      endDate in
  Permutation
    (flat_map (fun site =>
                 match Handlers.getSiteRangeData db site startDate endDate with
                 | Some result => [result]
                 | None => []
                 end) sites)
    results
  /\ StronglySorted
       (fun earlier later =>
          (RangeFuelConsumed earlier <? RangeFuelConsumed later)%float = false)
       results.
Proof.
  intros Hcompletion. cbv zeta. split.
  - apply (getCumulativeReadingsForRange_results rangeCompletion db sites startDate
             endDate Hcompletion).
  - unfold Orchestrator.getCumulativeReadingsForRange. cbv zeta.
    apply (proj2 (exchangeSort_ranks _ _ _ _)).
Qed.

Lemma getCumulativeReadingsForRange_entries_witness :
  let sites := [Examples.siteA; Examples.siteB; Examples.siteC; Examples.siteD] in
  let results :=
    Orchestrator.getCumulativeReadingsForRange (@rev _) Examples.rangeStore sites
      "2024-01-01" "2024-01-03" in
  Permutation
    (flat_map (fun site =>
                 match Handlers.getSiteRangeData Examples.rangeStore site "2024-01-01"
                         "2024-01-03" with
                 | Some result => [result]
                 | None => []
                 end) sites)
    results
  /\ StronglySorted
       (fun earlier later =>
          (RangeFuelConsumed earlier <? RangeFuelConsumed later)%float = false)
       results.
Proof.
  apply (getCumulativeReadingsForRange_entries (@rev _) Examples.rangeStore
           [Examples.siteA; Examples.siteB; Examples.siteC; Examples.siteD]
           "2024-01-01" "2024-01-03").
  intros outputs. apply Permutation_rev.
Defined.

(** ** The requests *)


Section RequestProofs.

Variable ParseFloat : string -> option float.
Variable Parse : string -> string -> Res Z.
Variable Format : Z -> string.
Variable today : Z.
Variable nowText : string.
Variable completion :
  list (list CumulativeSiteResult * list Upsert) ->
  list (list CumulativeSiteResult * list Upsert).
Variable rangeCompletion :
  list (list CumulativeSiteRangeResult) -> list (list CumulativeSiteRangeResult).

Lemma GetCumulativeReadings_cases (db : DB) (dir : Directory) (user : option User)
    (body : Res string) :
  let answer :=
    Orchestrator.GetCumulativeReadings ParseFloat Parse Format today nowText completion
      db dir user body in
  (snd answer = [] /\ forall response, fst answer = StatusOK response ->
                      exists account targetDate,
                        user = Some account
                        /\ Store.GetSitesForUser dir (UserID account) (Role account) = Ok []
                        /\ ResponseDate response = Format targetDate
                        /\ ResponseSites response = []
                        /\ ResponseSummary response
                           = mkCumulativeSummary 0 0 0 0%float 0%float 0%float 0%float
                               0%float)
  \/ (exists account date targetDate site sites existingReadings,
         user = Some account /\ body = Ok date
         /\ Orchestrator.parseDate Parse today date = Ok targetDate
         /\ Store.GetSitesForUser dir (UserID account) (Role account) = Ok (site :: sites)
         /\ Store.GetExistingCumulativeReadings dir (Format targetDate) (site :: sites)
            = Ok existingReadings
         /\ let output :=
              Orchestrator.processSitesInBatches ParseFloat completion db (site :: sites)
                (Orchestrator.existingBySiteID existingReadings) targetDate
                (Format targetDate) in
            fst answer
            = StatusOK
                (mkCumulativeReadingsResponse (Format targetDate) nowText
                   (mkUserInfo (Username account) (Role account))
                   (fst output)
                   (Handlers.calculateSummary (fst output)
                      (Z.of_nat (List.length (site :: sites)))))
            /\ snd answer = snd output).
Proof.
  cbv zeta. unfold Orchestrator.GetCumulativeReadings.
  destruct user as [account |]; [| left; split; [reflexivity | discriminate]].
  destruct body as [date | e]; [| left; split; [reflexivity | discriminate]].
  destruct (Orchestrator.parseDate Parse today date) as [targetDate | e] eqn:Hdate;
    [| left; split; [reflexivity | discriminate]].
  cbv zeta.
  destruct (Store.GetSitesForUser dir (UserID account) (Role account)) as [sites | e]
    eqn:Hsites; [| left; split; [reflexivity | discriminate]].
  destruct sites as [| site sites].
  - left. cbn [List.length Nat.eqb fst snd]. split; [reflexivity |].
    intros response H. injection H as <-.
    exists account, targetDate. repeat split; first [reflexivity | assumption].
  - cbn [List.length Nat.eqb].
    destruct (Store.GetExistingCumulativeReadings dir (Format targetDate) (site :: sites))
      as [existingReadings | e] eqn:Hexisting;
      [| left; split; [reflexivity | discriminate]].
    right. exists account, date, targetDate, site, sites, existingReadings.
    repeat (split; [reflexivity || assumption |]).
    destruct (Orchestrator.processSitesInBatches ParseFloat completion db (site :: sites)
                (Orchestrator.existingBySiteID existingReadings) targetDate
                (Format targetDate)) as [results sent].
    split; reflexivity.
Qed.

End RequestProofs.

(** X16. [GetCumulativeReadings] writes to the store only in a request
    that it answers with 200: with no authenticated user, a body that does
    not bind, a date that does not parse, a failure of the query on the
    sites or of the query on the existing readings, no upsert is sent; nor
    is any sent when the user has no site. *)
Theorem GetCumulativeReadings_writes_only_on_success
    (ParseFloat : string -> option float) (Parse : string -> string -> Res Z)
    (Format : Z -> string) (today : Z) (nowText : string)
    (completion : list (list CumulativeSiteResult * list Upsert) ->
                  list (list CumulativeSiteResult * list Upsert))
    (db : DB) (dir : Directory) (user : option User) (body : Res string) :
  let answer :=
    Orchestrator.GetCumulativeReadings ParseFloat Parse Format today nowText completion
      db dir user body in
  (user = None -> answer = (Unauthorized "Authentication required", []))
  /\ ((forall response, fst answer <> StatusOK response) -> snd answer = [])
  /\ (forall account,
         user = Some account ->
         Store.GetSitesForUser dir (UserID account) (Role account) = Ok [] ->
         snd answer = []).
Proof.
  cbv zeta.
  destruct (GetCumulativeReadings_cases ParseFloat Parse Format today nowText completion
              db dir user body) as [[Hsent _] | Hok]; cbv zeta in *.
  - split; [intros ->; reflexivity |]. split; intros; exact Hsent.
  - destruct Hok as [account [date [targetDate [site [sites [existingReadings
      [-> [-> [Hdate [Hsites [Hexisting Hanswer]]]]]]]]]]].
    cbv zeta in Hanswer. destruct Hanswer as [Hfst Hsnd].
    split; [discriminate |]. split.
    + intros Hno. exfalso. eapply Hno. exact Hfst.
    + intros account' Haccount Hnone. injection Haccount as <-.
      rewrite Hsites in Hnone. discriminate Hnone.
Qed.



Lemma calculateRangeSummary_window (results : list CumulativeSiteRangeResult)
    (startDate endDate : string) (startDateTime endDateTime : GoTime.Time) :
  let summary :=
    Handlers.calculateRangeSummary results startDate endDate startDateTime endDateTime in
  SummaryDateRange summary = mkDateRange startDate endDate (negb (String.eqb startDate endDate))
  /\ DaysIncluded summary = Handlers.calculateDaysDifference startDateTime endDateTime
  /\ RangeTotalSites summary = Z.of_nat (List.length results).
Proof.
  cbv zeta. unfold Handlers.calculateRangeSummary. rewrite fold_rangeSummaryStep.
  cbn [SummaryDateRange DaysIncluded RangeTotalSites]. repeat split.
Qed.

Lemma rangeEntry_count (db : DB) (startDate endDate : string) (sites : list Site) :
  (List.length (flat_map (rangeEntry db startDate endDate) sites) <= List.length sites)%nat.
Proof.
  induction sites as [| site sites IH]; [simpl; lia |].
  cbn [flat_map]. rewrite length_app. unfold rangeEntry at 1.
  destruct (Handlers.getSiteRangeData db site startDate endDate); simpl; lia.
Qed.

Lemma rangeEntry_site (db : DB) (startDate endDate : string) (sites : list Site)
    (entry : CumulativeSiteRangeResult) :
  In entry (flat_map (rangeEntry db startDate endDate) sites) ->
  In (RangeSiteID entry) (map ID sites) /\ ReadingDays entry <> 0.
Proof.
  intros Hentry. apply in_flat_map in Hentry. destruct Hentry as [site [Hsite Hentry]].
  unfold rangeEntry in Hentry.
  destruct (Handlers.getSiteRangeData db site startDate endDate) as [result |] eqn:Hdata;
    [| contradiction].
  destruct Hentry as [<- | []].
  apply getSiteRangeData_Some in Hdata.
  destruct Hdata as [Hid [row [scan [_ [_ [Hdays Hresult]]]]]].
  split; [rewrite Hid; apply in_map; exact Hsite | rewrite Hresult; exact Hdays].
Qed.

Lemma calculateDaysDifference_midnights (startDay endDay : Z) :
  - maxDays <= endDay - startDay <= maxDays ->
  endDay <> startDay ->
  Handlers.calculateDaysDifference (GoTime.midnight startDay) (GoTime.midnight endDay)
  = endDay - startDay + 1.
Proof.
  intros Hspan Hne. unfold Handlers.calculateDaysDifference, GoTime.Equal.
  destruct (Z.eqb_spec (GoTime.midnight startDay) (GoTime.midnight endDay)) as [E | _].
  - exfalso. apply Hne. unfold GoTime.midnight in E.
    change GoTime.Day with 86400000000000 in E. lia.
  - rewrite Sub_midnights by exact Hspan.
    rewrite days_of_span by exact Hspan. reflexivity.
Qed.

Lemma calculateDaysDifference_same (t : GoTime.Time) :
  Handlers.calculateDaysDifference t t = 1.
Proof. unfold Handlers.calculateDaysDifference, GoTime.Equal. rewrite Z.eqb_refl. reflexivity. Qed.

Section RangeRequestProofs.

Variable Parse : string -> string -> Res Z.
Variable Format : Z -> string.
Variable today : Z.
Variable rangeCompletion :
  list (list CumulativeSiteRangeResult) -> list (list CumulativeSiteRangeResult).

Lemma GetCumulativeReadingsByDateRange_cases (db : DB) (dir : Directory)
    (user : option User) (startDateStr endDateStr : string)
    (body : CumulativeReadingsRangeResponse) :
  Orchestrator.GetCumulativeReadingsByDateRange Parse Format today rangeCompletion db dir
    user startDateStr endDateStr = StatusOK body ->
  exists account startDate endDate sites,
    user = Some account
    /\ String.eqb startDateStr "" = false
    /\ Orchestrator.parseDate Parse today startDateStr = Ok startDate
    /\ (if String.eqb endDateStr "" then Ok startDate
        else Orchestrator.parseDate Parse today endDateStr) = Ok endDate
    /\ Store.GetSitesForUser dir (UserID account) (Role account) = Ok sites
    /\ body
       = match sites with
         | [] =>
             mkCumulativeReadingsRangeResponse []
               (mkCumulativeRangeSummary
                  (mkDateRange (Format startDate) (Format endDate) false)
                  0 0%float 0%float 0%float 0%float 0%float 0%float
                  (Handlers.calculateDaysDifference (GoTime.midnight startDate)
                     (GoTime.midnight endDate)))
         | _ :: _ =>
             let siteReadings :=
               Orchestrator.getCumulativeReadingsForRange rangeCompletion db sites
                 (Format startDate) (Format endDate) in
             mkCumulativeReadingsRangeResponse siteReadings
               (Handlers.calculateRangeSummary siteReadings (Format startDate)
                  (Format endDate) (GoTime.midnight startDate)
                  (GoTime.midnight endDate))
         end.
Proof.
  unfold Orchestrator.GetCumulativeReadingsByDateRange.
  destruct user as [account |]; [| discriminate].
  destruct (String.eqb startDateStr "") eqn:Hstart; [discriminate |].
  destruct (Orchestrator.parseDate Parse today startDateStr) as [startDate | e] eqn:Hs;
    [| discriminate].
  assert (Hend : (if negb (String.eqb endDateStr "")
                  then Orchestrator.parseDate Parse today endDateStr
                  else Ok startDate)
                 = (if String.eqb endDateStr "" then Ok startDate
                    else Orchestrator.parseDate Parse today endDateStr)).
  { destruct (String.eqb endDateStr ""); reflexivity. }
  rewrite Hend. clear Hend.
  destruct (if String.eqb endDateStr "" then Ok startDate
            else Orchestrator.parseDate Parse today endDateStr) as [endDate | e] eqn:He;
    [| discriminate].
  cbv zeta.
  destruct (Store.GetSitesForUser dir (UserID account) (Role account)) as [sites | e]
    eqn:Hsites; [| discriminate].
  intros Hbody. exists account, startDate, endDate, sites.
  repeat (split; [first [reflexivity | assumption] |]).
  destruct sites as [| site sites]; cbn [List.length Nat.eqb] in Hbody;
    injection Hbody as <-; reflexivity.
Qed.

End RangeRequestProofs.

(** X18. In [GetCumulativeReadingsByDateRange] a request without endDate
    is the request with endDate equal to startDate: the answers are the
    same, and a 200 answer reports one day, the same start and end, and no
    range. *)
Theorem GetCumulativeReadingsByDateRange_single_day
    (Parse : string -> string -> Res Z) (Format : Z -> string) (today : Z)
    (rangeCompletion : list (list CumulativeSiteRangeResult) ->
                       list (list CumulativeSiteRangeResult))
    (db : DB) (dir : Directory) (user : option User) (startDateStr : string) :
  let answer :=
    Orchestrator.GetCumulativeReadingsByDateRange Parse Format today rangeCompletion db
      dir user startDateStr "" in
  answer
  = Orchestrator.GetCumulativeReadingsByDateRange Parse Format today rangeCompletion db
      dir user startDateStr startDateStr
  /\ forall body,
      answer = StatusOK body ->
      let summary := RangeResponseSummary body in
      DaysIncluded summary = 1
      /\ Start (SummaryDateRange summary) = End_ (SummaryDateRange summary)
      /\ IsRange (SummaryDateRange summary) = false.
Proof.
  cbv zeta. split.
  - unfold Orchestrator.GetCumulativeReadingsByDateRange.
    destruct user as [account |]; [| reflexivity].
    destruct (String.eqb startDateStr "") eqn:Hstart; [reflexivity |].
    destruct (Orchestrator.parseDate Parse today startDateStr) as [startDate | e] eqn:Hs;
      [| reflexivity].
    cbn [String.eqb negb]. reflexivity.
  - intros body Hbody.
    apply GetCumulativeReadingsByDateRange_cases in Hbody.
    destruct Hbody as [account [startDate [endDate [sites [_ [_ [_ [Hend [_ ->]]]]]]]]].
    cbn [String.eqb] in Hend. injection Hend as <-.
    destruct sites as [| site sites].
    + cbn [RangeResponseSummary DaysIncluded SummaryDateRange Start End_ IsRange].
      split; [apply calculateDaysDifference_same | split; reflexivity].
    + cbv zeta. cbn [RangeResponseSummary].
      destruct (calculateRangeSummary_window
                  (Orchestrator.getCumulativeReadingsForRange rangeCompletion db
                     (site :: sites) (Format startDate) (Format startDate))
                  (Format startDate) (Format startDate) (GoTime.midnight startDate)
                  (GoTime.midnight startDate)) as [Hrange [Hdays _]].
      cbv zeta in Hrange, Hdays. rewrite Hrange, Hdays.
      cbn [Start End_ IsRange]. rewrite String.eqb_refl.
      split; [apply calculateDaysDifference_same | split; reflexivity].
Qed.

(** X19. A 200 answer of [GetCumulativeReadingsByDateRange] holds, up to
    order, exactly the entries of the accessible sites for which
    [getSiteRangeData] returns one, so at most one per site, each of an
    accessible site and with a count of days that is not zero; the summary
    counts the entries, not the sites; its window is the two dates as
    formatted and its days come from the two parsed dates. The range flag
    is set when the two formatted dates differ, except that it is never set
    when the user has no accessible site. *)
Theorem GetCumulativeReadingsByDateRange_answer
    (Parse : string -> string -> Res Z) (Format : Z -> string) (today : Z)
    (rangeCompletion : list (list CumulativeSiteRangeResult) ->
                       list (list CumulativeSiteRangeResult))
    (db : DB) (dir : Directory) (account : User) (startDateStr endDateStr : string)
    (body : CumulativeReadingsRangeResponse) :
  (forall outputs, Permutation outputs (rangeCompletion outputs)) ->
  Orchestrator.GetCumulativeReadingsByDateRange Parse Format today rangeCompletion db dir
    (Some account) startDateStr endDateStr = StatusOK body ->
  exists sites startDate endDate,
    Store.GetSitesForUser dir (UserID account) (Role account) = Ok sites
    /\ Orchestrator.parseDate Parse today startDateStr = Ok startDate
    /\ (if String.eqb endDateStr "" then Ok startDate
        else Orchestrator.parseDate Parse today endDateStr) = Ok endDate
    /\ Permutation
         (flat_map (fun site =>
                      match Handlers.getSiteRangeData db site (Format startDate)
                              (Format endDate) with
                      | Some result => [result]
                      | None => []
                      end) sites)
         (RangeResponseSites body)
    /\ Forall (fun entry => In (RangeSiteID entry) (map ID sites)
                            /\ ReadingDays entry <> 0)
              (RangeResponseSites body)
    /\ (List.length (RangeResponseSites body) <= List.length sites)%nat
    /\ RangeTotalSites (RangeResponseSummary body)
       = Z.of_nat (List.length (RangeResponseSites body))
    /\ DaysIncluded (RangeResponseSummary body)
       = Handlers.calculateDaysDifference (GoTime.midnight startDate)
           (GoTime.midnight endDate)
    /\ SummaryDateRange (RangeResponseSummary body)
       = mkDateRange (Format startDate) (Format endDate)
           (negb (List.length sites =? 0)%nat
            && negb (String.eqb (Format startDate) (Format endDate))).
Proof.
  intros Hcompletion Hbody.
  apply GetCumulativeReadingsByDateRange_cases in Hbody.
  destruct Hbody as [account' [startDate [endDate [sites [Haccount [_ [Hs [He [Hsites
    ->]]]]]]]]].
  injection Haccount as <-.
  exists sites, startDate, endDate.
  split; [exact Hsites |]. split; [exact Hs |]. split; [exact He |].
  destruct sites as [| site sites].
  - cbn [RangeResponseSites RangeResponseSummary RangeTotalSites DaysIncluded
         SummaryDateRange flat_map List.length Nat.eqb negb andb].
    split; [apply Permutation_refl |]. split; [constructor |]. split; [lia |].
    repeat split.
  - cbv zeta. cbn [RangeResponseSites RangeResponseSummary].
    pose proof (getCumulativeReadingsForRange_results rangeCompletion db (site :: sites)
                  (Format startDate) (Format endDate) Hcompletion) as Hperm.
    set (siteReadings := Orchestrator.getCumulativeReadingsForRange rangeCompletion db
                           (site :: sites) (Format startDate) (Format endDate)) in *.
    destruct (calculateRangeSummary_window siteReadings (Format startDate)
                (Format endDate) (GoTime.midnight startDate) (GoTime.midnight endDate))
      as [Hrange [Hdays Htotal]].
    cbv zeta in Hrange, Hdays, Htotal.
    split; [exact Hperm |]. split; [| split].
    + apply Forall_forall. intros entry Hentry.
      apply (Permutation_in _ (Permutation_sym Hperm)) in Hentry.
      apply (rangeEntry_site db (Format startDate) (Format endDate) (site :: sites)).
      exact Hentry.
    + rewrite <- (Permutation_length Hperm). apply rangeEntry_count.
    + split; [exact Htotal |]. split; [exact Hdays |]. exact Hrange.
Qed.

Lemma GetCumulativeReadingsByDateRange_answer_witness :
  exists body,
    Orchestrator.GetCumulativeReadingsByDateRange Cases.parseExample Cases.formatExample
      Cases.newYear (@rev _) Examples.rangeStore Cases.threeSites
      (Some Cases.administrator) "2024-01-01" "2024-01-03" = StatusOK body
    /\ exists sites startDate endDate,
        Store.GetSitesForUser Cases.threeSites 1 "admin" = Ok sites
        /\ Orchestrator.parseDate Cases.parseExample Cases.newYear "2024-01-01"
           = Ok startDate
        /\ Orchestrator.parseDate Cases.parseExample Cases.newYear "2024-01-03"
           = Ok endDate
        /\ Permutation
             (flat_map (fun site =>
                          match Handlers.getSiteRangeData Examples.rangeStore site
                                  (Cases.formatExample startDate)
                                  (Cases.formatExample endDate) with
                          | Some result => [result]
                          | None => []
                          end) sites)
             (RangeResponseSites body)
        /\ Forall (fun entry => In (RangeSiteID entry) (map ID sites)
                                /\ ReadingDays entry <> 0)
                  (RangeResponseSites body)
        /\ (List.length (RangeResponseSites body) <= List.length sites)%nat
        /\ RangeTotalSites (RangeResponseSummary body)
           = Z.of_nat (List.length (RangeResponseSites body))
        /\ DaysIncluded (RangeResponseSummary body)
           = Handlers.calculateDaysDifference (GoTime.midnight startDate)
               (GoTime.midnight endDate)
        /\ SummaryDateRange (RangeResponseSummary body)
           = mkDateRange (Cases.formatExample startDate) (Cases.formatExample endDate)
               (negb (List.length sites =? 0)%nat
                && negb (String.eqb (Cases.formatExample startDate)
                           (Cases.formatExample endDate))).
Proof.
  eexists. split; [reflexivity |].
  apply (GetCumulativeReadingsByDateRange_answer Cases.parseExample Cases.formatExample
           Cases.newYear (@rev _) Examples.rangeStore Cases.threeSites
           Cases.administrator "2024-01-01" "2024-01-03").
  - intros outputs. apply Permutation_rev.
  - reflexivity.
Defined.

Lemma roundToDecimal_zero :
  Handlers.roundToDecimal 0 1 = 0%float /\ Handlers.roundToDecimal 0 2 = 0%float.
Proof. split; reflexivity. Qed.

(** X20. When no site has a reading in the window, [calculateRangeSummary]
    reports zero sites and exactly zero in every total and in the average
    per site: the average is not computed as a division by the number of
    entries, and nothing is NaN. The window and the days are reported all
    the same. *)
Theorem calculateRangeSummary_no_results (startDate endDate : string)
    (startDateTime endDateTime : GoTime.Time) :
  Handlers.calculateRangeSummary [] startDate endDate startDateTime endDateTime
  = mkCumulativeRangeSummary
      (mkDateRange startDate endDate (negb (String.eqb startDate endDate)))
      0 0%float 0%float 0%float 0%float 0%float 0%float
      (Handlers.calculateDaysDifference startDateTime endDateTime).
Proof.
  unfold Handlers.calculateRangeSummary. cbn [fold_left List.length Z.of_nat Z.ltb Z.compare].
  destruct roundToDecimal_zero as [-> ->]. reflexivity.
Qed.

(** X21. [GetCumulativeReadingsByDateRange] does not reject a window whose
    end is before its start: when both dates parse and the end is up to
    106751 days before the start, a 200 answer reports the difference in
    days plus one, which is zero or negative. *)
Theorem GetCumulativeReadingsByDateRange_reversed_window
    (Parse : string -> string -> Res Z) (Format : Z -> string) (today : Z)
    (rangeCompletion : list (list CumulativeSiteRangeResult) ->
                       list (list CumulativeSiteRangeResult))
    (db : DB) (dir : Directory) (user : option User) (startDateStr endDateStr : string)
    (startDate endDate : Z) (body : CumulativeReadingsRangeResponse) :
  String.eqb endDateStr "" = false ->
  Orchestrator.parseDate Parse today startDateStr = Ok startDate ->
  Orchestrator.parseDate Parse today endDateStr = Ok endDate ->
  endDate < startDate ->
  startDate - endDate <= maxDays ->
  Orchestrator.GetCumulativeReadingsByDateRange Parse Format today rangeCompletion db dir
    user startDateStr endDateStr = StatusOK body ->
  DaysIncluded (RangeResponseSummary body) = endDate - startDate + 1
  /\ DaysIncluded (RangeResponseSummary body) <= 0.
Proof.
  intros Hgiven Hs He Hbefore Hspan Hbody.
  apply GetCumulativeReadingsByDateRange_cases in Hbody.
  destruct Hbody as [account [startDate' [endDate' [sites [_ [_ [Hs' [He' [_ ->]]]]]]]]].
  rewrite Hs in Hs'. injection Hs' as <-.
  rewrite Hgiven, He in He'. injection He' as <-.
  assert (Hdays : Handlers.calculateDaysDifference (GoTime.midnight startDate)
                    (GoTime.midnight endDate) = endDate - startDate + 1).
  { apply calculateDaysDifference_midnights; unfold maxDays in *; lia. }
  assert (Hgoal : forall days : Z,
             days = endDate - startDate + 1 -> days = endDate - startDate + 1 /\ days <= 0)
    by (intros days ->; lia).
  apply Hgoal.
  destruct sites as [| site sites].
  - cbn [RangeResponseSummary DaysIncluded]. exact Hdays.
  - cbv zeta. cbn [RangeResponseSummary].
    rewrite (proj1 (proj2 (calculateRangeSummary_window _ _ _ _ _))). exact Hdays.
Qed.

Lemma GetCumulativeReadingsByDateRange_reversed_window_witness :
  exists body,
    Orchestrator.GetCumulativeReadingsByDateRange Cases.parseExample Cases.formatExample
      Cases.newYear (@rev _) Examples.rangeStore Cases.threeSites
      (Some Cases.administrator) "2024-01-03" "2024-01-01" = StatusOK body
    /\ DaysIncluded (RangeResponseSummary body) = 19723 - 19725 + 1
    /\ DaysIncluded (RangeResponseSummary body) <= 0.
Proof.
  eexists. split; [reflexivity |].
  apply (GetCumulativeReadingsByDateRange_reversed_window Cases.parseExample
           Cases.formatExample Cases.newYear (@rev _) Examples.rangeStore
           Cases.threeSites (Some Cases.administrator) "2024-01-03" "2024-01-01"
           19725 19723).
  - reflexivity.
  - reflexivity.
  - reflexivity.
  - lia.
  - unfold maxDays. lia.
  - reflexivity.
Defined.
